(** * AI-readiness scanner: scoring, pattern logging and reporting

    A shallow embedding of [app.py] (the HTTP handlers [assess_readiness]
    and [get_percentile]) and of [cip_engine_readiness.py] (the class
    [CIPEngineReadiness]) together with the properties their specification
    states about them.

    Conventions of the embedding.
    - Python [int] is [Z].  Python [float] is IEEE binary64; a finite double
      is kept as the pair mantissa/exponent it denotes ([Float m e] stands for
      [m * 2^e]) and every operation rounds to 53 significant bits, ties to
      even, exactly as the hardware does.
    - A Python [dict] read by key is a [gmap]; a [dict] or a result set that
      is iterated or sorted is a list in insertion (row) order.
    - The three tables are lists of rows; a SQL statement is a function on
      the table.  [NOW()] columns are left out.
    - The type of the column [avg_score] is declared in [schema.sql], which
      is not among the sources: the arithmetic of that column is a
      parameter of the embedding (the class [Column]), and PostgreSQL's
      [NUMERIC] is the instance on which values are computed.
    - An uncaught Python exception is the [Raised] case of [outcome].  A
      method of the engine gives back, with its outcome, the database as the
      engine's one connection sees it: what a call has executed before it
      raised stays in the open transaction of that connection. *)

From Stdlib Require Import ZArith QArith Qfield Lia Sorting.Sorted Permutation.
From stdpp Require Import base option list sorting gmap strings pretty.

Close Scope Q_scope.
Local Open Scope Z_scope.

(* ================================================================== *)
(** * Exceptions *)

Inductive outcome (A : Type) : Type :=
| Returned (a : A)
| Raised (exn : string).
Arguments Returned {A} a.
Arguments Raised {A} exn.

Definition obind {A B : Type} (x : outcome A) (k : A -> outcome B) : outcome B :=
  match x with
  | Returned a => k a
  | Raised e => Raised e
  end.

Notation "'do' x <- m ; k" := (obind m (fun x => k))
  (at level 10, x name, m at level 100, k at level 200).

Fixpoint omap {A B : Type} (f : A -> outcome B) (l : list A) : outcome (list B) :=
  match l with
  | [] => Returned []
  | a :: l' => do b <- f a; do bs <- omap f l'; Returned (b :: bs)
  end.

(* ================================================================== *)
(** * Python numbers *)

Module PyFloat.

(** A finite binary64 value [mant * 2^expo]. *)
Record float : Type := Float { mant : Z; expo : Z }.

(** The integer nearest to [n / d], ties to the even one ([0 < d]). *)
Definition rne_div (n d : Z) : Z :=
  let q := n / d in
  let r := n mod d in
  if 2 * r <? d then q
  else if d <? 2 * r then q + 1
  else if Z.even q then q else q + 1.

(** [a / (b * 2^e)] as a fraction of integers. *)
Definition scale_ratio (a b e : Z) : Z * Z :=
  if 0 <=? e then (a, b * 2 ^ e) else (a * 2 ^ (- e), b).

(** The [k] with [2^k <= a / b < 2^(k+1)], for [0 < a] and [0 < b]. *)
Definition binade (a b : Z) : Z :=
  let k := Z.log2 a - Z.log2 b in
  let '(n, d) := scale_ratio a b k in
  if n <? d then k - 1 else k.

(** [a / b] for positive integers, correctly rounded to 53 bits.  The
    quotient overflows when it rounds to [2^1024] or more.  Gradual
    underflow is not reached: every divisor in the program is a length or
    a row count, so a non-zero quotient is far above [2^-1022]. *)
Definition div_magnitude (a b : Z) : outcome float :=
  let e := binade a b - 52 in
  let '(n, d) := scale_ratio a b e in
  let m := rne_div n d in
  if (971 <? e) || ((e =? 971) && (m =? 2 ^ 53))
  then Raised "OverflowError"
  else Returned (Float m e).

Definition float_neg (x : float) : float := Float (- mant x) (expo x).

(** Python's [a / b] on two [int]s (true division). *)
Definition int_true_div (a b : Z) : outcome float :=
  if b =? 0 then Raised "ZeroDivisionError"
  else if a =? 0 then Returned (Float 0 0)
  else
    do x <- div_magnitude (Z.abs a) (Z.abs b);
    Returned (if Z.sgn a * Z.sgn b <? 0 then float_neg x else x).

(** [float(n)] for an [int] and [float(d)] for a [Decimal] holding [q]. *)
Definition float_of_int (n : Z) : outcome float := int_true_div n 1.
Definition float_of_Q (q : Q) : outcome float :=
  int_true_div (Qnum q) (Zpos (Qden q)).

(** [x * y] on doubles: the exact product rounded to 53 bits.  The
    products of the program stay far inside the exponent range. *)
Definition float_mul (x y : float) : float :=
  let p := mant x * mant y in
  let e := expo x + expo y in
  let s := Z.log2 (Z.abs p) - 52 in
  if s <=? 0 then Float p e else Float (rne_div p (2 ^ s)) (e + s).

(** [round(x)] with one argument: nearest integer, ties to even. *)
Definition py_round (x : float) : Z :=
  if 0 <=? expo x then mant x * 2 ^ expo x
  else rne_div (mant x) (2 ^ (- expo x)).

(** [int(x)]: truncation toward zero. *)
Definition py_int (x : float) : Z :=
  if 0 <=? expo x then mant x * 2 ^ expo x
  else Z.quot (mant x) (2 ^ (- expo x)).

(** The literals [100] (converted to a double by [*]) and [0.52]. *)
Definition f100 : float := Float 100 0.
Definition f0_52 : float := Float 4683743612465316 (-53).

(** [f"{x:.1f}"]: one digit after the point, from the exact value of [x]. *)
Definition format_1f (x : float) : string :=
  let a := Z.abs (mant x) in
  let t := if 0 <=? expo x then 10 * a * 2 ^ expo x
           else rne_div (10 * a) (2 ^ (- expo x)) in
  (if mant x <? 0 then "-"%string else ""%string)
    +:+ pretty (t / 10) +:+ "."%string +:+ pretty (t mod 10).

End PyFloat.
Import PyFloat.

(** [sum(values)] and [len(values)] on a list of [int]s. *)
Definition py_sum (values : list Z) : Z := foldr Z.add 0 values.
Definition py_len {A : Type} (l : list A) : Z := Z.of_nat (length l).

(** [round(sum(values) / len(values))]. *)
Definition round_mean (values : list Z) : outcome Z :=
  do x <- int_true_div (py_sum values) (py_len values);
  Returned (py_round x).

(** [str(n)] for an [int]. *)
Definition py_str (n : Z) : string := pretty n.

(** Truthiness of an optional string ([None] and [""] are falsy). *)
Definition truthy_str (s : option string) : bool :=
  match s with
  | Some s => negb (String.eqb s "")
  | None => false
  end.

(** An optional value inside an f-string. *)
Definition fstr (s : option string) : string := default "None"%string s.

(* ================================================================== *)
(** * The tables *)

(** The JSON objects the program writes are flat.  A pattern key is an
    object whose values are strings or [null]; the supporting data of an
    insight also hold integers and doubles. *)
Definition pattern_key : Type := list (string * option string).

Inductive jvalue : Type :=
| JStr (s : option string)
| JInt (n : Z)
| JFloat (x : float).

Definition jobject : Type := list (string * jvalue).

(** [obj ->> key]: the text under [key], NULL when absent or [null]. *)
Fixpoint json_text (obj : pattern_key) (key : string) : option string :=
  match obj with
  | [] => None
  | (k, v) :: obj' => if String.eqb k key then v else json_text obj' key
  end.

(** [readiness_assessments]. *)
Record assessment_row : Type := AssessmentRow {
  a_id : Z;
  a_company_name : option string;
  a_industry : option string;
  a_email : option string;
  a_answers : gmap string Z;
  a_overall_score : Z;
  a_category_scores : list (string * Z);
  a_readiness_level : string
}.

(** Modelled from the spec: the columns of [readiness_patterns], which
    [schema.sql] declares and which is not among the sources.  The table
    is unique on [(pattern_type, pattern_data)].  A value of the numeric
    column [avg_score] is kept as the rational it denotes, written
    [n # 10^s] when the column type gives it [s] digits after the point;
    which rationals the column can hold, and how its arithmetic rounds, is
    the matter of the class [Column] below.  [None] is SQL NULL. *)
Record pattern_row : Type := PatternRow {
  pattern_type : string;
  pattern_data : pattern_key;
  frequency : Z;
  avg_score : option Q
}.

(** [readiness_insights]. *)
Record insight_row : Type := InsightRow {
  insight_type : string;
  insight_text : string;
  confidence : Q;
  supporting_data : jobject
}.

(** Modelled from the spec: the identifier of an assessment is "assigned
    at insert"; the sequence behind it belongs to the schema, which is not
    among the sources, and is kept as the counter [next_id]. *)
Record store : Type := Store {
  assessments : list assessment_row;
  next_id : Z;
  patterns : list pattern_row;
  insights : list insight_row
}.

Definition set_patterns (db : store) (p : list pattern_row) : store :=
  Store (assessments db) (next_id db) p (insights db).

Definition add_insight (db : store) (i : insight_row) : store :=
  Store (assessments db) (next_id db) (patterns db) (insights db ++ [i]).

(** ** The pattern upsert *)

(** One [INSERT INTO readiness_patterns ... ON CONFLICT (pattern_type,
    pattern_data) DO UPDATE] statement.  With a score it is the statement
    of [log_patterns] lines 54-62 and 68-76 and of [assess_readiness]
    lines 128-136 and 140-148; without one it is the frequency-only
    statement of lines 80-87. *)
Record pattern_stmt : Type := Upsert {
  stmt_type : string;
  stmt_data : pattern_key;
  stmt_score : option Z
}.

#[global] Instance pattern_stmt_eq_dec : EqDecision pattern_stmt.
Proof. solve_decision. Defined.

(** ** The arithmetic of the column [avg_score] *)

(** The three operations that the [DO UPDATE] clause applies to
    [avg_score]: [avg_score * frequency], [... + EXCLUDED.avg_score] and
    [... / (frequency + 1)], each with the rounding of the column's type.
    The type is declared in [schema.sql], which is not among the sources,
    and is therefore a parameter. *)
Class Column : Type := {
  sql_mul : Q -> Q -> Q;
  sql_add : Q -> Q -> Q;
  sql_div : Q -> Q -> Q
}.

(** What every numeric type of PostgreSQL gives within its range: integers
    are values of the type, and a product, a sum or a quotient is rounded
    to a value of the type without passing an integer. *)
Class BoundedColumn (col : Column) : Prop := {
  sql_mul_between (a : Q) (f lo hi : Z) :
    0 <= f -> (inject_Z lo <= a)%Q -> (a <= inject_Z hi)%Q ->
    (inject_Z (lo * f) <= sql_mul a (inject_Z f))%Q /\
    (sql_mul a (inject_Z f) <= inject_Z (hi * f))%Q;
  sql_add_between (x : Q) (s lo hi : Z) :
    (inject_Z lo <= x)%Q -> (x <= inject_Z hi)%Q ->
    (inject_Z (lo + s) <= sql_add x (inject_Z s))%Q /\
    (sql_add x (inject_Z s) <= inject_Z (hi + s))%Q;
  sql_div_between (x : Q) (n lo hi : Z) :
    0 < n -> (inject_Z (lo * n) <= x)%Q -> (x <= inject_Z (hi * n))%Q ->
    (inject_Z lo <= sql_div x (inject_Z n))%Q /\
    (sql_div x (inject_Z n) <= inject_Z hi)%Q
}.

(** Arithmetic without rounding, which no column type has: the yardstick
    for the running mean. *)
Definition exact_column : Column :=
  {| sql_mul := Qmult; sql_add := Qplus; sql_div := Qdiv |}.

(** *** PostgreSQL's [NUMERIC]

    The column declared [NUMERIC], without precision or scale, which
    stores every value as it is computed.
    A [NUMERIC] value is a decimal with a display scale, the number of
    digits it shows after the point: [n # 10^s] has scale [s].  The product
    has the sum of the scales of its factors and the sum the greater scale
    of its terms, both exact, which is what [Qmult] and [Qplus] give when
    one side is an integer.  The quotient is rounded, half away from zero,
    to the scale that [select_div_scale] of PostgreSQL's [numeric.c]
    selects: at least 16 significant digits, and no fewer digits after the
    point than either operand shows. *)

(** The display scale: the [s] of a denominator [10^s]. *)
Fixpoint log10_up (fuel : nat) (d : Z) : Z :=
  match fuel with
  | O => 0
  | S k => if d <=? 1 then 0 else 1 + log10_up k ((d + 9) / 10)
  end.

Definition dscale (x : Q) : Z :=
  log10_up (S (Z.to_nat (Z.log2 (Z.pos (Qden x))))) (Z.pos (Qden x)).

(** The weight and the value of the first non-zero digit in base 10000 of
    a positive integer, and of a fraction [n / d] below 1. *)
Fixpoint lead_int (fuel : nat) (q : Z) : Z * Z :=
  match fuel with
  | O => (0, q)
  | S k =>
      if q <? 10000 then (0, q)
      else let '(w, digit) := lead_int k (q / 10000) in (w + 1, digit)
  end.

Fixpoint lead_frac (fuel : nat) (n d : Z) : Z * Z :=
  match fuel with
  | O => (0, n / d)
  | S k =>
      if d <=? n then (0, n / d)
      else let '(w, digit) := lead_frac k (n * 10000) d in (w - 1, digit)
  end.

(** [weight] and [firstdigit] of a value; both are 0 for the value 0. *)
Definition lead (x : Q) : Z * Z :=
  let n := Z.abs (Qnum x) in
  let d := Z.pos (Qden x) in
  if n =? 0 then (0, 0)
  else if d <=? n then lead_int (S (Z.to_nat (Z.log2 n))) (n / d)
  else lead_frac (S (Z.to_nat (Z.log2 d))) n d.

(** [select_div_scale]: [NUMERIC_MIN_SIG_DIGITS] is 16, a digit of base
    10000 holds [DEC_DIGITS] = 4 decimal digits, and the display scale
    stays between 0 and 1000. *)
Definition select_div_scale (x y : Q) : Z :=
  let '(weight1, firstdigit1) := lead x in
  let '(weight2, firstdigit2) := lead y in
  let qweight := weight1 - weight2 - (if firstdigit1 <=? firstdigit2 then 1 else 0) in
  Z.min 1000 (Z.max 0 (Z.max (dscale y) (Z.max (dscale x) (16 - qweight * 4)))).

(** The integer nearest to [n / d], halves away from zero ([0 < d]). *)
Definition round_half_away (n d : Z) : Z :=
  Z.sgn n * ((2 * Z.abs n + d) / (2 * d)).

(** [x] rounded to [s] digits after the point, with display scale [s]. *)
Definition round_scale (s : Z) (x : Q) : Q :=
  round_half_away (Qnum x * 10 ^ s) (Z.pos (Qden x)) # Z.to_pos (10 ^ s).

Definition numeric_div (x y : Q) : Q :=
  round_scale (select_div_scale x y) (x / y).

#[global] Instance numeric_column : Column :=
  {| sql_mul := Qmult; sql_add := Qplus; sql_div := numeric_div |}.

Definition has_key (ty : string) (data : pattern_key) (r : pattern_row) : bool :=
  bool_decide (pattern_type r = ty) && bool_decide (pattern_data r = data).

(** [frequency = frequency + 1,
     avg_score = (avg_score * frequency + EXCLUDED.avg_score) / (frequency + 1)],
    both right-hand sides read from the row as it was, the three
    operations in the arithmetic of the column; arithmetic on NULL gives
    NULL.  The divisor is not 0 on a table that the statements have built:
    a frequency starts at 1 and only grows. *)
Definition on_conflict {col : Column} (score : option Z) (r : pattern_row) : pattern_row :=
  match score with
  | Some s =>
      PatternRow (pattern_type r) (pattern_data r) (frequency r + 1)
        (a ← avg_score r;
         Some (sql_div (sql_add (sql_mul a (inject_Z (frequency r))) (inject_Z s))
                 (inject_Z (frequency r + 1))))
  | None =>
      PatternRow (pattern_type r) (pattern_data r) (frequency r + 1) (avg_score r)
  end.

(** [VALUES (type, data, 1, score)]; the frequency-only statement names
    no [avg_score], which stays NULL. *)
Definition inserted (st : pattern_stmt) : pattern_row :=
  PatternRow (stmt_type st) (stmt_data st) 1 (inject_Z <$> stmt_score st).

Fixpoint upsert {col : Column} (st : pattern_stmt) (table : list pattern_row)
  : list pattern_row :=
  match table with
  | [] => [inserted st]
  | r :: table' =>
      if has_key (stmt_type st) (stmt_data st) r
      then on_conflict (stmt_score st) r :: table'
      else r :: upsert st table'
  end.

(** The statements a cursor executes, in order. *)
Definition execute_all {col : Column} (stmts : list pattern_stmt) (table : list pattern_row)
  : list pattern_row :=
  foldl (fun t st => upsert st t) table stmts.

Definition rows_with_key (ty : string) (data : pattern_key) (table : list pattern_row)
  : list pattern_row :=
  filter (fun r => has_key ty data r = true) table.

(* ================================================================== *)
(** * Sorting *)

(** Python's [sorted] and SQL's [ORDER BY] are modelled by one stable
    sort: an element goes in front of the first one it does not exceed.
    [sorted] is stable by definition; for [ORDER BY] the order of equal
    rows is left open by SQL and the table order is one admissible answer. *)
Fixpoint insert_sorted {A : Type} (le : A -> A -> bool) (x : A) (l : list A) : list A :=
  match l with
  | [] => [x]
  | y :: l' => if le x y then x :: l else y :: insert_sorted le x l'
  end.

Definition stable_sort {A : Type} (le : A -> A -> bool) (l : list A) : list A :=
  foldr (insert_sorted le) [] l.

(** [sorted(l, key=key)]. *)
Definition py_sorted {A : Type} (key : A -> Z) (l : list A) : list A :=
  stable_sort (fun x y => key x <=? key y) l.

(* ================================================================== *)
(** * Scoring ([assess_readiness], lines 42-101) *)

Definition categories : list (string * list Z) :=
  [ ("Data Infrastructure"%string, [1]);
    ("Process Maturity"%string, [2]);
    ("Team Readiness"%string, [3]);
    ("Financial Capacity"%string, [4]);
    ("Problem Definition"%string, [5]);
    ("Technical Foundation"%string, [6]);
    ("Decision Authority"%string, [7]) ].

(** [list(answers.values())]. *)
Definition answer_values (answers : gmap string Z) : list Z :=
  (map_to_list answers).*2.

(** [[answers.get(str(q), 0) for q in question_nums]]. *)
Definition category_values (answers : gmap string Z) (question_nums : list Z) : list Z :=
  map (fun q => default 0 (answers !! py_str q)) question_nums.

(** The loop of lines 57-60 over a category table. *)
Definition category_scores_of (table : list (string * list Z)) (answers : gmap string Z)
  : outcome (list (string * Z)) :=
  omap (fun cq => do s <- round_mean (category_values answers cq.2);
                  Returned (cq.1, s)) table.

Record tier : Type := Tier {
  tier_level : string;
  tier_description : string;
  tier_recommendation : string;
  tier_next_steps : list string
}.

Definition readiness_tier (overall_score : Z) : tier :=
  if 80 <=? overall_score then
    Tier "Highly Ready for AI"
      "Your business has excellent foundations for AI implementation. You're positioned to see significant ROI quickly."
      "You're in the top 15% of businesses we've analyzed. Let's build something powerful together."
      [ "Schedule discovery call to identify specific automation opportunities"%string;
        "Review your tech stack for integration points"%string;
        "Create detailed implementation roadmap with ROI projections"%string ]
  else if 60 <=? overall_score then
    Tier "Ready with Some Preparation"
      "You have solid foundations but a few gaps to address. With targeted preparation, AI can transform your operations."
      "You're in good shape. Let's identify the quick wins and create a roadmap for the rest."
      [ "Address gaps in low-scoring categories"%string;
        "Start with one high-impact automation project"%string;
        "Build internal processes to support AI adoption"%string ]
  else if 40 <=? overall_score then
    Tier "Moderate Readiness"
      "You have potential but need foundational work before AI implementation. The good news: we know exactly what to fix."
      "AI can still help you, but let's start with the basics. We'll show you the path forward."
      [ "Focus on data organization and process documentation"%string;
        "Invest in team training and change management"%string;
        "Consider starting with simple automation before full AI"%string ]
  else
    Tier "Early Stage"
      "You're in the exploration phase. AI is possible but requires significant groundwork first."
      "No problem - everyone starts somewhere. Let's talk about what low-hanging fruit makes sense for you now."
      [ "Document existing workflows and pain points"%string;
        "Digitize manual processes"%string;
        "Build team comfort with basic automation tools"%string ].

(** [sorted(category_scores.items(), key=lambda x: x[1])[:3]]. *)
Definition weak_categories_of (category_scores : list (string * Z)) : list (string * Z) :=
  take 3 (py_sorted snd category_scores).

(* ================================================================== *)
(** * [POST /api/assess] *)

(** The JSON body as the handler reads it.  [data.get(key)] gives [None]
    for an absent key and for a key holding [null] alike, so one [option]
    serves [industry], [email] and [answers].  [company_name] is read with
    a default, which an absent key takes and a [null] does not: its outer
    [None] is the absent key, [Some None] the key holding [null]. *)
Record request : Type := Request {
  req_company_name : option (option string);
  req_industry : option string;
  req_email : option string;
  req_answers : option (gmap string Z)
}.

Record assessment_result : Type := AssessmentResult {
  assessment_id : Z;
  overall_score : Z;
  category_scores : list (string * Z);
  readiness_level : string;
  description : string;
  recommendation : string;
  next_steps : list string;
  weak_areas : list string
}.

Inductive response : Type :=
| Response400 (error : string)
| Response200 (body : assessment_result)
| Response500 (exn : string).

(** The pattern statements of lines 127-148, in execution order. *)
Definition assess_pattern_stmts (industry : option string) (overall : Z)
    (weak_categories : list (string * Z)) : list pattern_stmt :=
  (if truthy_str industry && negb (overall =? 0)
   then [Upsert "industry_readiness" [("industry"%string, industry)] (Some overall)]
   else [])
  ++ map (fun cs => Upsert "weak_category" [("category"%string, Some cs.1)] (Some cs.2))
       weak_categories.

(** The JSON body of the 200 answer (lines 154-163). *)
Definition respond (id overall : Z) (scores : list (string * Z)) : assessment_result :=
  let t := readiness_tier overall in
  AssessmentResult id overall scores (tier_level t) (tier_description t)
    (tier_recommendation t) (tier_next_steps t) (weak_categories_of scores).*1.

(** The writes of lines 104-150: the assessment row, then the patterns. *)
Definition store_assessment {col : Column} (data : request) (answers : gmap string Z)
    (overall : Z) (scores : list (string * Z)) (db : store) : store :=
  let company_name := default (Some "Anonymous"%string) (req_company_name data) in
  let row := AssessmentRow (next_id db) company_name (req_industry data)
               (req_email data) answers overall scores
               (tier_level (readiness_tier overall)) in
  Store (assessments db ++ [row]) (next_id db + 1)
    (execute_all
       (assess_pattern_stmts (req_industry data) overall (weak_categories_of scores))
       (patterns db))
    (insights db).

Definition assess_readiness {col : Column} (data : request) (db : store) : response * store :=
  match req_answers data with
  | None => (Response400 "No answers provided", db)
  | Some answers =>
      if bool_decide (answers = ∅) then (Response400 "No answers provided", db)
      else
        match (do overall <- round_mean (answer_values answers);
               do scores <- category_scores_of categories answers;
               Returned (overall, scores)) with
        | Raised exn => (Response500 exn, db)
        | Returned (overall, scores) =>
            (Response200 (respond (next_id db) overall scores),
             store_assessment data answers overall scores db)
        end
  end.

(* ================================================================== *)
(** * [GET /api/percentile/<int:score>] *)

Record percentile_result : Type := PercentileResult {
  percentile : Z;
  message : string
}.

(** [SELECT COUNT( * ) ... WHERE overall_score < score] and the total. *)
Definition count_below (score : Z) (db : store) : Z :=
  py_len (filter (fun a => a_overall_score a < score) (assessments db)).
Definition count_all (db : store) : Z := py_len (assessments db).

(** Lines 233-236 on the two counts. *)
Definition percentile_of (lower_count total : Z) : outcome Z :=
  if total =? 0 then Returned 50
  else do x <- int_true_div lower_count total;
       Returned (py_round (float_mul x f100)).

Definition get_percentile (score : Z) (db : store) : outcome percentile_result :=
  do p <- percentile_of (count_below score db) (count_all db);
  Returned (PercentileResult p
    ("You're in the top "%string +:+ py_str (100 - p)
       +:+ "% of businesses we've analyzed"%string)).

(* ================================================================== *)
(** * [CIPEngineReadiness] *)

(** The dictionary handed to [log_patterns]; [.get] gives [None] for an
    absent key. *)
Record assessment_data : Type := AssessmentData {
  ad_industry : option string;
  ad_overall_score : option Z;
  ad_category_scores : option (list (string * Z))
}.

(** Lines 53-62. *)
Definition industry_stmts (d : assessment_data) : list pattern_stmt :=
  match ad_overall_score d with
  | Some overall =>
      if truthy_str (ad_industry d) && negb (overall =? 0)
      then [Upsert "industry_readiness" [("industry"%string, ad_industry d)] (Some overall)]
      else []
  | None => []
  end.

(** Lines 65-76; an empty or absent dictionary is falsy. *)
Definition blocking_stmts (d : assessment_data) : list pattern_stmt :=
  match ad_category_scores d with
  | Some scores =>
      flat_map (fun cs =>
        if cs.2 <? 60
        then [Upsert "blocking_factor" [("category"%string, Some cs.1)] (Some cs.2)]
        else []) scores
  | None => []
  end.

(** Lines 79-87; [None >= 75] is a [TypeError]. *)
Definition high_performer_stmts (d : assessment_data) : outcome (list pattern_stmt) :=
  match ad_overall_score d with
  | Some overall =>
      Returned
        (if 75 <=? overall
         then [Upsert "high_performer"
                 [("score_range"%string, Some "75+"%string);
                  ("industry"%string, ad_industry d)] None]
         else [])
  | None => Raised "TypeError"
  end.

(** All statements of one [log_patterns] call that reaches the commit. *)
Definition log_pattern_stmts (d : assessment_data) : outcome (list pattern_stmt) :=
  do hp <- high_performer_stmts d;
  Returned (industry_stmts d ++ blocking_stmts d ++ hp).

(** ** The queries of [analyze_patterns] and [generate_monthly_report] *)

Record industry_row : Type := IndustryRow {
  ir_industry : option string;
  ir_avg_score : option Q;
  ir_frequency : Z
}.

Record blocker_row : Type := BlockerRow {
  br_category : option string;
  br_frequency : Z;
  br_avg_score : option Q
}.

(** [ORDER BY avg_score DESC]: NULL sorts first in descending order. *)
Definition avg_desc (r1 r2 : pattern_row) : bool :=
  match avg_score r1, avg_score r2 with
  | None, _ => true
  | Some _, None => false
  | Some a, Some b => Qle_bool b a
  end.

Definition freq_desc (r1 r2 : pattern_row) : bool :=
  frequency r2 <=? frequency r1.

(** Lines 115-125 and 231-241. *)
Definition query_top_industries (table : list pattern_row) : list industry_row :=
  map (fun r => IndustryRow (json_text (pattern_data r) "industry") (avg_score r) (frequency r))
    (take 5 (stable_sort avg_desc
       (filter (fun r => pattern_type r = "industry_readiness"%string /\ 3 <= frequency r) table))).

(** Lines 129-138 and 245-254. *)
Definition query_blocking_factors (table : list pattern_row) : list blocker_row :=
  map (fun r => BlockerRow (json_text (pattern_data r) "category") (frequency r) (avg_score r))
    (take 5 (stable_sort freq_desc
       (filter (fun r => pattern_type r = "blocking_factor"%string) table))).

(** [SELECT COUNT( * ) ... WHERE overall_score >= 75]. *)
Definition count_high_performers (db : store) : Z :=
  py_len (filter (fun a => 75 <= a_overall_score a) (assessments db)).

(** [float(row['avg_score'])]; [float(None)] is a [TypeError]. *)
Definition float_of_avg (a : option Q) : outcome float :=
  match a with
  | Some q => float_of_Q q
  | None => Raised "TypeError"
  end.

(** ** [analyze_patterns] *)

(** Lines 153-170. *)
Definition top_industry_insight (top_industries : list industry_row)
  : outcome (list insight_row) :=
  match top_industries with
  | [] => Returned []
  | top :: _ =>
      do avg <- float_of_avg (ir_avg_score top);
      Returned
        [InsightRow "top_ready_industry"
           ("Industry with highest AI readiness: "%string +:+ fstr (ir_industry top)
              +:+ " (avg "%string +:+ format_1f avg +:+ " from "%string
              +:+ py_str (ir_frequency top) +:+ " assessments)"%string)
           (90 # 100)
           [("industry"%string, JStr (ir_industry top));
            ("avg_score"%string, JFloat avg);
            ("sample_size"%string, JInt (ir_frequency top))]]
  end.

(** Lines 172-189. *)
Definition top_blocker_insight (blocking_factors : list blocker_row)
  : outcome (list insight_row) :=
  match blocking_factors with
  | [] => Returned []
  | top :: _ =>
      do avg <- float_of_avg (br_avg_score top);
      Returned
        [InsightRow "top_blocker"
           ("Most common readiness blocker: "%string +:+ fstr (br_category top)
              +:+ " ("%string +:+ py_str (br_frequency top)
              +:+ " businesses struggle here, avg "%string +:+ format_1f avg
              +:+ ")"%string)
           (95 # 100)
           [("category"%string, JStr (br_category top));
            ("frequency"%string, JInt (br_frequency top));
            ("avg_score"%string, JFloat avg)]]
  end.

(** Lines 192-209. *)
Definition conversion_insight (high_performers total : Z) : outcome (list insight_row) :=
  if 0 <? total then
    do x <- int_true_div high_performers total;
    let conversion_rate := float_mul x f100 in
    Returned
      [InsightRow "conversion_potential"
         ("High-readiness businesses (75+ score): "%string +:+ py_str high_performers
            +:+ " of "%string +:+ py_str total +:+ " ("%string
            +:+ format_1f conversion_rate
            +:+ "%) - prime targets for Nuru conversion"%string)
         (85 # 100)
         [("high_performers"%string, JInt high_performers);
          ("total"%string, JInt total);
          ("conversion_rate"%string, JFloat conversion_rate)]]
  else Returned [].

(** ** The methods that write *)

(** A method of the engine works on the one connection [self.conn] that
    the engine keeps for its lifetime.  The [store] it is given and the
    [store] it gives back are the database as that connection sees it.
    When it returns it has committed.  When it raises, the statements it
    has executed so far are in the store it gives back: they stay in the
    open transaction of the connection, no rollback follows, and the next
    method that commits on the connection commits them with its own. *)
Definition engine_result : Type := store * outcome unit.

(** One [INSERT INTO readiness_insights] after the text of its insight
    has been formatted, which is where [float(None)] raises. *)
Definition insert_insights (rows : outcome (list insight_row)) (db : store)
  : engine_result :=
  match rows with
  | Returned rows => (foldl add_insight db rows, Returned tt)
  | Raised exn => (db, Raised exn)
  end.

(** [first; next] on the connection: an exception ends the method. *)
Definition and_then (first : engine_result) (next : store -> engine_result)
  : engine_result :=
  match first with
  | (db, Returned _) => next db
  | (db, Raised exn) => (db, Raised exn)
  end.

(** Lines 107-212: the four queries first, then the three insights, each
    inserted as soon as it is formatted, then the commit. *)
Definition analyze_patterns (db : store) : engine_result :=
  let top_industries := query_top_industries (patterns db) in
  let blocking_factors := query_blocking_factors (patterns db) in
  let high_performers := count_high_performers db in
  let total := count_all db in
  and_then (insert_insights (top_industry_insight top_industries) db) (fun db1 =>
  and_then (insert_insights (top_blocker_insight blocking_factors) db1) (fun db2 =>
  insert_insights (conversion_insight high_performers total) db2)).

(** Lines 95-105. *)
Definition _check_analysis_trigger (db : store) : engine_result :=
  let count := count_all db in
  if count mod 10 =? 0 then analyze_patterns db else (db, Returned tt).

(** Lines 40-93.  The statements on [industry_readiness] and
    [blocking_factor] patterns are executed before [overall_score >= 75]
    is evaluated; when that comparison raises they are left uncommitted on
    the connection. *)
Definition log_patterns {col : Column} (d : assessment_data) (db : store) : engine_result :=
  let db1 := set_patterns db
               (execute_all (industry_stmts d ++ blocking_stmts d) (patterns db)) in
  match high_performer_stmts d with
  | Raised exn => (db1, Raised exn)
  | Returned hp =>
      _check_analysis_trigger (set_patterns db1 (execute_all hp (patterns db1)))
  end.

(** ** [generate_monthly_report] *)

Record opportunity_row : Type := Opportunity {
  opportunity : string;
  market_size : Z;
  avg_readiness : float;
  potential_conversions : float
}.

(** Lines 266-274. *)
Definition opportunities_of (top_industries : list industry_row)
  : outcome (list opportunity_row) :=
  do opps <- omap (fun ind =>
      if 5 <=? ir_frequency ind then
        do avg <- float_of_avg (ir_avg_score ind);
        do f <- float_of_int (ir_frequency ind);
        Returned
          [Opportunity
             ("Target "%string +:+ fstr (ir_industry ind) +:+ " - high AI readiness"%string)
             (ir_frequency ind) avg (float_mul f f0_52)]
      else Returned []) (take 3 top_industries);
  Returned (concat opps).

(** Lines 324-342. *)
Definition _generate_recommendations (opportunities : list opportunity_row)
    (blockers : list blocker_row) : list string :=
  match opportunities with
  | top_opp :: _ =>
      ["TARGET: "%string +:+ opportunity top_opp +:+ " - "%string
         +:+ py_str (py_int (potential_conversions top_opp))
         +:+ " potential Nuru conversions"%string]
  | [] => []
  end
  ++
  match blockers with
  | top_blocker :: _ =>
      ["BUILD: "%string +:+ fstr (br_category top_blocker)
         +:+ " support template - "%string +:+ py_str (br_frequency top_blocker)
         +:+ " businesses need help here"%string]
  | [] => []
  end.

(** The report without its period label, its two [AVG] aggregates and
    its 30-day window of insights, which depend on column types and on
    the clock. *)
Record report : Type := Report {
  total_assessments : Z;
  top_ready_industries : list (option string * float * Z);
  blocking_factors : list (option string * Z * float);
  high_ready_count : Z;
  market_opportunities : list opportunity_row;
  recommendations : list string
}.

Definition generate_monthly_report (db : store) : outcome report :=
  let top_industries := query_top_industries (patterns db) in
  let blockers := query_blocking_factors (patterns db) in
  do opportunities <- opportunities_of top_industries;
  do tops <- omap (fun i => do a <- float_of_avg (ir_avg_score i);
                           Returned (ir_industry i, a, ir_frequency i)) top_industries;
  do blocks <- omap (fun b => do a <- float_of_avg (br_avg_score b);
                             Returned (br_category b, br_frequency b, a)) blockers;
  Returned (Report (count_all db) tops blocks (count_high_performers db)
              opportunities (_generate_recommendations opportunities blockers)).

(* ================================================================== *)
(** * Notions used to state the properties *)

(** Ascending by key. *)
Definition key_le {A : Type} (key : A -> Z) (x y : A) : Prop := key x <= key y.

(** The seven categories, each with the value of its one question, 0
    where the question is unanswered. *)
Definition answered (answers : gmap string Z) : list (string * Z) :=
  [ ("Data Infrastructure"%string, default 0 (answers !! "1"%string));
    ("Process Maturity"%string, default 0 (answers !! "2"%string));
    ("Team Readiness"%string, default 0 (answers !! "3"%string));
    ("Financial Capacity"%string, default 0 (answers !! "4"%string));
    ("Problem Definition"%string, default 0 (answers !! "5"%string));
    ("Technical Foundation"%string, default 0 (answers !! "6"%string));
    ("Decision Authority"%string, default 0 (answers !! "7"%string)) ].

(** The arithmetic mean of a list of scores, as an exact rational. *)
Definition mean (scores : list Z) : Q :=
  (inject_Z (py_sum scores) / inject_Z (py_len scores))%Q.

(** The scores of the statements of a run that address one key, in order
    of arrival. *)
Definition scores_for (ty : string) (data : pattern_key) (stmts : list pattern_stmt)
  : list (option Z) :=
  stmt_score <$> filter (fun st => stmt_type st = ty /\ stmt_data st = data) stmts.


Definition rows_of_type (ty : string) (table : list pattern_row) : list pattern_row :=
  filter (fun r => pattern_type r = ty) table.

(** The same with the average in the column's rounded arithmetic: the row
    counts the scores, and its average lies between any two integers that
    enclose them all. *)
Definition accumulated (ty : string) (data : pattern_key) (scores : list Z)
    (table : list pattern_row) : Prop :=
  (scores = [] /\ rows_with_key ty data table = []) \/
  (scores <> [] /\
   exists r a, rows_with_key ty data table = [r] /\
     frequency r = py_len scores /\ avg_score r = Some a /\
     forall lo hi, Forall (fun s => lo <= s <= hi) scores ->
       (inject_Z lo <= a)%Q /\ (a <= inject_Z hi)%Q).

(* ================================================================== *)
(** * Sample inputs *)

Definition empty_store : store := Store [] 1 [] [].

(** The scenario of the specification: three answered questions. *)
Definition scenario_answers : gmap string Z :=
  <["1"%string := 10]> (<["2"%string := 20]> (<["3"%string := 15]> ∅)).
Definition scenario_request : request :=
  Request None None None (Some scenario_answers).

(** Two answers whose mean is a tie. *)
Definition tie_answers : gmap string Z :=
  <["1"%string := 0]> (<["2"%string := 1]> ∅).
Definition tie_request : request := Request None None None (Some tie_answers).

(** Three assessments of one industry, with a statement on another key
    in between. *)
Definition tech_key : pattern_key := [("industry"%string, Some "Tech"%string)].
Definition tech_stmts : list pattern_stmt :=
  [ Upsert "industry_readiness" tech_key (Some 80);
    Upsert "blocking_factor" [("category"%string, Some "Team Readiness"%string)] (Some 20);
    Upsert "industry_readiness" tech_key (Some 90);
    Upsert "industry_readiness" tech_key (Some 70) ].

(** What [log_patterns] is handed for an assessment with two categories. *)
Definition sample_data : assessment_data :=
  AssessmentData (Some "Tech"%string) (Some 70)
    (Some [("Team Readiness"%string, 20); ("Process Maturity"%string, 60)]).

(** Nine assessments already stored. *)
Definition nine_store {col : Column} : store :=
  Nat.iter 9 (fun db => (assess_readiness scenario_request db).2) empty_store.

(** One fetched industry row with five assessments. *)
Definition tech_rows : list industry_row :=
  [IndustryRow (Some "Tech"%string) (Some (826 # 10)%Q) 5].


(* ================================================================== *)
(** * Requests in sequence, and measures of the tables *)

(** The handler on one request after another. *)
Fixpoint run_requests {col : Column} (reqs : list request) (db : store)
  : list response * store :=
  match reqs with
  | [] => ([], db)
  | req :: reqs' =>
      let '(resp, db1) := assess_readiness req db in
      let '(resps, db2) := run_requests reqs' db1 in
      (resp :: resps, db2)
  end.

(** The stored identifiers are distinct and below the next one. *)
Definition ids_fresh (db : store) : Prop :=
  Forall (fun a => a_id a < next_id db) (assessments db) /\
  NoDup (a_id <$> assessments db).

(** The key of a pattern row and of a statement. *)
Definition row_key (r : pattern_row) : string * pattern_key :=
  (pattern_type r, pattern_data r).
Definition stmt_key (st : pattern_stmt) : string * pattern_key :=
  (stmt_type st, stmt_data st).

(** The sum of the [frequency] column. *)
Definition total_frequency (table : list pattern_row) : Z :=
  foldr (fun r n => frequency r + n) 0 table.

(** The patterns that the two queries of [analyze_patterns] select. *)
Definition ready_industry (r : pattern_row) : Prop :=
  pattern_type r = "industry_readiness"%string /\ 3 <= frequency r.
Definition blocking_factor_row (r : pattern_row) : Prop :=
  pattern_type r = "blocking_factor"%string.

(** The types of the insights one analysis of a store is due to add. *)
Definition expected_insight_types (db : store) : list string :=
  (if decide (Exists ready_industry (patterns db))
   then ["top_ready_industry"%string] else []) ++
  (if decide (Exists blocking_factor_row (patterns db))
   then ["top_blocker"%string] else []) ++
  (if decide (0 < count_all db) then ["conversion_potential"%string] else []).

(** High performers of one industry, with a statement on another key. *)
Definition high_key : pattern_key :=
  [("score_range"%string, Some "75+"%string); ("industry"%string, Some "Tech"%string)].
Definition high_stmts : list pattern_stmt :=
  [ Upsert "high_performer" high_key None;
    Upsert "industry_readiness" tech_key (Some 80);
    Upsert "high_performer" high_key None ].

(** Ten assessments stored. *)
Definition ten_store {col : Column} : store :=
  (assess_readiness scenario_request nine_store).2.

(** The overall scores that the answered requests of one industry have
    logged, in order of arrival: a request counts when it was answered
    200 with a score other than 0. *)
Definition industry_score (ind : string) (req : request) (resp : response) : list Z :=
  match resp with
  | Response200 body =>
      if decide (req_industry req = Some ind /\ overall_score body <> 0)
      then [overall_score body] else []
  | _ => []
  end.

Fixpoint industry_scores (ind : string) (reqs : list request) (resps : list response)
  : list Z :=
  match reqs, resps with
  | req :: reqs', resp :: resps' =>
      industry_score ind req resp ++ industry_scores ind reqs' resps'
  | _, _ => []
  end.

(** Two requests of one industry around one without an industry. *)
Definition retail_request (v : Z) : request :=
  Request None (Some "Retail"%string) None (Some (<["1"%string := v]> ∅)).
Definition retail_requests : list request :=
  [retail_request 40; scenario_request; retail_request 70].

(** A store with the patterns of [tech_stmts] and nothing else. *)
Definition tech_store {col : Column} : store := Store [] 1 (execute_all tech_stmts []) [].

(** ** What the analysis and the report need of the patterns table *)

(** A row counted at least once whose average lies between 0 and 100. *)
Definition scored_row (r : pattern_row) : Prop :=
  1 <= frequency r /\
  exists a, avg_score r = Some a /\ (0 <= a)%Q /\ (a <= 100)%Q.

(** The pattern types that [analyze_patterns] and
    [generate_monthly_report] select and convert with [float]. *)
Definition read_by_analysis (ty : string) : Prop :=
  ty = "industry_readiness"%string \/ ty = "blocking_factor"%string.

Definition analysable (table : list pattern_row) : Prop :=
  Forall (fun r => read_by_analysis (pattern_type r) -> scored_row r) table.

(** A statement on such a type carries a score between 0 and 100. *)
Definition scored_stmt (st : pattern_stmt) : Prop :=
  read_by_analysis (stmt_type st) ->
  exists s, stmt_score st = Some s /\ 0 <= s <= 100.

(** Assessment data with an overall score and category scores between 0
    and 100. *)
Definition scores_in_range (d : assessment_data) : Prop :=
  (exists overall, ad_overall_score d = Some overall /\ 0 <= overall <= 100) /\
  (forall scores, ad_category_scores d = Some scores ->
     Forall (fun cs => 0 <= cs.2 <= 100) scores).

(** ** Further notions and sample inputs *)

(** The sum of the submitted values, read off the mapping itself. *)
Definition submitted_sum (answers : gmap string Z) : Z :=
  map_fold (fun _ v total => v + total) 0 answers.

(** Forty assessments stored by the handler: 23 with the overall score 10
    and 17 with the overall score 90. *)
Definition forty_store {col : Column} : store :=
  (run_requests (replicate 23 (retail_request 10) ++ replicate 17 (retail_request 90))
     empty_store).2.

(** The spec's reading of "the top 3 industry_readiness patterns with
    frequency >= 5": the patterns of frequency 5 or more, and of these the
    three of highest average. *)
Definition top3_with_frequency_5 (table : list pattern_row) : list pattern_row :=
  take 3 (stable_sort avg_desc
    (filter (fun r => pattern_type r = "industry_readiness"%string /\ 5 <= frequency r)
       table)).

(** Three industries seen 3 times with high averages, and one seen 10
    times with a lower one. *)
Definition crowded_table : list pattern_row :=
  [ PatternRow "industry_readiness" [("industry"%string, Some "A"%string)] 3 (Some 90%Q);
    PatternRow "industry_readiness" [("industry"%string, Some "B"%string)] 3 (Some 85%Q);
    PatternRow "industry_readiness" [("industry"%string, Some "C"%string)] 3 (Some 80%Q);
    PatternRow "industry_readiness" [("industry"%string, Some "D"%string)] 10 (Some 70%Q) ].

(** Assessment data without an overall score. *)
Definition unscored_data : assessment_data :=
  AssessmentData (Some "Tech"%string) None
    (Some [("Team Readiness"%string, 20); ("Process Maturity"%string, 60)]).


(** The pattern statements that one call of [log_patterns] executes, in
    order, whether it returns or raises: those of lines 53-76, and the
    [high_performer] statement when [overall_score >= 75] can be
    evaluated. *)
Definition executed_stmts (d : assessment_data) : list pattern_stmt :=
  industry_stmts d ++ blocking_stmts d ++
  match high_performer_stmts d with
  | Returned hp => hp
  | Raised _ => []
  end.

(** What [log_patterns] is handed for the assessment of a response. *)
Definition data_of (industry : option string) (body : assessment_result)
  : assessment_data :=
  AssessmentData industry (Some (overall_score body)) (Some (category_scores body)).

(** The scenario request with [company_name] present and [null]. *)
Definition null_company_request : request :=
  Request (Some None) None None (Some scenario_answers).

(* ================================================================== *)
(** * Rounding to nearest, ties to even *)

Section Rounding.

Lemma rne_div_near (n d : Z) :
  0 < d -> 2 * Z.abs (rne_div n d * d - n) <= d.
Proof.
  intros Hd. unfold rne_div.
  pose proof (Z.div_mod n d ltac:(lia)) as Hn.
  pose proof (Z.mod_pos_bound n d Hd) as Hr.
  destruct (Z.ltb_spec (2 * (n mod d)) d);
    [|destruct (Z.ltb_spec d (2 * (n mod d))); [|destruct (Z.even (n / d))]]; nia.
Qed.

Lemma rne_div_tie_even (n d : Z) :
  0 < d -> 2 * Z.abs (rne_div n d * d - n) = d -> Z.even (rne_div n d) = true.
Proof.
  intros Hd. unfold rne_div.
  pose proof (Z.div_mod n d ltac:(lia)) as Hn.
  pose proof (Z.mod_pos_bound n d Hd) as Hr.
  destruct (Z.ltb_spec (2 * (n mod d)) d); [nia|].
  destruct (Z.ltb_spec d (2 * (n mod d))); [nia|].
  destruct (Z.even (n / d)) eqn:Hev; [done|].
  intros _. rewrite Z.even_add, Hev. reflexivity.
Qed.

Lemma rne_div_unique (n d r : Z) :
  0 < d ->
  2 * Z.abs (r * d - n) < d \/ (2 * Z.abs (r * d - n) = d /\ Z.even r = true) ->
  rne_div n d = r.
Proof.
  intros Hd Hr. unfold rne_div.
  pose proof (Z.div_mod n d ltac:(lia)) as Hn.
  pose proof (Z.mod_pos_bound n d Hd) as Hm.
  set (q := n / d) in *. set (m := n mod d) in *.
  assert (Hcase : r <= q - 1 \/ r = q \/ r = q + 1 \/ q + 2 <= r) by lia.
  destruct (Z.ltb_spec (2 * m) d).
  { destruct Hcase as [?|[?|[?|?]]]; [nia|lia|nia|nia]. }
  destruct (Z.ltb_spec d (2 * m)).
  { destruct Hcase as [?|[?|[?|?]]]; [nia|nia|lia|nia]. }
  assert (Hm2 : 2 * m = d) by lia.
  destruct Hr as [Hr|[Hr Hev]]; [destruct Hcase as [?|[?|[?|?]]]; nia|].
  destruct Hcase as [?|[?|[?|?]]]; [nia| | |nia]; subst r.
  - rewrite Hev. reflexivity.
  - rewrite Z.even_add in Hev. destruct (Z.even q); [discriminate Hev|reflexivity].
Qed.

Lemma rne_div_exact (q d : Z) : 0 < d -> rne_div (q * d) d = q.
Proof. intros Hd. apply rne_div_unique; [done|]. left. lia. Qed.

Lemma rne_div_le (n d c : Z) : 0 < d -> n <= c * d -> rne_div n d <= c.
Proof. intros Hd Hn. pose proof (rne_div_near n d Hd). nia. Qed.

Lemma rne_div_ge (n d c : Z) : 0 < d -> c * d <= n -> c <= rne_div n d.
Proof. intros Hd Hn. pose proof (rne_div_near n d Hd). nia. Qed.

(** Rounding a quotient to [E] extra bits first does not change the
    integer it rounds to, as long as the divisor is below [2^E]. *)
Lemma rne_div_twice (s n E : Z) :
  0 < n -> 0 < E -> n < 2 ^ E ->
  rne_div (rne_div (s * 2 ^ E) n) (2 ^ E) = rne_div s n.
Proof.
  intros Hn HE Hlt.
  assert (HP : 2 ^ E = 2 * 2 ^ (E - 1)).
  { rewrite <- Z.pow_succ_r by lia. f_equal. lia. }
  assert (HP' : 0 < 2 ^ (E - 1)) by (apply Z.pow_pos_nonneg; lia).
  set (P := 2 ^ E) in *. set (P' := 2 ^ (E - 1)) in *.
  pose proof (rne_div_near s n Hn) as Hnear.
  pose proof (rne_div_tie_even s n Hn) as Heven.
  set (r := rne_div s n) in *.
  apply rne_div_unique; [lia|].
  destruct (Z.eq_dec (2 * Z.abs (r * n - s)) n) as [Htie|Hno].
  - right. split; [|auto].
    assert (Hs : s * P = (2 * s - r * n + (r * n - s)) * P) by lia.
    destruct (Z.abs_spec (r * n - s)) as [[? Ha]|[? Ha]]; rewrite Ha in Htie.
    + assert (Hex : s * P = ((2 * r - 1) * P') * n) by nia.
      rewrite Hex, rne_div_exact by done. nia.
    + assert (Hex : s * P = ((2 * r + 1) * P') * n) by nia.
      rewrite Hex, rne_div_exact by done. nia.
  - left.
    pose proof (rne_div_near (s * P) n Hn) as Hm.
    set (m := rne_div (s * P) n) in *.
    assert (H1 : 2 * Z.abs (r * n - s) <= n - 1) by lia.
    assert (H2 : 2 * Z.abs (r * n * P - s * P) <= (n - 1) * P) by nia.
    assert (H3 : 2 * n * Z.abs (r * P - m) <= (n - 1) * P + n).
    { transitivity (2 * Z.abs (r * n * P - s * P) + 2 * Z.abs (m * n - s * P)); [|lia].
      rewrite <- (Z.abs_eq n) at 1 by lia.
      rewrite <- !Z.mul_assoc, <- Z.abs_mul. lia. }
    nia.
Qed.

End Rounding.

(* ================================================================== *)
(** * True division of integers *)

Section TrueDivision.

Lemma scale_ratio_eq (a b e : Z) :
  scale_ratio a b e = (a * 2 ^ Z.max 0 (- e), b * 2 ^ Z.max 0 e).
Proof.
  unfold scale_ratio. destruct (Z.leb_spec 0 e).
  - rewrite (Z.max_l 0 (- e)), (Z.max_r 0 e) by lia. f_equal. lia.
  - rewrite (Z.max_r 0 (- e)), (Z.max_l 0 e) by lia. f_equal. lia.
Qed.

Lemma binade_le (a b : Z) : binade a b <= Z.log2 a - Z.log2 b.
Proof.
  unfold binade. destruct (scale_ratio a b _) as [n d].
  destruct (n <? d); lia.
Qed.

(** [a / b < 2^(binade a b + 1)]. *)
Lemma binade_upper (a b : Z) :
  0 < a -> 0 < b ->
  a * 2 ^ Z.max 0 (- (binade a b + 1)) < b * 2 ^ Z.max 0 (binade a b + 1).
Proof.
  intros Ha Hb. unfold binade.
  destruct (Z.log2_spec a Ha) as [Ha1 Ha2].
  destruct (Z.log2_spec b Hb) as [Hb1 Hb2].
  pose proof (Z.log2_nonneg a) as Hla. pose proof (Z.log2_nonneg b) as Hlb.
  set (la := Z.log2 a) in *. set (lb := Z.log2 b) in *.
  rewrite scale_ratio_eq.
  destruct (Z.ltb_spec (a * 2 ^ Z.max 0 (- (la - lb))) (b * 2 ^ Z.max 0 (la - lb))) as [Hlt|Hge].
  - replace (la - lb - 1 + 1) with (la - lb) by lia. exact Hlt.
  - destruct (Z.le_gt_cases 0 (la - lb + 1)) as [Hk|Hk].
    + rewrite (Z.max_l 0 (- (la - lb + 1))), (Z.max_r 0 (la - lb + 1)) by lia.
      assert (Hp : 2 ^ Z.succ la = 2 ^ lb * 2 ^ (la - lb + 1)).
      { rewrite <- Z.pow_add_r by lia. f_equal. lia. }
      assert (0 < 2 ^ (la - lb + 1)) by (apply Z.pow_pos_nonneg; lia).
      nia.
    + rewrite (Z.max_r 0 (- (la - lb + 1))), (Z.max_l 0 (la - lb + 1)) by lia.
      assert (Hp : 2 ^ lb = 2 ^ Z.succ la * 2 ^ (- (la - lb + 1))).
      { rewrite <- Z.pow_add_r by lia. f_equal. lia. }
      assert (0 < 2 ^ (- (la - lb + 1))) by (apply Z.pow_pos_nonneg; lia).
      nia.
Qed.

Lemma binade_bounded (a b c : Z) :
  0 < a -> 0 < b -> 0 <= c -> a <= 2 ^ c * b -> binade a b <= c.
Proof.
  intros Ha Hb Hc Hab. pose proof (binade_le a b).
  assert (Z.log2 a <= Z.log2 (b * 2 ^ c)) by (apply Z.log2_le_mono; lia).
  rewrite Z.log2_mul_pow2 in * by lia. lia.
Qed.

(** A quotient of magnitude at most [2^c], [c <= 51], is a double with
    a negative exponent [-E] and the mantissa nearest to [a * 2^E / b]. *)
Lemma div_magnitude_small (a b c : Z) :
  0 < a -> 0 < b -> 0 <= c <= 51 -> a <= 2 ^ c * b ->
  exists E, 52 - c <= E /\ a * 2 ^ E < 2 ^ 53 * b /\
    div_magnitude a b = Returned (Float (rne_div (a * 2 ^ E) b) (- E)).
Proof.
  intros Ha Hb Hc Hab.
  pose proof (binade_bounded a b c Ha Hb ltac:(lia) Hab) as Hk.
  pose proof (binade_upper a b Ha Hb) as Hup.
  unfold div_magnitude. set (k := binade a b) in *.
  exists (52 - k). split; [lia|].
  assert (Hscale : scale_ratio a b (k - 52) = (a * 2 ^ (52 - k), b)).
  { unfold scale_ratio. destruct (Z.leb_spec 0 (k - 52)); [lia|].
    replace (- (k - 52)) with (52 - k) by lia. reflexivity. }
  rewrite Hscale. split.
  - destruct (Z.le_gt_cases 0 (k + 1)) as [Hk1|Hk1].
    + rewrite (Z.max_l 0 (- (k + 1))), (Z.max_r 0 (k + 1)) in Hup by lia.
      assert (Hp : 2 ^ 53 = 2 ^ (k + 1) * 2 ^ (52 - k)).
      { rewrite <- Z.pow_add_r by lia. f_equal. lia. }
      assert (0 < 2 ^ (52 - k)) by (apply Z.pow_pos_nonneg; lia).
      rewrite Hp. nia.
    + rewrite (Z.max_r 0 (- (k + 1))), (Z.max_l 0 (k + 1)) in Hup by lia.
      assert (Hp : 2 ^ (52 - k) = 2 ^ (- (k + 1)) * 2 ^ 53).
      { rewrite <- Z.pow_add_r by lia. f_equal. lia. }
      rewrite Hp. nia.
  - destruct (Z.ltb_spec 971 (k - 52)); [lia|].
    destruct (Z.eqb_spec (k - 52) 971); [lia|].
    cbn [orb andb]. replace (k - 52) with (- (52 - k)) by lia. reflexivity.
Qed.

Lemma int_true_div_small (a b c : Z) :
  0 < b -> 0 <= c <= 51 -> Z.abs a <= 2 ^ c * b ->
  (a = 0 /\ int_true_div a b = Returned (Float 0 0)) \/
  exists E, a <> 0 /\ 52 - c <= E /\ Z.abs a * 2 ^ E < 2 ^ 53 * b /\
    int_true_div a b =
      Returned (Float (Z.sgn a * rne_div (Z.abs a * 2 ^ E) b) (- E)).
Proof.
  intros Hb Hc Hab. unfold int_true_div.
  destruct (Z.eqb_spec b 0); [lia|].
  destruct (Z.eqb_spec a 0) as [->|Ha]; [left; split; reflexivity|right].
  destruct (div_magnitude_small (Z.abs a) (Z.abs b) c) as (E & HE & Hlt & Hdiv);
    [lia|lia|lia|rewrite (Z.abs_eq b); lia|].
  rewrite (Z.abs_eq b) in * by lia.
  exists E. split; [exact Ha|]. split; [exact HE|]. split; [exact Hlt|].
  rewrite Hdiv. cbn [obind]. f_equal.
  rewrite (Z.sgn_pos b) by lia. unfold float_neg. cbn [mant expo].
  destruct (Z.ltb_spec (Z.sgn a * 1) 0).
  - rewrite (Z.sgn_neg a) by lia. f_equal; lia.
  - rewrite (Z.sgn_pos a) by lia. f_equal; lia.
Qed.

End TrueDivision.

(* ================================================================== *)
(** * [round(sum / len)] and the percentile formula *)

Section RoundedQuotients.

Lemma abs2_le (x d : Z) : 2 * Z.abs x <= d <-> - d <= 2 * x <= d.
Proof. lia. Qed.

Lemma py_round_int_true_div (s n : Z) :
  0 <= s <= 2 ^ 7 * n -> 0 < n < 2 ^ 40 ->
  (do x <- int_true_div s n; Returned (py_round x)) = Returned (rne_div s n).
Proof.
  intros Hs Hn.
  destruct (int_true_div_small s n 7) as [[-> Hdiv]|(E & Hnz & HE & _ & Hdiv)];
    [lia|lia|lia| |]; rewrite Hdiv; cbn [obind]; f_equal.
  - symmetry. apply (rne_div_exact 0 n). lia.
  - unfold py_round. cbn [mant expo].
    destruct (Z.leb_spec 0 (- E)); [lia|].
    rewrite Z.opp_involutive, (Z.sgn_pos s), (Z.abs_eq s), Z.mul_1_l by lia.
    apply rne_div_twice; [lia|lia|].
    apply Z.lt_le_trans with (2 ^ 40); [lia|].
    apply Z.pow_le_mono_r; lia.
Qed.

(** An integer of ordinary size survives [round(v / 1)] unchanged. *)
Lemma round_mean_single (v : Z) :
  Z.abs v <= 2 ^ 51 -> round_mean [v] = Returned v.
Proof.
  intros Hv. unfold round_mean, py_sum, py_len. cbn [foldr length].
  change (Z.of_nat 1) with 1. rewrite Z.add_0_r.
  destruct (int_true_div_small v 1 51) as [[-> Hdiv]|(E & Hnz & HE & _ & Hdiv)];
    [lia|lia|lia| |]; rewrite Hdiv; cbn [obind]; f_equal.
  unfold py_round. cbn [mant expo].
  destruct (Z.leb_spec 0 (- E)); [lia|].
  assert (0 < 2 ^ E) by (apply Z.pow_pos_nonneg; lia).
  rewrite Z.opp_involutive.
  replace (Z.abs v * 2 ^ E) with ((Z.abs v * 2 ^ E) * 1) by lia.
  rewrite rne_div_exact by lia.
  replace (Z.sgn v * (Z.abs v * 2 ^ E)) with (v * 2 ^ E)
    by (destruct v; cbn [Z.sgn Z.abs]; lia).
  apply rne_div_exact; lia.
Qed.

Lemma py_sum_bounds (lo hi : Z) (values : list Z) :
  Forall (fun v => lo <= v <= hi) values ->
  lo * py_len values <= py_sum values <= hi * py_len values.
Proof.
  unfold py_sum, py_len. induction 1 as [|v values Hv _ IH]; cbn [foldr length]; lia.
Qed.


Lemma py_len_pos {A : Type} (l : list A) : l <> [] -> 0 < py_len l.
Proof. unfold py_len. destruct l; [done|]. cbn [length]. lia. Qed.

Lemma round_mean_returns (values : list Z) :
  values <> [] -> Forall (fun v => Z.abs v <= 2 ^ 51) values ->
  exists r, round_mean values = Returned r.
Proof.
  intros Hne Hall. unfold round_mean.
  pose proof (py_len_pos values Hne) as Hlen.
  assert (Hb : Forall (fun v => - 2 ^ 51 <= v <= 2 ^ 51) values).
  { eapply Forall_impl; [exact Hall|]. cbn. intros v Hv. lia. }
  apply py_sum_bounds in Hb.
  destruct (int_true_div_small (py_sum values) (py_len values) 51)
    as [[_ Hdiv]|(E & _ & _ & _ & Hdiv)]; [lia|lia|lia| |]; rewrite Hdiv; cbn [obind]; eauto.
Qed.

Lemma round_mean_spec (values : list Z) :
  values <> [] -> Forall (fun v => 0 <= v <= 100) values -> py_len values < 2 ^ 40 ->
  round_mean values = Returned (rne_div (py_sum values) (py_len values)).
Proof.
  intros Hne Hall Hlen. unfold round_mean.
  pose proof (py_len_pos values Hne).
  apply py_sum_bounds in Hall.
  apply py_round_int_true_div; lia.
Qed.

Lemma percentile_of_empty (lower_count : Z) : percentile_of lower_count 0 = Returned 50.
Proof. reflexivity. Qed.

Lemma percentile_of_none_below (total : Z) :
  total <> 0 -> percentile_of 0 total = Returned 0.
Proof.
  intros Ht. unfold percentile_of, int_true_div.
  destruct (Z.eqb_spec total 0); [lia|]. reflexivity.
Qed.

Lemma percentile_of_all_below (total : Z) :
  0 < total -> percentile_of total total = Returned 100.
Proof.
  intros Ht. unfold percentile_of.
  destruct (Z.eqb_spec total 0); [lia|].
  destruct (int_true_div_small total total 0) as [[-> _]|(E & _ & HE & Hlt & Hdiv)];
    [lia|lia|lia|lia|].
  rewrite (Z.abs_eq total), (Z.sgn_pos total), Z.mul_1_l in * by lia.
  assert (HE52 : E = 52).
  { assert (2 ^ E < 2 ^ 53) by nia.
    assert (E < 53) by (apply (Z.pow_lt_mono_r_iff 2); lia). lia. }
  subst E. rewrite (Z.mul_comm total), rne_div_exact in Hdiv by lia.
  rewrite Hdiv. reflexivity.
Qed.

(** Three roundings in a row (quotient to 53 bits, product to 53 bits,
    result to an integer) stay within half a unit of the exact value
    when the scale [S * Q] dominates the divisor. *)
Lemma nearest_chain (t l m0 m2 p S Q : Z) :
  0 < t -> 0 < S -> 0 < Q -> t * S + 100 * t < S * Q ->
  - Q <= 2 * (p * Q - m2) <= Q ->
  - S <= 2 * (m2 * S - m0 * 100) <= S ->
  - t <= 2 * (m0 * t - l * (S * Q)) <= t ->
  - t <= 2 * (p * t - 100 * l) <= t.
Proof.
  intros Ht HS HQ Hsmall [Hp1 Hp2] [Hm1 Hm2] [Hl1 Hl2].
  assert (HtS : 0 <= t * S) by (apply Z.mul_nonneg_nonneg; lia).
  pose proof (Z.mul_le_mono_nonneg_l _ _ (t * S) HtS Hp1) as A1.
  pose proof (Z.mul_le_mono_nonneg_l _ _ (t * S) HtS Hp2) as A2.
  pose proof (Z.mul_le_mono_nonneg_l _ _ t ltac:(lia) Hm1) as B1.
  pose proof (Z.mul_le_mono_nonneg_l _ _ t ltac:(lia) Hm2) as B2.
  set (D := p * t - 100 * l).
  assert (Hid : 2 * D * (S * Q)
                = t * S * (2 * (p * Q - m2)) + t * (2 * (m2 * S - m0 * 100))
                  + 100 * (2 * (m0 * t - l * (S * Q)))) by (unfold D; ring).
  assert (HPE : 0 < S * Q) by (apply Z.mul_pos_pos; lia).
  assert (Hup : 2 * D * (S * Q) <= t * (S * Q) + (t * S + 100 * t)).
  { rewrite Hid. replace (t * (S * Q)) with (t * S * Q) by ring. lia. }
  assert (Hlo : - (t * (S * Q) + (t * S + 100 * t)) <= 2 * D * (S * Q)).
  { rewrite Hid. replace (t * (S * Q)) with (t * S * Q) by ring.
    replace (t * S * - Q) with (- (t * S * Q)) in A1 by ring.
    replace (t * - S) with (- (t * S)) in B1 by ring. lia. }
  split.
  - destruct (Z.le_gt_cases (- t) (2 * D)) as [|Hc]; [done|exfalso].
    assert (2 * D * (S * Q) <= (- t - 1) * (S * Q))
      by (apply Z.mul_le_mono_nonneg_r; lia).
    replace ((- t - 1) * (S * Q)) with (- (t * (S * Q)) - S * Q) in * by ring. lia.
  - destruct (Z.le_gt_cases (2 * D) t) as [|Hc]; [done|exfalso].
    assert ((t + 1) * (S * Q) <= 2 * D * (S * Q))
      by (apply Z.mul_le_mono_nonneg_r; lia).
    replace ((t + 1) * (S * Q)) with (t * (S * Q) + S * Q) in * by ring. lia.
Qed.

(** The percentile is an integer nearest to [100 * lower_count / total]. *)
Lemma percentile_of_nearest (lower_count total : Z) :
  0 <= lower_count <= total -> 0 < total < 2 ^ 44 ->
  exists p, percentile_of lower_count total = Returned p /\
    2 * Z.abs (p * total - 100 * lower_count) <= total.
Proof.
  intros Hl Ht. unfold percentile_of.
  destruct (Z.eqb_spec total 0); [lia|].
  destruct (int_true_div_small lower_count total 0) as [[-> Hdiv]|(E & Hlpos' & HE & Hlt & Hdiv)];
    [lia|lia|lia| |]; rewrite Hdiv; cbn [obind].
  { exists 0. split; [reflexivity|lia]. }
  assert (Hlpos : 0 < lower_count) by lia.
  rewrite (Z.abs_eq lower_count), (Z.sgn_pos lower_count), Z.mul_1_l in * by lia.
  eexists. split; [reflexivity|].
  assert (HPEpos : 0 < 2 ^ E) by (apply Z.pow_pos_nonneg; lia).
  pose proof (rne_div_near (lower_count * 2 ^ E) total ltac:(lia)) as Hm0.
  pose proof (rne_div_le (lower_count * 2 ^ E) total (2 ^ 53) ltac:(lia) ltac:(lia)) as Hm0le.
  pose proof (rne_div_ge (lower_count * 2 ^ E) total 0 ltac:(lia)
                ltac:(apply Z.mul_nonneg_nonneg; lia)) as Hm0ge.
  set (m0 := rne_div (lower_count * 2 ^ E) total) in *.
  assert (HPE : 2 ^ 52 <= 2 ^ E) by (apply Z.pow_le_mono_r; lia).
  assert (H44 : 2 ^ 52 = 2 ^ 8 * 2 ^ 44) by reflexivity.
  unfold float_mul, f100. cbn [mant expo].
  rewrite (Z.abs_eq (m0 * 100)) by lia.
  apply abs2_le. apply abs2_le in Hm0.
  destruct (Z.leb_spec (Z.log2 (m0 * 100) - 52) 0) as [Hs|Hs].
  - unfold py_round. cbn [mant expo].
    destruct (Z.leb_spec 0 (- E + 0)); [lia|].
    replace (- (- E + 0)) with E by lia.
    pose proof (rne_div_near (m0 * 100) (2 ^ E) ltac:(lia)) as Hp.
    apply abs2_le in Hp.
    apply (nearest_chain total lower_count m0 (m0 * 100)
             (rne_div (m0 * 100) (2 ^ E)) 1 (2 ^ E));
      rewrite ?Z.mul_1_l, ?Z.mul_1_r; lia.
  - set (s := Z.log2 (m0 * 100) - 52) in *.
    assert (Hs7 : s <= 7).
    { assert (Z.log2 (m0 * 100) < 60); [|lia].
      apply Z.log2_lt_pow2; [lia|].
      change (2 ^ 60) with (2 ^ 53 * 128). lia. }
    unfold py_round. cbn [mant expo].
    destruct (Z.leb_spec 0 (- E + 0 + s)); [lia|].
    replace (- (- E + 0 + s)) with (E - s) by lia.
    assert (HS : 0 < 2 ^ s <= 2 ^ 7).
    { split; [apply Z.pow_pos_nonneg; lia|apply Z.pow_le_mono_r; lia]. }
    assert (HQ : 2 ^ E = 2 ^ s * 2 ^ (E - s)).
    { rewrite <- Z.pow_add_r by lia. f_equal. lia. }
    assert (HQpos : 0 < 2 ^ (E - s)) by (apply Z.pow_pos_nonneg; lia).
    pose proof (rne_div_near (m0 * 100) (2 ^ s) ltac:(lia)) as Hm2.
    pose proof (rne_div_near (rne_div (m0 * 100) (2 ^ s)) (2 ^ (E - s)) HQpos) as Hp.
    apply abs2_le in Hp, Hm2. rewrite HQ in Hm0.
    apply (nearest_chain total lower_count m0 (rne_div (m0 * 100) (2 ^ s))
             (rne_div (rne_div (m0 * 100) (2 ^ s)) (2 ^ (E - s)))
             (2 ^ s) (2 ^ (E - s)));
      try assumption; try lia.
    rewrite <- HQ.
    assert (total * 2 ^ s <= total * 2 ^ 7) by (apply Z.mul_le_mono_nonneg_l; lia).
    change (2 ^ 7) with 128 in *. change (2 ^ 8) with 256 in *. lia.
Qed.

End RoundedQuotients.

(* ================================================================== *)
(** * The stable sort *)

Section StableSort.

Context {A : Type} (key : A -> Z).

Lemma insert_sorted_perm (le : A -> A -> bool) (x : A) (l : list A) :
  insert_sorted le x l ≡ₚ x :: l.
Proof.
  induction l as [|y l IH]; cbn [insert_sorted]; [done|].
  destruct (le x y); [done|]. rewrite IH. apply Permutation_swap.
Qed.

Lemma stable_sort_perm (le : A -> A -> bool) (l : list A) : stable_sort le l ≡ₚ l.
Proof.
  unfold stable_sort. induction l as [|x l IH]; cbn [foldr]; [done|].
  rewrite insert_sorted_perm. by f_equiv.
Qed.

Lemma insert_sorted_by_key (x : A) (l : list A) :
  StronglySorted (key_le key) l ->
  StronglySorted (key_le key) (insert_sorted (fun a b => key a <=? key b) x l).
Proof.
  induction 1 as [|y l Hl IH Hy]; cbn [insert_sorted].
  - repeat constructor.
  - destruct (Z.leb_spec (key x) (key y)) as [Hxy|Hyx].
    + constructor; [by constructor|].
      constructor; [exact Hxy|].
      eapply Forall_impl; [exact Hy|]. unfold key_le. cbn. intros z Hz. lia.
    + constructor; [exact IH|].
      rewrite insert_sorted_perm. constructor; [unfold key_le; lia|exact Hy].
Qed.

Lemma py_sorted_sorted (l : list A) : StronglySorted (key_le key) (py_sorted key l).
Proof.
  unfold py_sorted, stable_sort. induction l as [|x l IH]; cbn [foldr].
  - constructor.
  - by apply insert_sorted_by_key.
Qed.

(** Stability: the elements of any one key keep their relative order. *)
Lemma insert_sorted_stable (k : Z) (x : A) (l : list A) :
  filter (fun a => key a = k) (insert_sorted (fun a b => key a <=? key b) x l)
  = filter (fun a => key a = k) (x :: l).
Proof.
  induction l as [|y l IH]; cbn [insert_sorted]; [done|].
  destruct (Z.leb_spec (key x) (key y)) as [Hxy|Hyx]; [done|].
  rewrite (filter_cons _ y), IH, !(filter_cons _ x), (filter_cons _ y).
  repeat case_decide; (done || lia).
Qed.

Lemma py_sorted_stable (k : Z) (l : list A) :
  filter (fun a => key a = k) (py_sorted key l) = filter (fun a => key a = k) l.
Proof.
  unfold py_sorted, stable_sort. induction l as [|x l IH]; cbn [foldr]; [done|].
  rewrite insert_sorted_stable, !(filter_cons _ x), IH. done.
Qed.

Lemma py_sorted_perm (l : list A) : py_sorted key l ≡ₚ l.
Proof. apply stable_sort_perm. Qed.

End StableSort.

(* ================================================================== *)
(** * Scoring *)

Section Scoring.

Lemma omap_names (answers : gmap string Z) (table : list (string * list Z))
    (scores : list (string * Z)) :
  category_scores_of table answers = Returned scores -> scores.*1 = table.*1.
Proof.
  unfold category_scores_of. revert scores.
  induction table as [|[c qs] table IH]; intros scores; cbn [omap fst snd].
  - intros [= <-]. done.
  - destruct (round_mean _) as [s|]; cbn [obind]; [|done].
    destruct (omap _ table) as [rest|]; cbn [obind]; [|done].
    intros [= <-]. cbn. f_equal. by apply IH.
Qed.

Lemma py_str_digits :
  py_str 1 = "1"%string /\ py_str 2 = "2"%string /\ py_str 3 = "3"%string /\
  py_str 4 = "4"%string /\ py_str 5 = "5"%string /\ py_str 6 = "6"%string /\
  py_str 7 = "7"%string.
Proof. repeat split; vm_compute; reflexivity. Qed.

Lemma category_scores_of_answered (answers : gmap string Z) :
  map_Forall (fun _ v => Z.abs v <= 2 ^ 51) answers ->
  category_scores_of categories answers = Returned (answered answers).
Proof.
  intros Hall.
  assert (Hd : forall k, Z.abs (default 0 (answers !! k)) <= 2 ^ 51).
  { intros k. destruct (answers !! k) as [v|] eqn:Hk; cbn; [|lia].
    exact (Hall k v Hk). }
  destruct py_str_digits as (H1 & H2 & H3 & H4 & H5 & H6 & H7).
  unfold category_scores_of, categories, category_values, answered.
  cbn [omap map fst snd].
  rewrite H1, H2, H3, H4, H5, H6, H7.
  rewrite !round_mean_single by apply Hd. reflexivity.
Qed.

Lemma answer_values_length (answers : gmap string Z) :
  py_len (answer_values answers) = Z.of_nat (size answers).
Proof.
  unfold py_len, answer_values. by rewrite length_fmap, length_map_to_list.
Qed.

(** The sum that the handler takes is the sum of the submitted values. *)
Lemma py_sum_answer_values (answers : gmap string Z) :
  py_sum (answer_values answers) = submitted_sum answers.
Proof.
  unfold submitted_sum, answer_values, py_sum. rewrite map_fold_foldr.
  induction (map_to_list answers) as [|[k v] l IH]; [done|].
  cbn [fmap list_fmap foldr snd uncurry]. by rewrite <- IH.
Qed.

Lemma answer_values_nonempty (answers : gmap string Z) :
  answers <> ∅ -> answer_values answers <> [].
Proof.
  intros Hne Hnil. apply Hne, map_to_list_empty_iff.
  unfold answer_values in Hnil. by apply fmap_nil_inv in Hnil.
Qed.

Lemma answer_values_Forall (P : Z -> Prop) (answers : gmap string Z) :
  map_Forall (fun _ v => P v) answers -> Forall P (answer_values answers).
Proof.
  intros Hall. unfold answer_values. apply Forall_fmap.
  apply map_Forall_to_list in Hall.
  eapply Forall_impl; [exact Hall|]. intros [k v]. done.
Qed.

End Scoring.

(* ================================================================== *)
(** * The handler [assess_readiness] *)

Section Handler.

Context {col : Column}.

Lemma assess_readiness_ok (data : request) (db : store) (answers : gmap string Z)
    (overall : Z) (scores : list (string * Z)) :
  req_answers data = Some answers -> answers <> ∅ ->
  round_mean (answer_values answers) = Returned overall ->
  category_scores_of categories answers = Returned scores ->
  assess_readiness data db
  = (Response200 (respond (next_id db) overall scores),
     store_assessment data answers overall scores db).
Proof.
  intros Ha Hne Ho Hs. unfold assess_readiness.
  rewrite Ha, bool_decide_eq_false_2, Ho, Hs by done. reflexivity.
Qed.

Lemma assess_readiness_inv (data : request) (db db' : store) (body : assessment_result) :
  assess_readiness data db = (Response200 body, db') ->
  exists answers overall scores,
    req_answers data = Some answers /\ answers <> ∅ /\
    round_mean (answer_values answers) = Returned overall /\
    category_scores_of categories answers = Returned scores /\
    body = respond (next_id db) overall scores /\
    db' = store_assessment data answers overall scores db.
Proof.
  unfold assess_readiness. destruct (req_answers data) as [answers|]; [|done].
  case_bool_decide as Hne; [done|].
  destruct (round_mean _) as [overall|] eqn:Ho; cbn [obind]; [|done].
  destruct (category_scores_of _ _) as [scores|] eqn:Hs; cbn [obind]; [|done].
  intros [= <- <-]. exists answers, overall, scores. repeat split; done.
Qed.

End Handler.

(* ================================================================== *)
(** * Claims about scoring *)

(** C1.  For every non-empty answers mapping whose values all lie in
    [0,100], the handler answers 200 with an [overall_score] that is the
    arithmetic mean of the submitted values rounded to the nearest integer:
    it is within one half of the sum of the values divided by their
    number, it is the even neighbour when the mean lies halfway between
    two integers, and it lies in [0,100].  The sum and the number are read
    off the mapping itself.  The mapping has fewer than [2^40] entries,
    so that the double holding the mean separates it from every
    half-integer. *)
Theorem overall_score_rounded_mean {col : Column} (data : request) (db : store)
    (answers : gmap string Z) :
  req_answers data = Some answers -> answers <> ∅ ->
  map_Forall (fun _ v => 0 <= v <= 100) answers ->
  Z.of_nat (size answers) < 2 ^ 40 ->
  exists body db',
    assess_readiness data db = (Response200 body, db') /\
    2 * Z.abs (overall_score body * Z.of_nat (size answers) - submitted_sum answers)
      <= Z.of_nat (size answers) /\
    (2 * Z.abs (overall_score body * Z.of_nat (size answers) - submitted_sum answers)
       = Z.of_nat (size answers) ->
     Z.even (overall_score body) = true) /\
    overall_score body = rne_div (submitted_sum answers) (Z.of_nat (size answers)) /\
    0 <= overall_score body <= 100.
Proof.
  intros Ha Hne Hall Hsize.
  pose proof (answer_values_nonempty answers Hne) as Hvne.
  pose proof (answer_values_Forall _ answers Hall) as Hv.
  pose proof (answer_values_length answers) as Hlen.
  pose proof (py_len_pos _ Hvne) as Hpos.
  pose proof (py_sum_answer_values answers) as Hsum_eq.
  assert (Hmean : round_mean (answer_values answers)
                  = Returned (rne_div (submitted_sum answers)
                                (Z.of_nat (size answers)))).
  { rewrite <- Hlen, <- Hsum_eq. apply round_mean_spec; [done|done|lia]. }
  assert (Hcat : category_scores_of categories answers = Returned (answered answers)).
  { apply category_scores_of_answered.
    intros k v Hk. specialize (Hall k v Hk). cbn in Hall.
    assert (2 ^ 7 <= 2 ^ 51) by (apply Z.pow_le_mono_r; lia). lia. }
  exists (respond (next_id db)
            (rne_div (submitted_sum answers) (Z.of_nat (size answers)))
            (answered answers)),
         (store_assessment data answers
            (rne_div (submitted_sum answers) (Z.of_nat (size answers)))
            (answered answers) db).
  split; [by apply assess_readiness_ok|].
  cbn [respond overall_score].
  pose proof (py_sum_bounds 0 100 _ Hv) as Hsum. rewrite Hlen, Hsum_eq in *.
  split; [by apply rne_div_near|].
  split; [by apply rne_div_tie_even|].
  split; [reflexivity|].
  split; [apply rne_div_ge|apply rne_div_le]; lia.
Qed.

Lemma overall_score_rounded_mean_witness :
  exists body db',
    assess_readiness scenario_request empty_store = (Response200 body, db') /\
    submitted_sum scenario_answers = 45 /\ size scenario_answers = 3%nat /\
    overall_score body = 15.
Proof.
  assert (Hsum : submitted_sum scenario_answers = 45) by (vm_compute; reflexivity).
  assert (Hsize : size scenario_answers = 3%nat) by (vm_compute; reflexivity).
  destruct (overall_score_rounded_mean scenario_request empty_store scenario_answers)
    as (body & db' & H & Hnear & _ & _ & _).
  - reflexivity.
  - vm_compute. discriminate.
  - apply map_Forall_insert_2; [lia|]. apply map_Forall_insert_2; [lia|].
    apply map_Forall_insert_2; [lia|]. apply map_Forall_empty.
  - vm_compute. reflexivity.
  - exists body, db'. split; [exact H|]. split; [exact Hsum|]. split; [exact Hsize|].
    rewrite Hsum, Hsize in Hnear. lia.
Defined.

(** C2.  Tier selection is a total, non-overlapping partition of the
    integers: the four labels are distinct, every score gets one of them,
    and each label is given exactly on its range (80 and above, 60 to 79,
    40 to 59, below 40). *)
Theorem readiness_tier_partition {col : Column} (score : Z) :
  let level := tier_level (readiness_tier score) in
  (level = "Highly Ready for AI"%string <-> 80 <= score) /\
  (level = "Ready with Some Preparation"%string <-> 60 <= score < 80) /\
  (level = "Moderate Readiness"%string <-> 40 <= score < 60) /\
  (level = "Early Stage"%string <-> score < 40) /\
  NoDup ["Highly Ready for AI"%string; "Ready with Some Preparation"%string;
         "Moderate Readiness"%string; "Early Stage"%string] /\
  (forall body db data db',
     assess_readiness data db = (Response200 body, db') ->
     readiness_level body = tier_level (readiness_tier (overall_score body))).
Proof.
  cbn zeta.
  assert (Hcases :
    (80 <= score /\ tier_level (readiness_tier score) = "Highly Ready for AI"%string) \/
    (60 <= score < 80 /\
       tier_level (readiness_tier score) = "Ready with Some Preparation"%string) \/
    (40 <= score < 60 /\ tier_level (readiness_tier score) = "Moderate Readiness"%string) \/
    (score < 40 /\ tier_level (readiness_tier score) = "Early Stage"%string)).
  { unfold readiness_tier.
    destruct (Z.leb_spec 80 score); [left; done|right].
    destruct (Z.leb_spec 60 score); [left; split; [lia|done]|right].
    destruct (Z.leb_spec 40 score); [left; split; [lia|done]|right; done]. }
  assert (Hnodup : NoDup ["Highly Ready for AI"%string;
                          "Ready with Some Preparation"%string;
                          "Moderate Readiness"%string; "Early Stage"%string])
    by compute_done.
  assert (Hbody : forall body db data db',
            assess_readiness data db = (Response200 body, db') ->
            readiness_level body = tier_level (readiness_tier (overall_score body))).
  { intros body db data db' H. apply assess_readiness_inv in H.
    destruct H as (? & ? & ? & _ & _ & _ & _ & -> & _). reflexivity. }
  destruct Hcases as [[Hr ->]|[[Hr ->]|[[Hr ->]|[Hr ->]]]];
    (repeat split; try exact Hnodup; try exact Hbody;
     intros; (lia || discriminate || reflexivity)).
Qed.

(** C6.  [weak_areas] names [min(3, number of categories)] categories:
    they are the front of the category scores sorted ascending by score,
    every other category scores at least as much as each of them, and
    among equal scores the declaration order of the categories is kept. *)
Theorem weak_areas_three_lowest {col : Column} (data : request) (db db' : store)
    (body : assessment_result) :
  assess_readiness data db = (Response200 body, db') ->
  exists weak rest,
    weak_areas body = weak.*1 /\
    length (weak_areas body) = Nat.min 3 (length categories) /\
    (category_scores body).*1 = categories.*1 /\
    weak ++ rest ≡ₚ category_scores body /\
    StronglySorted (key_le snd) (weak ++ rest) /\
    (forall x y, x ∈ weak -> y ∈ rest -> x.2 <= y.2) /\
    (forall k, filter (fun x => x.2 = k) (weak ++ rest)
               = filter (fun x => x.2 = k) (category_scores body)).
Proof.
  intros H. apply assess_readiness_inv in H.
  destruct H as (answers & overall & scores & _ & _ & _ & Hs & -> & _).
  cbn [respond weak_areas category_scores].
  pose proof (omap_names _ _ _ Hs) as Hnames.
  pose proof (py_sorted_sorted snd scores) as Hsorted.
  exists (take 3 (py_sorted snd scores)), (drop 3 (py_sorted snd scores)).
  rewrite take_drop. unfold weak_categories_of.
  split; [reflexivity|].
  split.
  { rewrite length_fmap, length_take.
    rewrite (Permutation_length (py_sorted_perm snd scores)).
    rewrite <- (length_fmap fst scores), Hnames, length_fmap. reflexivity. }
  split; [exact Hnames|].
  split; [apply py_sorted_perm|].
  split; [exact Hsorted|].
  split; [|intros k; apply py_sorted_stable].
  intros x y Hx Hy. rewrite <- (take_drop 3 (py_sorted snd scores)) in Hsorted.
  exact (StronglySorted_app_1_elem_of _ _ _ x y Hsorted Hx Hy).
Qed.

Lemma weak_areas_three_lowest_witness :
  exists body weak rest,
    weak_areas body = weak.*1 /\
    weak_areas body = ["Financial Capacity"%string; "Problem Definition"%string;
                       "Technical Foundation"%string] /\
    weak ++ rest ≡ₚ category_scores body.
Proof.
  destruct (weak_areas_three_lowest scenario_request empty_store
              (store_assessment scenario_request scenario_answers 15
                 (answered scenario_answers) empty_store)
              (respond 1 15 (answered scenario_answers)))
    as (weak & rest & Hw & _ & _ & Hp & _).
  - vm_compute. reflexivity.
  - exists (respond 1 15 (answered scenario_answers)), weak, rest.
    split; [exact Hw|]. split; [vm_compute; reflexivity|exact Hp].
Defined.

(** C7.  Each of the seven categories gets the rounded value of its one
    question, 0 when that question is unanswered (the values being
    integers of ordinary size, at most [2^51] in magnitude); and the
    answers 1:10, 2:20, 3:15 give 0 to the four unanswered categories, an
    overall score of 15 and the tier "Early Stage". *)
Theorem category_scores_single_question {col : Column} :
  (forall data db answers,
     req_answers data = Some answers -> answers <> ∅ ->
     map_Forall (fun _ v => Z.abs v <= 2 ^ 51) answers ->
     exists body db',
       assess_readiness data db = (Response200 body, db') /\
       category_scores body = answered answers) /\
  (forall data db,
     req_answers data = Some scenario_answers ->
     exists body db',
       assess_readiness data db = (Response200 body, db') /\
       category_scores body
       = [ ("Data Infrastructure"%string, 10); ("Process Maturity"%string, 20);
           ("Team Readiness"%string, 15); ("Financial Capacity"%string, 0);
           ("Problem Definition"%string, 0); ("Technical Foundation"%string, 0);
           ("Decision Authority"%string, 0) ] /\
       overall_score body = 15 /\
       readiness_level body = "Early Stage"%string).
Proof.
  split.
  - intros data db answers Ha Hne Hall.
    destruct (round_mean_returns (answer_values answers)) as [overall Ho].
    { by apply answer_values_nonempty. }
    { by apply answer_values_Forall. }
    exists (respond (next_id db) overall (answered answers)),
           (store_assessment data answers overall (answered answers) db).
    split; [|reflexivity].
    apply assess_readiness_ok; [done|done|done|].
    by apply category_scores_of_answered.
  - intros data db Ha.
    exists (respond (next_id db) 15 (answered scenario_answers)),
           (store_assessment data scenario_answers 15 (answered scenario_answers) db).
    split; [|repeat split; vm_compute; reflexivity].
    apply assess_readiness_ok; [done| |vm_compute; reflexivity|vm_compute; reflexivity].
    vm_compute. discriminate.
Qed.

(* ================================================================== *)
(** * The rounding of [NUMERIC] *)

Section NumericColumn.

Lemma half_up_between (k d lo hi : Z) :
  0 < d -> 0 <= k -> lo * d <= k <= hi * d ->
  lo <= (2 * k + d) / (2 * d) <= hi.
Proof.
  intros Hd Hk [Hlo Hhi]. split.
  - apply Z.div_le_lower_bound; lia.
  - assert ((2 * k + d) / (2 * d) < hi + 1); [|lia].
    apply Z.div_lt_upper_bound; lia.
Qed.

(** Rounding does not pass an integer. *)
Lemma round_half_away_between (m d lo hi : Z) :
  0 < d -> lo * d <= m <= hi * d -> lo <= round_half_away m d <= hi.
Proof.
  intros Hd Hm. unfold round_half_away.
  destruct (Z.lt_trichotomy m 0) as [Hneg|[->|Hpos]].
  - rewrite Z.sgn_neg, Z.abs_neq by lia.
    pose proof (half_up_between (- m) d (- hi) (- lo) Hd ltac:(lia) ltac:(lia)). lia.
  - cbn [Z.sgn]. rewrite Z.mul_0_l.
    destruct (Z.le_gt_cases lo 0) as [Hlo|Hlo], (Z.le_gt_cases 0 hi) as [Hhi|Hhi];
      [lia|exfalso|exfalso|exfalso].
    + assert (hi * d <= (- 1) * d) by (apply Z.mul_le_mono_nonneg_r; lia). lia.
    + assert (1 * d <= lo * d) by (apply Z.mul_le_mono_nonneg_r; lia). lia.
    + assert (1 * d <= lo * d) by (apply Z.mul_le_mono_nonneg_r; lia). lia.
  - rewrite Z.sgn_pos, Z.abs_eq, Z.mul_1_l by lia.
    apply half_up_between; lia.
Qed.

Lemma round_scale_between (s : Z) (x : Q) (lo hi : Z) :
  0 <= s -> (inject_Z lo <= x)%Q -> (x <= inject_Z hi)%Q ->
  (inject_Z lo <= round_scale s x)%Q /\ (round_scale s x <= inject_Z hi)%Q.
Proof.
  intros Hs Hlo Hhi. unfold round_scale.
  assert (HP : 0 < 10 ^ s) by (apply Z.pow_pos_nonneg; lia).
  unfold Qle in *. cbn [Qnum Qden inject_Z] in *.
  rewrite Z2Pos.id by exact HP. rewrite Z.mul_1_r in *.
  set (P := 10 ^ s) in *. set (N := Qnum x) in *. set (D := Z.pos (Qden x)) in *.
  assert (HloP : lo * D * P <= N * P) by (apply Z.mul_le_mono_nonneg_r; lia).
  assert (HhiP : N * P <= hi * D * P) by (apply Z.mul_le_mono_nonneg_r; lia).
  pose proof (round_half_away_between (N * P) D (lo * P) (hi * P)
                ltac:(subst D; lia) ltac:(lia)). lia.
Qed.

Lemma select_div_scale_nonneg (x y : Q) : 0 <= select_div_scale x y.
Proof. unfold select_div_scale. destruct (lead x), (lead y). lia. Qed.

Lemma numeric_div_between (x : Q) (n lo hi : Z) :
  0 < n -> (inject_Z (lo * n) <= x)%Q -> (x <= inject_Z (hi * n))%Q ->
  (inject_Z lo <= numeric_div x (inject_Z n))%Q /\
  (numeric_div x (inject_Z n) <= inject_Z hi)%Q.
Proof.
  intros Hn Hlo Hhi. unfold numeric_div.
  assert (Hn' : (0 < inject_Z n)%Q) by (unfold Qlt; cbn [Qnum Qden inject_Z]; lia).
  apply round_scale_between; [apply select_div_scale_nonneg| |].
  - apply Qle_shift_div_l; [exact Hn'|]. by rewrite <- inject_Z_mult.
  - apply Qle_shift_div_r; [exact Hn'|]. by rewrite <- inject_Z_mult.
Qed.

End NumericColumn.

(** [NUMERIC] is a column type in the sense of [BoundedColumn]. *)
Lemma numeric_bounded : BoundedColumn numeric_column.
Proof.
  split; cbn [sql_mul sql_add sql_div numeric_column].
  - intros a f lo hi Hf Hlo Hhi.
    assert (Hf' : (0 <= inject_Z f)%Q) by (unfold Qle; cbn [Qnum Qden inject_Z]; lia).
    rewrite !inject_Z_mult. split; by apply Qmult_le_compat_r.
  - intros x s lo hi Hlo Hhi. rewrite !inject_Z_plus.
    split; apply Qplus_le_compat; (done || apply Qle_refl).
  - apply numeric_div_between.
Qed.

(** So is a column of exact rationals. *)
Lemma exact_bounded : BoundedColumn exact_column.
Proof.
  split; cbn [sql_mul sql_add sql_div exact_column].
  - intros a f lo hi Hf Hlo Hhi.
    assert (Hf' : (0 <= inject_Z f)%Q) by (unfold Qle; cbn [Qnum Qden inject_Z]; lia).
    rewrite !inject_Z_mult. split; by apply Qmult_le_compat_r.
  - intros x s lo hi Hlo Hhi. rewrite !inject_Z_plus.
    split; apply Qplus_le_compat; (done || apply Qle_refl).
  - intros x n lo hi Hn Hlo Hhi.
    assert (Hn' : (0 < inject_Z n)%Q) by (unfold Qlt; cbn [Qnum Qden inject_Z]; lia).
    split.
    + apply Qle_shift_div_l; [exact Hn'|]. by rewrite <- inject_Z_mult.
    + apply Qle_shift_div_r; [exact Hn'|]. by rewrite <- inject_Z_mult.
Qed.

#[global] Existing Instances numeric_bounded exact_bounded.

(* ================================================================== *)
(** * The pattern upsert *)

Section Upsert.

Context {col : Column}.

Lemma has_key_true (ty : string) (data : pattern_key) (r : pattern_row) :
  has_key ty data r = true <-> pattern_type r = ty /\ pattern_data r = data.
Proof.
  unfold has_key. rewrite andb_true_iff, !bool_decide_eq_true. done.
Qed.

Lemma has_key_on_conflict (ty : string) (data : pattern_key) (score : option Z)
    (r : pattern_row) :
  has_key ty data (on_conflict score r) = has_key ty data r.
Proof. destruct score; reflexivity. Qed.

Lemma rows_with_key_cons (ty : string) (data : pattern_key) (r : pattern_row)
    (table : list pattern_row) :
  rows_with_key ty data (r :: table)
  = if has_key ty data r then r :: rows_with_key ty data table
    else rows_with_key ty data table.
Proof.
  unfold rows_with_key. rewrite filter_cons.
  destruct (has_key ty data r); case_decide; done.
Qed.

(** A statement leaves the rows of every other key alone. *)
Lemma upsert_other_key (ty : string) (data : pattern_key) (st : pattern_stmt)
    (table : list pattern_row) :
  ~ (stmt_type st = ty /\ stmt_data st = data) ->
  rows_with_key ty data (upsert st table) = rows_with_key ty data table.
Proof.
  intros Hne. induction table as [|r table IH]; cbn [upsert].
  - rewrite rows_with_key_cons.
    destruct (has_key ty data (inserted st)) eqn:Hk; [|done].
    apply has_key_true in Hk. done.
  - destruct (has_key (stmt_type st) (stmt_data st) r) eqn:Hst.
    + rewrite !rows_with_key_cons, has_key_on_conflict.
      destruct (has_key ty data r) eqn:Hr; [|done].
      apply has_key_true in Hst as [Ht Hd]. apply has_key_true in Hr as [Ht' Hd'].
      exfalso. apply Hne. split; congruence.
    + by rewrite !rows_with_key_cons, IH.
Qed.

Lemma upsert_fresh_key (st : pattern_stmt) (table : list pattern_row) :
  rows_with_key (stmt_type st) (stmt_data st) table = [] ->
  rows_with_key (stmt_type st) (stmt_data st) (upsert st table) = [inserted st].
Proof.
  induction table as [|r table IH]; cbn [upsert]; intros Hnone.
  - rewrite rows_with_key_cons.
    replace (has_key _ _ (inserted st)) with true; [done|].
    symmetry. by apply has_key_true.
  - rewrite rows_with_key_cons in Hnone.
    destruct (has_key (stmt_type st) (stmt_data st) r) eqn:Hst; [done|].
    rewrite rows_with_key_cons, Hst. by apply IH.
Qed.

Lemma upsert_present_key (st : pattern_stmt) (table : list pattern_row)
    (r : pattern_row) :
  rows_with_key (stmt_type st) (stmt_data st) table = [r] ->
  rows_with_key (stmt_type st) (stmt_data st) (upsert st table)
  = [on_conflict (stmt_score st) r].
Proof.
  induction table as [|r0 table IH]; cbn [upsert]; intros Hone; [done|].
  rewrite rows_with_key_cons in Hone.
  destruct (has_key (stmt_type st) (stmt_data st) r0) eqn:Hst.
  - injection Hone as -> Hrest.
    by rewrite rows_with_key_cons, has_key_on_conflict, Hst, Hrest.
  - rewrite rows_with_key_cons, Hst. by apply IH.
Qed.



(** A statement leaves the rows of every other pattern type alone. *)
Lemma upsert_other_type (ty : string) (st : pattern_stmt) (table : list pattern_row) :
  stmt_type st <> ty ->
  rows_of_type ty (upsert st table) = rows_of_type ty table.
Proof.
  intros Hne. unfold rows_of_type.
  induction table as [|r table IH]; cbn [upsert].
  - by rewrite filter_cons_False.
  - destruct (has_key (stmt_type st) (stmt_data st) r) eqn:Hst.
    + apply has_key_true in Hst as [Hty _].
      rewrite !filter_cons_False; [done|congruence|].
      destruct (stmt_score st); cbn; congruence.
    + by rewrite !filter_cons, IH.
Qed.

Lemma execute_all_other_type (ty : string) (stmts : list pattern_stmt)
    (table : list pattern_row) :
  Forall (fun st => stmt_type st <> ty) stmts ->
  rows_of_type ty (execute_all stmts table) = rows_of_type ty table.
Proof.
  unfold execute_all. intros Hall. revert table.
  induction Hall as [|st stmts Hst _ IH]; intros table; cbn [foldl]; [done|].
  by rewrite IH, upsert_other_type.
Qed.

End Upsert.

(* ================================================================== *)
(** * The tables as a whole *)

Section TableInvariants.

Context {col : Column}.

Lemma has_key_row_key (st : pattern_stmt) (r : pattern_row) :
  has_key (stmt_type st) (stmt_data st) r = true <-> row_key r = stmt_key st.
Proof.
  rewrite has_key_true. unfold row_key, stmt_key. split.
  - by intros [-> ->].
  - by intros [= -> ->].
Qed.

Lemma row_key_on_conflict (score : option Z) (r : pattern_row) :
  row_key (on_conflict score r) = row_key r.
Proof. by destruct score. Qed.

(** A statement updates the row of its key in place when there is one,
    and otherwise appends a row for it. *)
Lemma upsert_keys (st : pattern_stmt) (table : list pattern_row) :
  row_key <$> upsert st table
  = if decide (stmt_key st ∈ row_key <$> table) then row_key <$> table
    else (row_key <$> table) ++ [stmt_key st].
Proof.
  induction table as [|r table IH]; cbn [upsert].
  - rewrite decide_False by apply not_elem_of_nil. reflexivity.
  - destruct (has_key (stmt_type st) (stmt_data st) r) eqn:Hk.
    + apply has_key_row_key in Hk. rewrite !fmap_cons, row_key_on_conflict.
      rewrite decide_True; [done|]. rewrite Hk. apply list_elem_of_here.
    + assert (Hne : row_key r <> stmt_key st).
      { intros Heq. apply has_key_row_key in Heq. congruence. }
      rewrite !fmap_cons, IH. destruct (decide (stmt_key st ∈ row_key <$> table)) as [Hin|Hin].
      * rewrite decide_True; [done|]. by apply list_elem_of_further.
      * rewrite decide_False; [done|]. rewrite elem_of_cons. intros [?|?]; congruence.
Qed.

Lemma upsert_total_frequency (st : pattern_stmt) (table : list pattern_row) :
  total_frequency (upsert st table) = total_frequency table + 1.
Proof.
  unfold total_frequency. induction table as [|r table IH]; cbn [upsert foldr].
  - unfold inserted. cbn. lia.
  - destruct (has_key _ _ r); cbn [foldr].
    + destruct (stmt_score st); cbn; lia.
    + rewrite IH. lia.
Qed.

(** The number of statements a key has received, whatever they carry. *)
Lemma execute_all_counts (ty : string) (data : pattern_key)
    (stmts : list pattern_stmt) :
  forall (table : list pattern_row) (n : nat),
    (n = 0%nat /\ rows_with_key ty data table = []) \/
    (n <> 0%nat /\ exists r, rows_with_key ty data table = [r] /\
       frequency r = Z.of_nat n) ->
    let n' := (n + length (scores_for ty data stmts))%nat in
    (n' = 0%nat /\ rows_with_key ty data (execute_all stmts table) = []) \/
    (n' <> 0%nat /\ exists r, rows_with_key ty data (execute_all stmts table) = [r] /\
       frequency r = Z.of_nat n').
Proof.
  unfold execute_all, scores_for.
  induction stmts as [|st stmts IH]; intros table n Hinv; cbn zeta.
  - cbn. rewrite Nat.add_0_r.
    destruct Hinv as [[-> H]|[Hn (r & Hr & Hf)]]; [by left|right].
    split; [done|]. by exists r.
  - cbn [foldl]. rewrite filter_cons. case_decide as Hkey.
    + destruct Hkey as [<- <-]. cbn [fmap list_fmap length].
      replace (n + S (length (stmt_score <$> filter _ stmts)))%nat
        with (S n + length (stmt_score <$> filter
               (fun st0 => stmt_type st0 = stmt_type st /\ stmt_data st0 = stmt_data st)
               stmts))%nat by lia.
      apply IH. right. split; [done|].
      destruct Hinv as [[-> Hnone]|[Hn (r & Hr & Hf)]].
      * rewrite (upsert_fresh_key _ _ Hnone). eexists. split; reflexivity.
      * rewrite (upsert_present_key _ _ _ Hr). eexists. split; [reflexivity|].
        destruct (stmt_score st); cbn; lia.
    + apply IH. rewrite upsert_other_key by done. exact Hinv.
Qed.

Lemma execute_all_scoreless (ty : string) (data : pattern_key)
    (stmts : list pattern_stmt) :
  forall (table : list pattern_row),
    Forall (fun o => o = None) (scores_for ty data stmts) ->
    Forall (fun r => avg_score r = None) (rows_with_key ty data table) ->
    Forall (fun r => avg_score r = None)
      (rows_with_key ty data (execute_all stmts table)).
Proof.
  unfold execute_all, scores_for.
  induction stmts as [|st stmts IH]; intros table Hall Hnull; [done|].
  cbn [foldl]. rewrite filter_cons in Hall. apply IH.
  - case_decide; [|done]. rewrite fmap_cons in Hall. by inversion Hall.
  - case_decide as Hkey; [|by rewrite upsert_other_key].
    destruct Hkey as [<- <-]. rewrite fmap_cons in Hall.
    inversion Hall as [|? ? Hst _]; subst. clear Hall IH.
    induction table as [|r table IHt]; cbn [upsert].
    + rewrite rows_with_key_cons.
      destruct (has_key _ _ (inserted st)); [|done].
      repeat constructor. unfold inserted. cbn. by rewrite Hst.
    + rewrite rows_with_key_cons in Hnull.
      destruct (has_key (stmt_type st) (stmt_data st) r) eqn:Hk.
      * rewrite rows_with_key_cons, has_key_on_conflict, Hk.
        inversion Hnull as [|? ? Hr Hrest]; subst.
        constructor; [|done]. rewrite Hst. done.
      * rewrite rows_with_key_cons, Hk. by apply IHt.
Qed.

End TableInvariants.

(* ================================================================== *)
(** * The running average *)

Section RunningAverage.

Context {col : Column}.


Context {bounded : BoundedColumn col}.

(** One step of the formula stays between two integers that enclose the
    old average and the new score. *)
Lemma running_between (a : Q) (f s lo hi : Z) :
  1 <= f -> (inject_Z lo <= a)%Q -> (a <= inject_Z hi)%Q -> lo <= s <= hi ->
  (inject_Z lo
   <= sql_div (sql_add (sql_mul a (inject_Z f)) (inject_Z s)) (inject_Z (f + 1)))%Q /\
  (sql_div (sql_add (sql_mul a (inject_Z f)) (inject_Z s)) (inject_Z (f + 1))
   <= inject_Z hi)%Q.
Proof.
  intros Hf Hlo Hhi Hs.
  destruct (sql_mul_between a f lo hi ltac:(lia) Hlo Hhi) as [Hm1 Hm2].
  destruct (sql_add_between _ s _ _ Hm1 Hm2) as [Ha1 Ha2].
  apply sql_div_between; [lia| |].
  - eapply Qle_trans; [|exact Ha1]. rewrite <- Zle_Qle. lia.
  - eapply Qle_trans; [exact Ha2|]. rewrite <- Zle_Qle. lia.
Qed.

Lemma accumulated_step (ty : string) (data : pattern_key) (acc : list Z) (s : Z)
    (st : pattern_stmt) (table : list pattern_row) :
  stmt_type st = ty -> stmt_data st = data -> stmt_score st = Some s ->
  accumulated ty data acc table ->
  accumulated ty data (acc ++ [s]) (upsert st table).
Proof.
  intros <- <- Hs [[-> Hnone]|[Hne (r & a & Hone & Hf & Ha & Hbetween)]]; right.
  - split; [done|]. exists (inserted st), (inject_Z s).
    rewrite (upsert_fresh_key _ _ Hnone). unfold inserted. rewrite Hs.
    split; [reflexivity|]. split; [reflexivity|]. split; [reflexivity|].
    intros lo hi Hall. rewrite app_nil_l, Forall_singleton in Hall.
    rewrite <- !Zle_Qle. lia.
  - split; [by destruct acc|].
    rewrite (upsert_present_key _ _ _ Hone), Hs. cbn [on_conflict].
    rewrite Ha. cbn [mbind option_bind].
    eexists _, _. split; [reflexivity|]. cbn [frequency avg_score].
    split; [|split; [reflexivity|]].
    + rewrite Hf. unfold py_len. rewrite length_app. cbn [length]. lia.
    + intros lo hi Hall. apply Forall_app in Hall as [Hacc Hlast].
      rewrite Forall_singleton in Hlast.
      destruct (Hbetween lo hi Hacc) as [Hlo Hhi].
      apply running_between; [|done|done|done].
      rewrite Hf. pose proof (py_len_pos acc Hne). lia.
Qed.

Lemma accumulated_other (ty : string) (data : pattern_key) (acc : list Z)
    (st : pattern_stmt) (table : list pattern_row) :
  ~ (stmt_type st = ty /\ stmt_data st = data) ->
  accumulated ty data acc table -> accumulated ty data acc (upsert st table).
Proof.
  intros Hne. unfold accumulated. by rewrite upsert_other_key.
Qed.

Lemma execute_all_accumulated (ty : string) (data : pattern_key)
    (stmts : list pattern_stmt) :
  forall (table : list pattern_row) (acc scores : list Z),
    accumulated ty data acc table ->
    scores_for ty data stmts = Some <$> scores ->
    accumulated ty data (acc ++ scores) (execute_all stmts table).
Proof.
  unfold execute_all, scores_for.
  induction stmts as [|st stmts IH]; intros table acc scores Hacc Hsc.
  - destruct scores; [|done]. by rewrite app_nil_r.
  - cbn [foldl]. rewrite filter_cons in Hsc. case_decide as Hkey.
    + destruct scores as [|s scores]; [done|].
      rewrite !fmap_cons in Hsc. injection Hsc as Hs Hsc.
      replace (acc ++ s :: scores) with ((acc ++ [s]) ++ scores)
        by (by rewrite <- app_assoc).
      apply IH; [|done]. destruct Hkey. by apply accumulated_step.
    + apply IH; [|done]. by apply accumulated_other.
Qed.

End RunningAverage.

(** In arithmetic without rounding the formula keeps the mean. *)
Section ExactMean.






End ExactMean.




(** No decimal, of whatever scale, holds the mean of 50, 1 and 1: no
    column type with finitely many digits stores it. *)
Remark mean_is_no_decimal (n : Z) (s : nat) :
  ~ (inject_Z n / inject_Z (10 ^ Z.of_nat s) == mean [50; 1; 1]%Z)%Q.
Proof.
  assert (Hmod : (10 ^ Z.of_nat s) mod 3 = 1).
  { induction s as [|s IH]; [reflexivity|].
    rewrite Nat2Z.inj_succ, Z.pow_succ_r by lia.
    rewrite Z.mul_mod, IH by lia. reflexivity. }
  assert (Hpos : 0 < 10 ^ Z.of_nat s) by (apply Z.pow_pos_nonneg; lia).
  destruct (10 ^ Z.of_nat s) as [|p|p] eqn:Hp; [lia| |lia].
  assert (Hmean : (mean [50; 1; 1]%Z == 52 # 3)%Q) by reflexivity.
  rewrite Hmean.
  unfold Qeq, Qdiv, Qmult, Qinv. cbn [Qnum Qden inject_Z].
  intros Heq.
  assert (H3 : (52 * Z.pos p) mod 3 = 0).
  { replace (52 * Z.pos p) with (n * 3) by lia. apply Z.mod_mul. lia. }
  rewrite Z.mul_mod, Hmod in H3 by lia. discriminate H3.
Qed.

(* ================================================================== *)
(** * The statements of one assessment *)

Section Statements.

Context {col : Column}.

Lemma industry_stmts_type (d : assessment_data) (st : pattern_stmt) :
  st ∈ industry_stmts d -> stmt_type st = "industry_readiness"%string.
Proof.
  unfold industry_stmts. destruct (ad_overall_score d) as [overall|]; [|by intros ?%elem_of_nil].
  destruct (_ && _); [|by intros ?%elem_of_nil].
  intros ->%list_elem_of_singleton. reflexivity.
Qed.

Lemma blocking_stmts_spec (d : assessment_data) (st : pattern_stmt) :
  st ∈ blocking_stmts d <->
  exists scores c s,
    ad_category_scores d = Some scores /\ (c, s) ∈ scores /\ s < 60 /\
    st = Upsert "blocking_factor" [("category"%string, Some c)] (Some s).
Proof.
  unfold blocking_stmts. destruct (ad_category_scores d) as [scores|].
  - rewrite list_elem_of_In, in_flat_map. split.
    + intros ([c s] & Hin & Hst). apply list_elem_of_In in Hin. cbn [fst snd] in Hst.
      destruct (Z.ltb_spec s 60); [|destruct Hst].
      destruct Hst as [<-|[]]. by exists scores, c, s.
    + intros (scores' & c & s & [= <-] & Hin & Hlt & ->).
      exists (c, s). split; [by apply list_elem_of_In|]. cbn [fst snd].
      destruct (Z.ltb_spec s 60); [|lia]. by left.
  - split; [by intros ?%elem_of_nil|]. by intros (? & ? & ? & ? & _).
Qed.

Lemma high_performer_stmts_type (d : assessment_data) (hp : list pattern_stmt)
    (st : pattern_stmt) :
  high_performer_stmts d = Returned hp -> st ∈ hp ->
  stmt_type st = "high_performer"%string.
Proof.
  unfold high_performer_stmts. destruct (ad_overall_score d) as [overall|]; [|done].
  intros [= <-]. destruct (75 <=? overall); [|by intros ?%elem_of_nil].
  intros ->%list_elem_of_singleton. reflexivity.
Qed.

Lemma log_pattern_stmts_inv (d : assessment_data) (stmts : list pattern_stmt) :
  log_pattern_stmts d = Returned stmts ->
  exists hp, high_performer_stmts d = Returned hp /\
    stmts = industry_stmts d ++ blocking_stmts d ++ hp.
Proof.
  unfold log_pattern_stmts. destruct (high_performer_stmts d) as [hp|]; [|done].
  intros [= <-]. by exists hp.
Qed.

Lemma assess_pattern_stmts_type (industry : option string) (overall : Z)
    (weak : list (string * Z)) (st : pattern_stmt) :
  st ∈ assess_pattern_stmts industry overall weak ->
  (stmt_type st = "industry_readiness"%string /\
   truthy_str industry = true /\ overall <> 0) \/
  stmt_type st = "weak_category"%string.
Proof.
  unfold assess_pattern_stmts. rewrite elem_of_app. intros [Hin|Hin].
  - destruct (truthy_str industry) eqn:Hi; cbn [andb] in Hin; [|by apply elem_of_nil in Hin].
    destruct (Z.eqb_spec overall 0); cbn [negb] in Hin; [by apply elem_of_nil in Hin|].
    apply list_elem_of_singleton in Hin as ->. by left.
  - apply list_elem_of_fmap in Hin as (cs & -> & _). by right.
Qed.

Lemma patterns_foldl_add_insight (rows : list insight_row) (db : store) :
  patterns (foldl add_insight db rows) = patterns db /\
  assessments (foldl add_insight db rows) = assessments db.
Proof.
  revert db. induction rows as [|i rows IH]; intros db; cbn [foldl]; [done|].
  destruct (IH (add_insight db i)) as [-> ->]. done.
Qed.

Lemma execute_all_app (stmts1 stmts2 : list pattern_stmt) (table : list pattern_row) :
  execute_all (stmts1 ++ stmts2) table = execute_all stmts2 (execute_all stmts1 table).
Proof. unfold execute_all. apply foldl_app. Qed.

(** Inserting insights touches the insights table only, and appends. *)
Lemma insert_insights_inv (rows : outcome (list insight_row)) (db : store) :
  exists new,
    insights (insert_insights rows db).1 = insights db ++ new /\
    (forall l, rows = Returned l -> new = l) /\
    (forall exn, rows = Raised exn -> new = []) /\
    patterns (insert_insights rows db).1 = patterns db /\
    assessments (insert_insights rows db).1 = assessments db /\
    next_id (insert_insights rows db).1 = next_id db.
Proof.
  destruct rows as [l|exn]; cbn [insert_insights fst].
  - exists l. split.
    + revert db. induction l as [|i l IH]; intros db; cbn [foldl].
      * by rewrite app_nil_r.
      * rewrite IH. cbn. by rewrite <- app_assoc.
    + split; [by intros ? [= <-]|]. split; [done|].
      revert db. induction l as [|i l IH]; intros db; cbn [foldl]; [done|].
      destruct (IH (add_insight db i)) as (-> & -> & ->). done.
  - exists []. rewrite app_nil_r. repeat split; done.
Qed.

(** The analysis writes to the insights table only, whether it returns
    or raises. *)
Lemma analyze_patterns_frame (db : store) :
  patterns (analyze_patterns db).1 = patterns db /\
  assessments (analyze_patterns db).1 = assessments db /\
  next_id (analyze_patterns db).1 = next_id db.
Proof.
  unfold analyze_patterns, and_then.
  destruct (insert_insights_inv (top_industry_insight (query_top_industries (patterns db))) db)
    as (n1 & _ & _ & _ & Hp1 & Ha1 & Hn1).
  destruct (insert_insights _ db) as [db1 [[]|e1]]; cbn [fst] in *; [|done].
  destruct (insert_insights_inv (top_blocker_insight (query_blocking_factors (patterns db))) db1)
    as (n2 & _ & _ & _ & Hp2 & Ha2 & Hn2).
  destruct (insert_insights _ db1) as [db2 [[]|e2]]; cbn [fst] in *;
    [|by rewrite Hp2, Ha2, Hn2].
  destruct (insert_insights_inv
              (conversion_insight (count_high_performers db) (count_all db)) db2)
    as (n3 & _ & _ & _ & Hp3 & Ha3 & Hn3).
  by rewrite Hp3, Ha3, Hn3, Hp2, Ha2, Hn2.
Qed.

Lemma _check_analysis_trigger_frame (db : store) :
  patterns (_check_analysis_trigger db).1 = patterns db /\
  assessments (_check_analysis_trigger db).1 = assessments db /\
  next_id (_check_analysis_trigger db).1 = next_id db.
Proof.
  unfold _check_analysis_trigger.
  destruct (_ =? 0); [apply analyze_patterns_frame|done].
Qed.

(** A call that can evaluate [overall_score >= 75] executes the
    statements of [log_pattern_stmts], commits and goes on to the trigger. *)
Lemma log_patterns_returned (d : assessment_data) (db : store)
    (stmts : list pattern_stmt) :
  log_pattern_stmts d = Returned stmts ->
  log_patterns d db
  = _check_analysis_trigger (set_patterns db (execute_all stmts (patterns db))).
Proof.
  intros Hs. apply log_pattern_stmts_inv in Hs as (hp & Hhp & ->).
  unfold log_patterns. rewrite Hhp.
  rewrite app_assoc, (execute_all_app (industry_stmts d ++ blocking_stmts d) hp).
  reflexivity.
Qed.

(** A call that cannot has executed the statements before the
    comparison, and nothing else. *)
Lemma log_patterns_raised (d : assessment_data) (db : store) (exn : string) :
  high_performer_stmts d = Raised exn ->
  log_patterns d db
  = (set_patterns db
       (execute_all (industry_stmts d ++ blocking_stmts d) (patterns db)),
     Raised exn).
Proof. intros Hhp. unfold log_patterns. by rewrite Hhp. Qed.

(** Every call leaves the patterns table with the statements it has
    executed, and the assessments as they were. *)
Lemma log_patterns_frame (d : assessment_data) (db : store) :
  patterns (log_patterns d db).1 = execute_all (executed_stmts d) (patterns db) /\
  assessments (log_patterns d db).1 = assessments db /\
  next_id (log_patterns d db).1 = next_id db.
Proof.
  unfold log_patterns, executed_stmts.
  destruct (high_performer_stmts d) as [hp|exn].
  - destruct (_check_analysis_trigger_frame
                (set_patterns
                   (set_patterns db
                      (execute_all (industry_stmts d ++ blocking_stmts d) (patterns db)))
                   (execute_all hp
                      (patterns
                         (set_patterns db
                            (execute_all (industry_stmts d ++ blocking_stmts d)
                               (patterns db)))))))
      as (-> & -> & ->).
    cbn [set_patterns patterns assessments next_id].
    by rewrite app_assoc, (execute_all_app (industry_stmts d ++ blocking_stmts d) hp).
  - cbn [fst set_patterns patterns assessments next_id].
    by rewrite app_nil_r.
Qed.

(** When the assessment count is a multiple of 10, [log_patterns] ends
    in a run of [analyze_patterns] on the store it has just written. *)
Lemma log_patterns_triggers (d : assessment_data) (db : store)
    (stmts : list pattern_stmt) :
  log_pattern_stmts d = Returned stmts -> count_all db mod 10 = 0 ->
  log_patterns d db
  = analyze_patterns (set_patterns db (execute_all stmts (patterns db))).
Proof.
  intros Hs Hc. rewrite (log_patterns_returned _ _ _ Hs).
  unfold _check_analysis_trigger.
  unfold count_all in *. cbn [set_patterns assessments]. rewrite Hc. reflexivity.
Qed.

(** The statements of a call on [blocking_factor] patterns. *)
Lemma executed_stmts_blocking (d : assessment_data) (st : pattern_stmt) :
  st ∈ executed_stmts d -> stmt_type st = "blocking_factor"%string ->
  st ∈ blocking_stmts d.
Proof.
  unfold executed_stmts. intros Hin Hty.
  rewrite !elem_of_app in Hin. destruct Hin as [Hin|[Hin|Hin]].
  - apply industry_stmts_type in Hin. congruence.
  - exact Hin.
  - destruct (high_performer_stmts d) as [hp|] eqn:Hhp; [|by apply elem_of_nil in Hin].
    apply (high_performer_stmts_type _ _ _ Hhp) in Hin. congruence.
Qed.

(** The handler never touches the insights table. *)
Lemma assess_readiness_insights (data : request) (db : store) :
  insights (assess_readiness data db).2 = insights db.
Proof.
  unfold assess_readiness. destruct (req_answers data) as [answers|]; [|done].
  case_bool_decide; [done|].
  destruct (round_mean _) as [overall|]; cbn [obind]; [|done].
  destruct (category_scores_of _ _) as [scores|]; cbn [obind]; done.
Qed.

End Statements.

(** What the engine does for C5.  In every call of [log_patterns],
    whether it returns or raises, every category scoring strictly below 60
    gets a statement upserting the pattern [('blocking_factor', {category})]
    with that score, no other statement of the call addresses a
    [blocking_factor] pattern (none is issued for a category scoring 60 or
    above), and the patterns table afterwards is the table before with
    the statements of the call executed. *)
Lemma blocking_factor_below_threshold {col : Column} (d : assessment_data) (db : store) :
  (forall c s,
     (exists scores, ad_category_scores d = Some scores /\ (c, s) ∈ scores /\ s < 60) <->
     Upsert "blocking_factor" [("category"%string, Some c)] (Some s) ∈ executed_stmts d) /\
  (forall st, st ∈ executed_stmts d -> stmt_type st = "blocking_factor"%string ->
     exists scores c s, ad_category_scores d = Some scores /\ (c, s) ∈ scores /\ s < 60 /\
       st = Upsert "blocking_factor" [("category"%string, Some c)] (Some s)) /\
  patterns (log_patterns d db).1 = execute_all (executed_stmts d) (patterns db).
Proof.
  split; [|split; [|apply log_patterns_frame]].
  - intros c s. split.
    + intros (scores & Hsc & Hin & Hlt). unfold executed_stmts.
      rewrite !elem_of_app. right. left.
      apply blocking_stmts_spec. by exists scores, c, s.
    + intros Hin. apply executed_stmts_blocking in Hin; [|reflexivity].
      apply blocking_stmts_spec in Hin as (scores & c' & s' & Hsc & Hin & Hlt & [= -> ->]).
      by exists scores.
  - intros st Hin Hty. by apply blocking_stmts_spec, executed_stmts_blocking.
Qed.

(** C5 at its failing input.  For the scenario answers the category
    "Financial Capacity" scores 0, below 60; the request is answered 200
    and its patterns are logged, yet no statement of the handler addresses
    a [blocking_factor] pattern and no such row exists afterwards.
    [log_patterns], handed the same assessment, upserts the pattern
    [('blocking_factor', {"category": "Financial Capacity"})] with the
    score 0. *)
Theorem handler_logs_no_blocking_factor :
  exists body db',
    assess_readiness scenario_request empty_store = (Response200 body, db') /\
    ("Financial Capacity"%string, 0) ∈ category_scores body /\ 0 < 60 /\
    patterns db' <> [] /\
    rows_of_type "blocking_factor" (patterns db') = [] /\
    (Upsert "blocking_factor" [("category"%string, Some "Financial Capacity"%string)]
       (Some 0)
     ∉ assess_pattern_stmts (req_industry scenario_request) (overall_score body)
         (weak_categories_of (category_scores body))) /\
    exists db'',
      log_patterns (data_of (req_industry scenario_request) body) empty_store
      = (db'', Returned tt) /\
      Upsert "blocking_factor" [("category"%string, Some "Financial Capacity"%string)]
        (Some 0)
      ∈ executed_stmts (data_of (req_industry scenario_request) body) /\
      rows_with_key "blocking_factor"
        [("category"%string, Some "Financial Capacity"%string)] (patterns db'')
      = [PatternRow "blocking_factor"
           [("category"%string, Some "Financial Capacity"%string)] 1 (Some 0%Q)].
Proof.
  exists (respond 1 15 (answered scenario_answers)),
         (store_assessment scenario_request scenario_answers 15
            (answered scenario_answers) empty_store).
  split; [vm_compute; reflexivity|].
  assert (Hin : ("Financial Capacity"%string, 0)
                ∈ category_scores (respond 1 15 (answered scenario_answers))).
  { apply list_elem_of_In. vm_compute. tauto. }
  split; [exact Hin|].
  split; [lia|]. split; [vm_compute; discriminate|].
  split; [vm_compute; reflexivity|].
  split.
  { intros Hst. apply assess_pattern_stmts_type in Hst as [[Hty _]|Hty]; discriminate Hty. }
  destruct (log_patterns (data_of (req_industry scenario_request)
                            (respond 1 15 (answered scenario_answers))) empty_store)
    as [db'' out] eqn:Hlog.
  assert (Hout : out = Returned tt).
  { assert (H2 : out = (log_patterns (data_of (req_industry scenario_request)
                            (respond 1 15 (answered scenario_answers))) empty_store).2)
      by (by rewrite Hlog).
    rewrite H2. vm_compute. reflexivity. }
  assert (Hdb : db'' = (log_patterns (data_of (req_industry scenario_request)
                            (respond 1 15 (answered scenario_answers))) empty_store).1)
    by (by rewrite Hlog).
  exists db''. subst out. split; [reflexivity|].
  split.
  - apply blocking_factor_below_threshold; [exact empty_store|].
    eexists. split; [reflexivity|]. split; [exact Hin|lia].
  - rewrite Hdb. vm_compute. reflexivity.
Qed.

(** C10.  With an overall score of 0, or with the empty string as
    industry, no statement addresses an [industry_readiness] pattern, in
    the handler and in [log_patterns] alike, and the rows of that type are
    the same before and after. *)
Theorem no_industry_pattern_when_falsy {col : Column} :
  (forall industry overall weak st,
     overall = 0 \/ industry = Some ""%string ->
     st ∈ assess_pattern_stmts industry overall weak ->
     stmt_type st <> "industry_readiness"%string) /\
  (forall d stmts st,
     ad_overall_score d = Some 0 \/ ad_industry d = Some ""%string ->
     log_pattern_stmts d = Returned stmts -> st ∈ stmts ->
     stmt_type st <> "industry_readiness"%string) /\
  (forall data db body db',
     assess_readiness data db = (Response200 body, db') ->
     overall_score body = 0 \/ req_industry data = Some ""%string ->
     rows_of_type "industry_readiness" (patterns db')
     = rows_of_type "industry_readiness" (patterns db)) /\
  (forall d db,
     ad_overall_score d = Some 0 \/ ad_industry d = Some ""%string ->
     rows_of_type "industry_readiness" (patterns (log_patterns d db).1)
     = rows_of_type "industry_readiness" (patterns db)).
Proof.
  assert (Hhandler : forall industry overall weak st,
            overall = 0 \/ industry = Some ""%string ->
            st ∈ assess_pattern_stmts industry overall weak ->
            stmt_type st <> "industry_readiness"%string).
  { intros industry overall weak st Hfalsy Hin.
    apply assess_pattern_stmts_type in Hin as [(_ & Hi & Ho)| ->]; [|discriminate].
    destruct Hfalsy as [->| ->]; [done|discriminate Hi]. }
  assert (Hengine : forall d stmts st,
            ad_overall_score d = Some 0 \/ ad_industry d = Some ""%string ->
            log_pattern_stmts d = Returned stmts -> st ∈ stmts ->
            stmt_type st <> "industry_readiness"%string).
  { intros d stmts st Hfalsy Hs Hin.
    apply log_pattern_stmts_inv in Hs as (hp & Hhp & ->).
    rewrite !elem_of_app in Hin. destruct Hin as [Hin|[Hin|Hin]].
    - exfalso. unfold industry_stmts in Hin.
      destruct Hfalsy as [Ho|Hi].
      + rewrite Ho, andb_false_r in Hin. by apply elem_of_nil in Hin.
      + rewrite Hi in Hin. destruct (ad_overall_score d); by apply elem_of_nil in Hin.
    - apply blocking_stmts_spec in Hin as (? & ? & ? & _ & _ & _ & ->). discriminate.
    - apply (high_performer_stmts_type _ _ _ Hhp) in Hin. rewrite Hin. discriminate. }
  split; [exact Hhandler|]. split; [exact Hengine|]. split.
  - intros data db body db' H Hfalsy.
    apply assess_readiness_inv in H as (answers & overall & scores & _ & _ & _ & _ & -> & ->).
    cbn [respond overall_score] in Hfalsy. cbn [store_assessment patterns].
    apply execute_all_other_type, Forall_forall. intros st Hin.
    by apply (Hhandler _ _ _ _ Hfalsy Hin).
  - intros d db Hfalsy.
    destruct (log_patterns_frame d db) as (-> & _ & _).
    apply execute_all_other_type, Forall_forall. intros st Hin.
    unfold executed_stmts in Hin.
    destruct (high_performer_stmts d) as [hp|] eqn:Hhp.
    + apply (Hengine d (industry_stmts d ++ blocking_stmts d ++ hp) st Hfalsy); [|exact Hin].
      unfold log_pattern_stmts. by rewrite Hhp.
    + destruct Hfalsy as [Ho|Hi].
      * unfold high_performer_stmts in Hhp. by rewrite Ho in Hhp.
      * rewrite app_nil_r in Hin. apply elem_of_app in Hin as [Hin|Hin].
        -- exfalso. unfold industry_stmts in Hin. rewrite Hi in Hin.
           destruct (ad_overall_score d); by apply elem_of_nil in Hin.
        -- apply blocking_stmts_spec in Hin as (? & ? & ? & _ & _ & _ & ->). discriminate.
Qed.

(** C4 at its failing input.  With nine assessments stored, the request
    is answered 200 and leaves ten assessments, a multiple of 10, but the
    insights table is as empty as before; [_check_analysis_trigger], which
    [log_patterns] runs, would have written an insight on that store. *)
Theorem tenth_assessment_skips_analysis :
  exists body db',
    assess_readiness scenario_request nine_store = (Response200 body, db') /\
    count_all db' = 10 /\ count_all db' mod 10 = 0 /\
    insights nine_store = [] /\ insights db' = [] /\
    exists db'', _check_analysis_trigger db' = (db'', Returned tt) /\
      insight_type <$> insights db'' = ["conversion_potential"%string].
Proof.
  eexists _, _. split; [vm_compute; reflexivity|].
  repeat split; try (vm_compute; reflexivity).
  eexists. split; vm_compute; reflexivity.
Qed.

(* ================================================================== *)
(** * The percentile *)

Section Percentile.

Lemma count_below_range (score : Z) (db : store) :
  0 <= count_below score db <= count_all db.
Proof.
  unfold count_below, count_all, py_len.
  pose proof (length_filter (fun a => a_overall_score a < score) (assessments db)). lia.
Qed.

Lemma count_below_none (score : Z) (db : store) :
  Forall (fun a => score <= a_overall_score a) (assessments db) ->
  count_below score db = 0.
Proof.
  intros Hall. unfold count_below.
  replace (filter _ (assessments db)) with (@nil assessment_row); [done|].
  symmetry. induction Hall as [|a l Ha _ IH]; [done|].
  rewrite filter_cons_False by lia. exact IH.
Qed.

Lemma count_below_all (score : Z) (db : store) :
  Forall (fun a => a_overall_score a < score) (assessments db) ->
  count_below score db = count_all db.
Proof.
  intros Hall. unfold count_below, count_all. f_equal.
  induction Hall as [|a l Ha _ IH]; [done|].
  rewrite filter_cons_True by done. by f_equal.
Qed.

Lemma percentile_of_returns (lower_count total : Z) :
  0 <= lower_count <= total -> exists p, percentile_of lower_count total = Returned p.
Proof.
  intros Hl. unfold percentile_of. destruct (Z.eqb_spec total 0); [by eexists|].
  destruct (int_true_div_small lower_count total 0)
    as [[_ Hdiv]|(E & _ & _ & _ & Hdiv)]; [lia|lia|lia| |];
    rewrite Hdiv; cbn [obind]; by eexists.
Qed.

(** A result within one half of [n / d] that is not halfway between two
    integers is the rounded quotient. *)
Lemma nearest_not_tie (p n d : Z) :
  0 < d -> 2 * Z.abs (p * d - n) <= d -> 2 * (n mod d) <> d -> p = rne_div n d.
Proof.
  intros Hd Hnear Htie. symmetry. apply rne_div_unique; [done|]. left.
  destruct (Z.eq_dec (2 * Z.abs (p * d - n)) d) as [Heq|]; [exfalso|lia].
  apply Htie. destruct (Z.le_gt_cases 0 (p * d - n)) as [Hpos|Hneg].
  - rewrite Z.abs_eq in Heq by done.
    rewrite <- (Z.mod_unique n d (p - 1) (d - (p * d - n))); lia.
  - rewrite Z.abs_neq in Heq by lia.
    rewrite <- (Z.mod_unique n d p (n - p * d)); lia.
Qed.

End Percentile.

(** C8 (as the code has it).  [get_percentile] always answers, with the
    message built from the percentile.  The percentile is 50 when no
    assessment is stored, 0 when no stored score is below the given one
    and 100 when every stored score is below it.  In general (for fewer
    than [2^44] rows) it is an integer within one half of 100 times the
    share of stored scores strictly below the given one, and it is that
    value rounded whenever the value is not halfway between two integers.
    The counts are read off the table itself. *)
Theorem percentile_rounded_share (score : Z) (db : store) :
  exists r,
    get_percentile score db = Returned r /\
    message r = ("You're in the top "%string +:+ py_str (100 - percentile r)
                   +:+ "% of businesses we've analyzed"%string) /\
    (assessments db = [] -> percentile r = 50) /\
    (assessments db <> [] ->
     Forall (fun a => score <= a_overall_score a) (assessments db) ->
     percentile r = 0) /\
    (assessments db <> [] ->
     Forall (fun a => a_overall_score a < score) (assessments db) ->
     percentile r = 100) /\
    (assessments db <> [] -> Z.of_nat (length (assessments db)) < 2 ^ 44 ->
     2 * Z.abs (percentile r * Z.of_nat (length (assessments db))
                - 100 * Z.of_nat (length (filter (fun a => a_overall_score a < score)
                                            (assessments db))))
     <= Z.of_nat (length (assessments db)) /\
     (2 * ((100 * Z.of_nat (length (filter (fun a => a_overall_score a < score)
                                       (assessments db))))
           mod Z.of_nat (length (assessments db)))
      <> Z.of_nat (length (assessments db)) ->
      percentile r
      = rne_div (100 * Z.of_nat (length (filter (fun a => a_overall_score a < score)
                                           (assessments db))))
          (Z.of_nat (length (assessments db))))).
Proof.
  pose proof (count_below_range score db) as Hrange.
  destruct (percentile_of_returns _ _ Hrange) as [p Hp].
  unfold get_percentile. rewrite Hp. cbn [obind].
  eexists. split; [reflexivity|]. cbn [percentile message].
  split; [reflexivity|].
  assert (Hcount : forall l : list assessment_row, l <> [] -> 0 < Z.of_nat (length l)).
  { intros [|a l] Hl; [done|]. cbn [length]. lia. }
  split; [|split; [|split]].
  - intros H0. unfold count_all, py_len in Hp. rewrite H0 in Hp.
    cbn [length Z.of_nat] in Hp. rewrite percentile_of_empty in Hp. by injection Hp.
  - intros Hne Hall. apply Hcount in Hne. rewrite (count_below_none _ _ Hall) in Hp.
    rewrite percentile_of_none_below in Hp by (unfold count_all, py_len; lia).
    by injection Hp.
  - intros Hne Hall. apply Hcount in Hne. rewrite (count_below_all _ _ Hall) in Hp.
    rewrite percentile_of_all_below in Hp by (unfold count_all, py_len; lia).
    by injection Hp.
  - intros Hne Hsize. apply Hcount in Hne.
    destruct (percentile_of_nearest _ _ Hrange) as (p' & Hp' & Hnear);
      [unfold count_all, py_len; lia|].
    rewrite Hp in Hp'. injection Hp' as <-.
    unfold count_all, count_below, py_len in Hnear.
    split; [exact Hnear|].
    intros Htie. apply nearest_not_tie; [lia|exact Hnear|exact Htie].
Qed.

(** Where the value is halfway the claim fails.  With 23 of 40 stored
    scores below the given one the share is 57.5 percent, which rounds to
    58 (to the even neighbour, as Python's [round] does, and likewise
    rounding halves up); the handler answers 57, because the double
    nearest to 23/40 lies below it and its product with 100 is the double
    below 57.5. *)
Lemma percentile_of_a_tie :
  exists r,
    get_percentile 50 forty_store = Returned r /\
    Z.of_nat (length (assessments forty_store)) = 40 /\
    Z.of_nat (length (filter (fun a => a_overall_score a < 50)
                        (assessments forty_store))) = 23 /\
    percentile r = 57 /\
    message r = "You're in the top 43% of businesses we've analyzed"%string /\
    rne_div (100 * 23) 40 = 58 /\
    (2 * (100 * 23) + 40) / (2 * 40) = 58 /\
    (do x <- int_true_div 23 40; Returned (float_mul x f100))
    = Returned (Float 8092405580431359 (-47)) /\
    8092405580431359 * 2 < 115 * 2 ^ 47.
Proof.
  eexists. split; [vm_compute; reflexivity|].
  split; [vm_compute; reflexivity|]. split; [vm_compute; reflexivity|].
  split; [reflexivity|]. split; [reflexivity|].
  split; [vm_compute; reflexivity|]. split; [vm_compute; reflexivity|].
  split; [vm_compute; reflexivity|]. vm_compute. reflexivity.
Qed.

(* ================================================================== *)
(** * The monthly report *)

Section Report.

(** [int(x)] of a non-negative double is the floor of its value. *)
Lemma py_int_floor (m E : Z) :
  0 <= m -> 0 < E ->
  py_int (Float m (- E)) * 2 ^ E <= m < (py_int (Float m (- E)) + 1) * 2 ^ E.
Proof.
  intros Hm HE. unfold py_int. cbn [mant expo].
  destruct (Z.leb_spec 0 (- E)); [lia|]. rewrite Z.opp_involutive.
  assert (0 < 2 ^ E) by (apply Z.pow_pos_nonneg; lia).
  rewrite Z.quot_div_nonneg by lia.
  pose proof (Z.div_mod m (2 ^ E) ltac:(lia)).
  pose proof (Z.mod_pos_bound m (2 ^ E) ltac:(lia)). nia.
Qed.

Lemma float_of_int_small (f : Z) :
  0 < f <= 2 ^ 40 ->
  exists E, 12 <= E /\ f * 2 ^ E < 2 ^ 53 /\
    float_of_int f = Returned (Float (f * 2 ^ E) (- E)).
Proof.
  intros Hf. unfold float_of_int.
  destruct (int_true_div_small f 1 40) as [[-> _]|(E & _ & HE & Hlt & Hdiv)];
    [lia|lia|lia|lia|].
  rewrite (Z.abs_eq f), (Z.sgn_pos f), Z.mul_1_l in * by lia.
  exists E. split; [lia|]. split; [lia|]. rewrite Hdiv. do 2 f_equal.
  rewrite <- (Z.mul_1_r (f * 2 ^ E)) at 1. apply rne_div_exact. lia.
Qed.

(** [int(frequency * 0.52)] is the integer part of 0.52 times the
    frequency. *)
Lemma py_int_conversions (f : Z) (x : float) :
  0 < f <= 2 ^ 40 -> float_of_int f = Returned x ->
  py_int (float_mul x f0_52) = 52 * f / 100.
Proof.
  intros Hf Hx. destruct (float_of_int_small f Hf) as (E & HE & Hlt & Hx').
  rewrite Hx in Hx'. injection Hx' as ->.
  assert (HPE : 2 ^ 12 <= 2 ^ E) by (apply Z.pow_le_mono_r; lia).
  change (2 ^ 12) with 4096 in HPE.
  unfold float_mul, f0_52. cbn [mant expo].
  set (M := 4683743612465316).
  assert (HM : 100 * M = 52 * 2 ^ 53 + 16) by reflexivity.
  assert (HMlo : 2 ^ 52 <= M) by (vm_compute; discriminate).
  assert (HMhi : M < 2 ^ 53) by reflexivity.
  set (g := f * 2 ^ E) in *.
  assert (Hg : 4096 <= g) by (unfold g; nia).
  assert (Hp : 2 ^ 53 <= g * M < 2 ^ 106).
  { change (2 ^ 106) with (2 ^ 53 * 2 ^ 53). split; [nia|].
    apply Z.mul_lt_mono_nonneg; lia. }
  rewrite (Z.abs_eq (g * M)) by lia.
  pose proof (Z.log2_spec (g * M) ltac:(lia)) as [Hl1 Hl2].
  assert (Hl53 : 53 <= Z.log2 (g * M)) by (apply Z.log2_le_pow2; lia).
  assert (Hl106 : Z.log2 (g * M) < 106) by (apply Z.log2_lt_pow2; lia).
  set (s := Z.log2 (g * M) - 52) in *.
  destruct (Z.leb_spec s 0); [lia|].
  assert (HS : 0 < 2 ^ s) by (apply Z.pow_pos_nonneg; lia).
  assert (HSle : 2 ^ (s - 1) <= 2 ^ 52) by (apply Z.pow_le_mono_r; lia).
  assert (HS2 : 2 ^ s = 2 * 2 ^ (s - 1)).
  { rewrite <- Z.pow_succ_r by lia. f_equal. lia. }
  replace (- E + -53 + s) with (- (E + 53 - s)) by lia.
  assert (HT : 0 < 2 ^ (E + 53 - s)) by (apply Z.pow_pos_nonneg; lia).
  assert (HST : 2 ^ s * 2 ^ (E + 53 - s) = 2 ^ E * 2 ^ 53).
  { rewrite <- !Z.pow_add_r by lia. f_equal. lia. }
  pose proof (rne_div_near (g * M) (2 ^ s) HS) as Hnear.
  apply abs2_le in Hnear.
  set (m2 := rne_div (g * M) (2 ^ s)) in *.
  set (N := 52 * f / 100).
  pose proof (Z.div_mod (52 * f) 100 ltac:(lia)) as Hdm.
  pose proof (Z.mod_pos_bound (52 * f) 100 ltac:(lia)) as Hr.
  fold N in Hdm. set (r := (52 * f) mod 100) in *.
  assert (HN : 0 <= N) by (unfold N; apply Z.div_pos; lia).
  assert (Hprod : 100 * (g * M) = (100 * N + r) * (2 ^ E * 2 ^ 53) + 16 * g).
  { replace (100 * (g * M)) with (g * (100 * M)) by ring.
    rewrite HM, <- Hdm. unfold g. ring. }
  set (T := 2 ^ (E + 53 - s)) in *. set (S := 2 ^ s) in *.
  set (X := 2 ^ E * 2 ^ 53) in *.
  assert (HX : 4096 * 2 ^ 53 <= X) by (apply Z.mul_le_mono_nonneg_r; lia).
  assert (HNX : 0 <= N * X) by (apply Z.mul_nonneg_nonneg; lia).
  assert (HrX : 0 <= r * X <= 99 * X).
  { split; [apply Z.mul_nonneg_nonneg; lia|apply Z.mul_le_mono_nonneg_r; lia]. }
  assert (Hlow : N * T <= m2).
  { apply rne_div_ge; [exact HS|].
    replace (N * T * S) with (N * (S * T)) by ring. rewrite HST. lia. }
  assert (Hupp : m2 < (N + 1) * T).
  { apply (Z.mul_lt_mono_pos_r (200 * S)); [lia|].
    replace ((N + 1) * T * (200 * S)) with (200 * (N * (S * T)) + 200 * (S * T)) by ring.
    rewrite HST.
    replace (m2 * (200 * S)) with (100 * (2 * (m2 * S))) by ring.
    assert (HSs : S <= 2 * 2 ^ 52) by lia.
    change (2 ^ 52) with 4503599627370496 in *.
    change (2 ^ 53) with 9007199254740992 in *. lia. }
  destruct (py_int_floor m2 (E + 53 - s) ltac:(lia) ltac:(lia)) as [Hf1 Hf2].
  fold T in Hf1, Hf2. set (q := py_int (Float m2 (- (E + 53 - s)))) in *.
  destruct (Z.lt_trichotomy q N) as [Hq|[Hq|Hq]]; [exfalso|exact Hq|exfalso].
  - assert ((q + 1) * T <= N * T) by (apply Z.mul_le_mono_nonneg_r; lia). lia.
  - assert ((N + 1) * T <= q * T) by (apply Z.mul_le_mono_nonneg_r; lia). lia.
Qed.

Lemma omap_concat_inv {A B : Type} (f : A -> outcome (list B)) (l : list A)
    (rows : list (list B)) (P : A -> Prop) `{forall a, Decision (P a)}
    (R : A -> B -> Prop) :
  (forall a bs, f a = Returned bs ->
     (P a /\ exists b, bs = [b] /\ R a b) \/ (~ P a /\ bs = [])) ->
  omap f l = Returned rows ->
  Forall2 R (filter P l) (concat rows).
Proof.
  intros Hf. revert rows. induction l as [|a l IH]; intros rows; cbn [omap].
  - intros [= <-]. constructor.
  - destruct (f a) as [bs|] eqn:Ha; cbn [obind]; [|done].
    destruct (omap f l) as [rest|]; cbn [obind]; [|done].
    intros [= <-]. cbn [concat].
    destruct (Hf a bs Ha) as [(HP & b & -> & HR)|(HP & ->)].
    + rewrite filter_cons_True by done. constructor; [done|by apply IH].
    + rewrite filter_cons_False by done. by apply IH.
Qed.

End Report.

(** C9 (as the code has it).  Each of the first three rows of the top
    industries whose frequency is at least 5 yields, in order, a market
    opportunity whose [potential_conversions] is the double product of the
    frequency and 0.52; and when there is an opportunity, the first
    recommendation names the top one with that product cut to its integer
    part by [int()], which is the integer part of 0.52 times the frequency. *)
Theorem report_market_opportunities (top_industries : list industry_row)
    (opportunities : list opportunity_row) :
  opportunities_of top_industries = Returned opportunities ->
  Forall2
    (fun ind o =>
       market_size o = ir_frequency ind /\
       opportunity o = ("Target "%string +:+ fstr (ir_industry ind)
                          +:+ " - high AI readiness"%string) /\
       float_of_avg (ir_avg_score ind) = Returned (avg_readiness o) /\
       exists f, float_of_int (ir_frequency ind) = Returned f /\
         potential_conversions o = float_mul f f0_52)
    (filter (fun ind => 5 <= ir_frequency ind) (take 3 top_industries))
    opportunities /\
  (forall top rest blockers,
     opportunities = top :: rest ->
     head (_generate_recommendations opportunities blockers)
     = Some ("TARGET: "%string +:+ opportunity top +:+ " - "%string
               +:+ py_str (py_int (potential_conversions top))
               +:+ " potential Nuru conversions"%string) /\
     (market_size top <= 2 ^ 40 ->
      py_int (potential_conversions top) = 52 * market_size top / 100)) /\
  (forall db rep,
     top_industries = query_top_industries (patterns db) ->
     generate_monthly_report db = Returned rep ->
     market_opportunities rep = opportunities /\
     recommendations rep
     = _generate_recommendations opportunities (query_blocking_factors (patterns db))).
Proof.
  intros Hopps.
  assert (HF : Forall2
    (fun ind o =>
       market_size o = ir_frequency ind /\
       opportunity o = ("Target "%string +:+ fstr (ir_industry ind)
                          +:+ " - high AI readiness"%string) /\
       float_of_avg (ir_avg_score ind) = Returned (avg_readiness o) /\
       exists f, float_of_int (ir_frequency ind) = Returned f /\
         potential_conversions o = float_mul f f0_52)
    (filter (fun ind => 5 <= ir_frequency ind) (take 3 top_industries))
    opportunities).
  { unfold opportunities_of in Hopps.
    destruct (omap _ (take 3 top_industries)) as [rows|] eqn:Hrows; cbn [obind] in Hopps; [|done].
    injection Hopps as <-.
    eapply omap_concat_inv; [|exact Hrows].
    intros ind bs. cbn beta.
    destruct (Z.leb_spec 5 (ir_frequency ind)) as [Hge|Hlt].
    - destruct (float_of_avg _) as [avg|] eqn:Havg; cbn [obind]; [|done].
      destruct (float_of_int _) as [f|] eqn:Hf; cbn [obind]; [|done].
      intros [= <-]. left. split; [done|]. eexists. split; [reflexivity|].
      cbn. repeat split. by exists f.
    - intros [= <-]. right. split; [lia|done]. }
  split; [exact HF|]. split.
  - intros top rest blockers ->. split; [reflexivity|].
    intros Hsize.
    destruct (filter _ _) as [|ind inds] eqn:Hfil; inversion HF as [|? ? ? ? Hhd _]; subst.
    destruct Hhd as (Hms & _ & _ & f & Hf & ->).
    assert (Hin : ind ∈ filter (fun ind => 5 <= ir_frequency ind) (take 3 top_industries))
      by (rewrite Hfil; apply list_elem_of_here).
    apply list_elem_of_filter in Hin as [Hge _].
    rewrite Hms in *. apply py_int_conversions; [lia|done].
  - intros db rep -> Hrep. unfold generate_monthly_report in Hrep.
    rewrite Hopps in Hrep. cbn [obind] in Hrep.
    destruct (omap _ (query_top_industries _)) as [tops|]; cbn [obind] in Hrep; [|done].
    destruct (omap _ (query_blocking_factors _)) as [blocks|]; cbn [obind] in Hrep; [|done].
    injection Hrep as <-. done.
Qed.

Lemma report_market_opportunities_witness :
  exists o,
    opportunities_of tech_rows = Returned [o] /\
    market_size o = 5 /\
    head (_generate_recommendations [o] [])
    = Some "TARGET: Target Tech - high AI readiness - 2 potential Nuru conversions"%string /\
    py_int (potential_conversions o) = 52 * 5 / 100.
Proof.
  destruct (opportunities_of tech_rows) as [opps|] eqn:Hopps; [|discriminate Hopps].
  destruct (report_market_opportunities tech_rows opps Hopps) as (HF & Hrec & _).
  vm_compute in Hopps. injection Hopps as <-.
  eexists. split; [reflexivity|]. split; [reflexivity|].
  destruct (Hrec _ [] [] eq_refl) as [Hhd Hint].
  split; [exact Hhd|]. apply Hint. vm_compute. discriminate.
Defined.

(** The claim fails in two places.  The count shown is not the rounded
    one: for an industry seen five times the potential conversions are the
    double 2.6, which rounds to 3, and the recommendation shows 2.  And
    the opportunities are not taken from the three best patterns of
    frequency 5 or more: with three industries seen 3 times ahead by
    average of one seen 10 times, that one is the only pattern of
    frequency 5 or more, but the report looks at the first three rows of
    its query and finds no opportunity. *)
Lemma recommendation_shows_truncated_count :
  (exists o,
     opportunities_of tech_rows = Returned [o] /\
     potential_conversions o = Float 5854679515581645 (-51) /\
     py_round (potential_conversions o) = 3 /\
     _generate_recommendations [o] []
     = ["TARGET: Target Tech - high AI readiness - 2 potential Nuru conversions"%string] /\
     _generate_recommendations [o] []
     <> ["TARGET: Target Tech - high AI readiness - 3 potential Nuru conversions"%string]) /\
  (pattern_data <$> top3_with_frequency_5 crowded_table
   = [[("industry"%string, Some "D"%string)]] /\
   ir_industry <$> take 3 (query_top_industries crowded_table)
   = [Some "A"%string; Some "B"%string; Some "C"%string] /\
   opportunities_of (query_top_industries crowded_table) = Returned [] /\
   exists rep,
     generate_monthly_report (Store [] 1 crowded_table []) = Returned rep /\
     market_opportunities rep = [] /\ recommendations rep = []).
Proof.
  split.
  - eexists. split; [vm_compute; reflexivity|].
    repeat split; try (vm_compute; reflexivity).
    vm_compute. discriminate.
  - split; [vm_compute; reflexivity|]. split; [vm_compute; reflexivity|].
    split; [vm_compute; reflexivity|].
    eexists. split; [vm_compute; reflexivity|]. split; vm_compute; reflexivity.
Qed.

(* ================================================================== *)
(** * Worked values *)

(** The arithmetic of the model on inputs whose Python results are
    known: ties go to the even neighbour, and a quotient rounded before
    it is scaled by 100 can land on either side of a tie. *)

Example round_mean_ties :
  round_mean [2; 3] = Returned 2 /\ round_mean [3; 4] = Returned 4 /\
  round_mean [-2; -3] = Returned (-2) /\ round_mean [] = Raised "ZeroDivisionError".
Proof. repeat split; vm_compute; reflexivity. Qed.

Example round_mean_seven_answers :
  py_sum [90; 85; 80; 75; 95; 88; 92] = 605 /\
  round_mean [90; 85; 80; 75; 95; 88; 92] = Returned 86 /\
  tier_level (readiness_tier 86) = "Highly Ready for AI"%string.
Proof. repeat split; vm_compute; reflexivity. Qed.

Example percentile_of_ties :
  percentile_of 23 40 = Returned 57 /\ percentile_of 109 200 = Returned 55 /\
  percentile_of 3 200 = Returned 2 /\ percentile_of 1 3 = Returned 33.
Proof. repeat split; vm_compute; reflexivity. Qed.

Example conversions_truncated :
  (do f <- float_of_int 5; Returned (py_int (float_mul f f0_52))) = Returned 2 /\
  (do f <- float_of_int 25; Returned (py_int (float_mul f f0_52))) = Returned 13 /\
  (do f <- float_of_int 75; Returned (format_1f (float_mul f f0_52))) = Returned "39.0"%string.
Proof. repeat split; vm_compute; reflexivity. Qed.

Example monthly_report_of_tech :
  exists rep,
    generate_monthly_report (Store [] 1 (execute_all tech_stmts []) []) = Returned rep /\
    market_opportunities rep = [] /\
    recommendations rep
    = ["BUILD: Team Readiness support template - 1 businesses need help here"%string].
Proof.
  eexists. split; [vm_compute; reflexivity|].
  split; vm_compute; reflexivity.
Qed.

(* ================================================================== *)
(** * Further properties of the handler *)

Section HandlerOutcomes.

Context {col : Column}.

Lemma assess_readiness_cases (data : request) (db : store) :
  ((req_answers data = None \/ req_answers data = Some ∅) /\
   assess_readiness data db = (Response400 "No answers provided", db)) \/
  (exists answers exn, req_answers data = Some answers /\ answers <> ∅ /\
     assess_readiness data db = (Response500 exn, db)) \/
  (exists answers overall scores,
     req_answers data = Some answers /\ answers <> ∅ /\
     round_mean (answer_values answers) = Returned overall /\
     category_scores_of categories answers = Returned scores /\
     assess_readiness data db
     = (Response200 (respond (next_id db) overall scores),
        store_assessment data answers overall scores db)).
Proof.
  unfold assess_readiness. destruct (req_answers data) as [answers|]; [|left; auto].
  case_bool_decide as Hne; [left; subst; auto|right].
  destruct (round_mean _) as [overall|exn] eqn:Ho; cbn [obind].
  - destruct (category_scores_of _ _) as [scores|exn] eqn:Hs; cbn [obind].
    + right. by exists answers, overall, scores.
    + left. by exists answers, exn.
  - left. by exists answers, exn.
Qed.



End HandlerOutcomes.

(** X1.  The handler answers 400 exactly when the answers are absent or
    empty; the error text is then "No answers provided" and nothing is
    written. *)
Theorem assess_readiness_400_iff {col : Column} (data : request) (db : store) :
  ((exists e, (assess_readiness data db).1 = Response400 e) <->
   (req_answers data = None \/ req_answers data = Some ∅)) /\
  (forall e, (assess_readiness data db).1 = Response400 e ->
     e = "No answers provided"%string /\ (assess_readiness data db).2 = db).
Proof.
  destruct (assess_readiness_cases data db)
    as [[Hfalsy ->]|[(answers & exn & Ha & Hne & ->)|(answers & o & s & Ha & Hne & _ & _ & ->)]];
    cbn [fst snd].
  - split; [split; [done|by eexists]|]. by intros e [= <-].
  - split; [|done]. split; [by intros [e [=]]|].
    intros [H|H]; rewrite Ha in H; [done|]. by injection H.
  - split; [|done]. split; [by intros [e [=]]|].
    intros [H|H]; rewrite Ha in H; [done|]. by injection H.
Qed.

(** X2.  The handler writes only when it answers 200: after any other
    answer the three tables and the identifier counter are as before. *)
Theorem assess_readiness_writes_only_on_200 {col : Column} (data : request) (db : store) :
  (exists body, (assess_readiness data db).1 = Response200 body) \/
  (assess_readiness data db).2 = db.
Proof.
  destruct (assess_readiness_cases data db)
    as [[_ ->]|[(? & ? & _ & _ & ->)|(? & ? & ? & _ & _ & _ & _ & ->)]];
    cbn [fst snd]; [by right|by right|left; by eexists].
Qed.

(** X3.  A 200 answer appends exactly one assessment row: it carries the
    identifier, the overall score, the category scores and the level of
    the answer, the submitted answers, industry and email, and as company
    name the submitted one, "Anonymous" when the key is absent and NULL
    when the key holds [null]; the earlier rows stay, the row count grows
    by one and the next identifier by one. *)
Theorem assess_readiness_stores_row {col : Column} (data : request) (db db' : store)
    (body : assessment_result) :
  assess_readiness data db = (Response200 body, db') ->
  exists row,
    assessments db' = assessments db ++ [row] /\
    a_id row = assessment_id body /\ assessment_id body = next_id db /\
    a_overall_score row = overall_score body /\
    a_category_scores row = category_scores body /\
    a_readiness_level row = readiness_level body /\
    Some (a_answers row) = req_answers data /\
    a_industry row = req_industry data /\
    a_email row = req_email data /\
    a_company_name row
    = match req_company_name data with
      | None => Some "Anonymous"%string
      | Some given => given
      end /\
    next_id db' = next_id db + 1 /\
    count_all db' = count_all db + 1.
Proof.
  intros H. apply assess_readiness_inv in H
    as (answers & overall & scores & Ha & _ & _ & _ & -> & ->).
  eexists. split; [reflexivity|]. cbn. rewrite Ha.
  repeat split. unfold count_all, py_len. cbn. rewrite length_app. cbn. lia.
Qed.

Lemma assess_readiness_stores_row_witness :
  exists row body db',
    assess_readiness scenario_request empty_store = (Response200 body, db') /\
    assessments db' = assessments empty_store ++ [row] /\
    a_id row = 1 /\ a_overall_score row = 15 /\
    a_company_name row = Some "Anonymous"%string /\ next_id db' = 2.
Proof.
  destruct (assess_readiness scenario_request empty_store) as [resp db'] eqn:H.
  assert (Hr : (assess_readiness scenario_request empty_store).1
               = Response200 (respond 1 15 (answered scenario_answers)))
    by (vm_compute; reflexivity).
  rewrite H in Hr. cbn [fst] in Hr. subst resp.
  destruct (assess_readiness_stores_row _ _ _ _ H)
    as (row & Hrows & Hid & _ & Ho & _ & _ & _ & _ & _ & Hc & Hn & _).
  exists row, (respond 1 15 (answered scenario_answers)), db'.
  repeat split; [exact Hrows|exact Hid|exact Ho|exact Hc|exact Hn].
Defined.

Example company_name_null_is_stored :
  exists body db' row,
    assess_readiness null_company_request empty_store = (Response200 body, db') /\
    assessments db' = [row] /\ a_company_name row = None.
Proof.
  eexists _, _, _. split; [vm_compute; reflexivity|].
  split; reflexivity.
Qed.

(** X4.  Whatever requests arrive in sequence, the stored assessments
    keep pairwise distinct identifiers, all below the next identifier. *)
Theorem run_requests_ids_fresh {col : Column} (reqs : list request) (db : store) :
  ids_fresh db -> ids_fresh (run_requests reqs db).2.
Proof.
  revert db. induction reqs as [|req reqs IH]; intros db Hfresh; cbn [run_requests]; [done|].
  destruct (assess_readiness req db) as [resp db1] eqn:H1.
  destruct (run_requests reqs db1) as [resps db2] eqn:H2. cbn [snd].
  replace db2 with (run_requests reqs db1).2 by (by rewrite H2).
  apply IH. clear IH H2.
  destruct (assess_readiness_cases req db)
    as [[_ Hc]|[(? & ? & _ & _ & Hc)|(answers & overall & scores & _ & _ & _ & _ & Hc)]];
    rewrite H1 in Hc; injection Hc as -> ->; [done|done|].
  destruct Hfresh as [Hlt Hnd]. unfold ids_fresh. cbn [store_assessment assessments next_id].
  split.
  - apply Forall_app. split.
    + eapply Forall_impl; [exact Hlt|]. cbn. intros a Ha. lia.
    + constructor; [cbn; lia|constructor].
  - rewrite fmap_app. cbn [fmap list_fmap a_id].
    apply NoDup_app. split; [exact Hnd|]. split; [|apply NoDup_singleton].
    intros i Hi ->%list_elem_of_singleton.
    apply list_elem_of_fmap in Hi as (a & Hia & Ha).
    rewrite Forall_forall in Hlt. specialize (Hlt a Ha). lia.
Qed.

Lemma run_requests_ids_fresh_witness :
  ids_fresh (run_requests [scenario_request; tie_request; scenario_request] empty_store).2.
Proof.
  apply run_requests_ids_fresh. split; [constructor|constructor].
Defined.

(* ================================================================== *)
(** * Invariants of the patterns table *)


(** X5.  The unique constraint is never violated: from a table whose
    rows have pairwise distinct keys (the empty one for instance), any
    run of upsert statements ends in such a table. *)
Theorem execute_all_keys_unique {col : Column} (stmts : list pattern_stmt) (table : list pattern_row) :
  NoDup (row_key <$> table) -> NoDup (row_key <$> execute_all stmts table).
Proof.
  unfold execute_all. revert table.
  induction stmts as [|st stmts IH]; intros table Hnd; cbn [foldl]; [done|].
  apply IH. rewrite upsert_keys. case_decide as Hin; [done|].
  apply NoDup_app. split; [done|]. split; [|apply NoDup_singleton].
  intros k Hk ->%list_elem_of_singleton. done.
Qed.

Lemma execute_all_keys_unique_witness :
  NoDup (row_key <$> execute_all tech_stmts []).
Proof. apply execute_all_keys_unique. constructor. Defined.

(** X6.  No statement deletes or loses anything: every statement adds
    exactly one to the sum of the frequencies (a new row starts at 1, an
    existing one is incremented), every key present stays present, and
    the number of rows grows by at most one per statement. *)
Theorem execute_all_conserves {col : Column} (stmts : list pattern_stmt) (table : list pattern_row) :
  total_frequency (execute_all stmts table) = total_frequency table + py_len stmts /\
  (forall k, k ∈ row_key <$> table -> k ∈ row_key <$> execute_all stmts table) /\
  (length table <= length (execute_all stmts table) <= length table + length stmts)%nat.
Proof.
  unfold execute_all, py_len. revert table.
  induction stmts as [|st stmts IH]; intros table; cbn [foldl length].
  - split; [lia|]. split; [done|lia].
  - destruct (IH (upsert st table)) as (Hf & Hk & Hl).
    rewrite Hf, upsert_total_frequency. split; [lia|].
    assert (Hlen : length (upsert st table)
                   = length (row_key <$> upsert st table)) by (by rewrite length_fmap).
    rewrite upsert_keys in Hlen.
    split.
    + intros k Hin. apply Hk. rewrite upsert_keys.
      case_decide; [done|]. apply elem_of_app. by left.
    + case_decide; rewrite ?length_app, length_fmap in Hlen; cbn [length] in Hlen; lia.
Qed.

(** X7.  The frequency of a key counts the statements addressed to it,
    scored or not: from a table without the key, a run with [n > 0]
    statements on the key leaves one row of frequency [n]; and when all
    of them are frequency-only statements, as for [high_performer], the
    [avg_score] of that row is NULL. *)
Theorem frequency_counts_statements {col : Column} (ty : string) (data : pattern_key)
    (stmts : list pattern_stmt) (table : list pattern_row) :
  rows_with_key ty data table = [] ->
  scores_for ty data stmts <> [] ->
  exists r,
    rows_with_key ty data (execute_all stmts table) = [r] /\
    frequency r = py_len (scores_for ty data stmts) /\
    (Forall (fun o => o = None) (scores_for ty data stmts) -> avg_score r = None).
Proof.
  intros Hnone Hne.
  destruct (execute_all_counts ty data stmts table 0%nat (or_introl (conj eq_refl Hnone)))
    as [[H0 _]|[_ (r & Hr & Hf)]].
  { cbn in H0. by destruct (scores_for ty data stmts). }
  exists r. split; [exact Hr|]. split; [exact Hf|].
  intros Hall.
  pose proof (execute_all_scoreless ty data stmts table Hall) as Hnull.
  rewrite Hnone, Hr in Hnull. specialize (Hnull (List.Forall_nil _)).
  by inversion Hnull.
Qed.

Lemma frequency_counts_statements_witness :
  exists r,
    rows_with_key "high_performer" high_key (execute_all high_stmts []) = [r] /\
    frequency r = 2 /\ avg_score r = None.
Proof.
  destruct (frequency_counts_statements "high_performer" high_key high_stmts []
              eq_refl ltac:(discriminate)) as (r & Hr & Hf & Hnull).
  exists r. split; [exact Hr|]. split; [exact Hf|].
  apply Hnull. repeat constructor.
Defined.

(* ================================================================== *)
(** * Sorting with any total order *)

Section SortedAny.

Context {A : Type} (le : A -> A -> bool).
Hypothesis le_total : forall x y, le x y = false -> le y x = true.
Hypothesis le_trans : forall x y z, le x y = true -> le y z = true -> le x z = true.

Lemma insert_sorted_any (x : A) (l : list A) :
  StronglySorted (fun a b => le a b = true) l ->
  StronglySorted (fun a b => le a b = true) (insert_sorted le x l).
Proof.
  induction 1 as [|y l Hl IH Hy]; cbn [insert_sorted].
  - repeat constructor.
  - destruct (le x y) eqn:Hxy.
    + constructor; [by constructor|]. constructor; [exact Hxy|].
      eapply Forall_impl; [exact Hy|]. cbn. intros z Hz. by eapply le_trans.
    + constructor; [exact IH|].
      rewrite insert_sorted_perm. constructor; [by apply le_total|exact Hy].
Qed.

Lemma stable_sort_sorted (l : list A) :
  StronglySorted (fun a b => le a b = true) (stable_sort le l).
Proof.
  unfold stable_sort. induction l as [|x l IH]; cbn [foldr]; [constructor|].
  by apply insert_sorted_any.
Qed.

(** The first element of the sorted list precedes every element. *)
Lemma stable_sort_head (l : list A) (top : A) (rest : list A) :
  stable_sort le l = top :: rest -> forall x, x ∈ l -> le top x = true.
Proof.
  intros Hs x Hx. pose proof (stable_sort_sorted l) as Hsorted.
  rewrite <- (stable_sort_perm le l), Hs in Hx. rewrite Hs in Hsorted.
  apply StronglySorted_inv in Hsorted as [_ Hall].
  apply elem_of_cons in Hx as [->|Hx].
  - destruct (le top top) eqn:Hr; [done|]. pose proof (le_total _ _ Hr). congruence.
  - rewrite Forall_forall in Hall. by apply Hall.
Qed.

End SortedAny.

(* ================================================================== *)
(** * The queries and the analysis *)

Section Analysis.



Lemma freq_desc_total (x y : pattern_row) : freq_desc x y = false -> freq_desc y x = true.
Proof. unfold freq_desc. rewrite Z.leb_gt, Z.leb_le. lia. Qed.

Lemma freq_desc_trans (x y z : pattern_row) :
  freq_desc x y = true -> freq_desc y z = true -> freq_desc x z = true.
Proof. unfold freq_desc. rewrite !Z.leb_le. lia. Qed.

Lemma take_cons_inv {A : Type} (n : nat) (l : list A) (x : A) (rest : list A) :
  take n l = x :: rest -> exists l', l = x :: l'.
Proof. destruct n, l; cbn; [done|done|done|]. intros [= -> _]. by eexists. Qed.

Lemma fmap_cons_inv_head {A B : Type} (f : A -> B) (l : list A) (y : B) (rest : list B) :
  f <$> l = y :: rest -> exists x l', l = x :: l' /\ f x = y.
Proof. destruct l as [|x l']; [done|]. intros [= <- _]. by eexists _, _. Qed.


Lemma query_blocking_factors_head (table : list pattern_row) (top : blocker_row)
    (rest : list blocker_row) :
  query_blocking_factors table = top :: rest ->
  exists r0 tail,
    stable_sort freq_desc (filter blocking_factor_row table) = r0 :: tail /\
    br_frequency top = frequency r0 /\ br_avg_score top = avg_score r0 /\
    br_category top = json_text (pattern_data r0) "category".
Proof.
  unfold query_blocking_factors. intros Hq.
  apply fmap_cons_inv_head in Hq as (r0 & l' & Ht & <-).
  apply take_cons_inv in Ht as (tail & Hs). by exists r0, tail.
Qed.

Lemma sorted_take_nil {A : Type} (le : A -> A -> bool) (P : A -> Prop)
    `{forall x, Decision (P x)} (l : list A) :
  take 5 (stable_sort le (filter P l)) = [] <-> ~ Exists P l.
Proof.
  split.
  - intros Ht Hex. apply Exists_exists in Hex as (x & Hx & HP).
    assert (Hin : x ∈ filter P l) by (by apply list_elem_of_filter).
    rewrite <- (stable_sort_perm le) in Hin.
    destruct (stable_sort le (filter P l)); [by apply elem_of_nil in Hin|done].
  - intros Hno.
    assert (Hnil : filter P l = []).
    { apply elem_of_nil_inv. intros x Hx. apply list_elem_of_filter in Hx as [HP Hx].
      apply Hno, Exists_exists. eauto. }
    by rewrite Hnil.
Qed.

Lemma query_top_industries_nil (table : list pattern_row) :
  query_top_industries table = [] <-> ~ Exists ready_industry table.
Proof.
  unfold query_top_industries. split.
  - intros Hq%fmap_nil_inv. by apply (sorted_take_nil avg_desc ready_industry).
  - intros Hno. apply (sorted_take_nil avg_desc ready_industry) in Hno.
    unfold ready_industry in Hno. by rewrite Hno.
Qed.

Lemma query_blocking_factors_nil (table : list pattern_row) :
  query_blocking_factors table = [] <-> ~ Exists blocking_factor_row table.
Proof.
  unfold query_blocking_factors. split.
  - intros Hq%fmap_nil_inv. by apply (sorted_take_nil freq_desc blocking_factor_row).
  - intros Hno. apply (sorted_take_nil freq_desc blocking_factor_row) in Hno.
    unfold blocking_factor_row in Hno. by rewrite Hno.
Qed.

Lemma insights_foldl_add_insight (rows : list insight_row) (db : store) :
  insights (foldl add_insight db rows) = insights db ++ rows /\
  next_id (foldl add_insight db rows) = next_id db.
Proof.
  revert db. induction rows as [|i rows IH]; intros db; cbn [foldl].
  - by rewrite app_nil_r.
  - destruct (IH (add_insight db i)) as [-> ->]. cbn. by rewrite <- app_assoc.
Qed.

Lemma top_industry_insight_type (table : list pattern_row) (rows : list insight_row) :
  top_industry_insight (query_top_industries table) = Returned rows ->
  insight_type <$> rows
  = if decide (Exists ready_industry table) then ["top_ready_industry"%string] else [].
Proof.
  unfold top_industry_insight. intros H1.
  destruct (query_top_industries table) as [|top rest] eqn:Hq.
  - injection H1 as <-. apply query_top_industries_nil in Hq. by rewrite decide_False.
  - destruct (float_of_avg _); cbn [obind] in H1; [|done]. injection H1 as <-.
    rewrite decide_True; [done|].
    destruct (decide (Exists ready_industry table)) as [|Hn]; [done|].
    apply query_top_industries_nil in Hn. congruence.
Qed.

Lemma top_blocker_insight_type (table : list pattern_row) (rows : list insight_row) :
  top_blocker_insight (query_blocking_factors table) = Returned rows ->
  insight_type <$> rows
  = if decide (Exists blocking_factor_row table) then ["top_blocker"%string] else [].
Proof.
  unfold top_blocker_insight. intros H2.
  destruct (query_blocking_factors table) as [|top rest] eqn:Hq.
  - injection H2 as <-. apply query_blocking_factors_nil in Hq. by rewrite decide_False.
  - destruct (float_of_avg _); cbn [obind] in H2; [|done]. injection H2 as <-.
    rewrite decide_True; [done|].
    destruct (decide (Exists blocking_factor_row table)) as [|Hn]; [done|].
    apply query_blocking_factors_nil in Hn. congruence.
Qed.

Lemma conversion_insight_type (high_performers total : Z) (rows : list insight_row) :
  conversion_insight high_performers total = Returned rows ->
  insight_type <$> rows
  = if decide (0 < total) then ["conversion_potential"%string] else [].
Proof.
  unfold conversion_insight. intros H3. destruct (Z.ltb_spec 0 total).
  - destruct (int_true_div _ _); cbn [obind] in H3; [|done]. injection H3 as <-.
    by rewrite decide_True.
  - injection H3 as <-. by rewrite decide_False by lia.
Qed.

(** A run of the analysis that returns has inserted the three groups of
    insights, in order. *)
Lemma analyze_patterns_returned (db db' : store) :
  analyze_patterns db = (db', Returned tt) ->
  exists i1 i2 i3,
    top_industry_insight (query_top_industries (patterns db)) = Returned i1 /\
    top_blocker_insight (query_blocking_factors (patterns db)) = Returned i2 /\
    conversion_insight (count_high_performers db) (count_all db) = Returned i3 /\
    db' = foldl add_insight db (i1 ++ i2 ++ i3).
Proof.
  unfold analyze_patterns, and_then, insert_insights.
  destruct (top_industry_insight _) as [i1|]; [|done].
  destruct (top_blocker_insight _) as [i2|]; [|done].
  destruct (conversion_insight _ _) as [i3|]; [|done].
  intros [= <-]. exists i1, i2, i3. by rewrite !foldl_app.
Qed.

Lemma analyze_patterns_inv (db db' : store) :
  analyze_patterns db = (db', Returned tt) ->
  exists new,
    insights db' = insights db ++ new /\
    insight_type <$> new = expected_insight_types db /\
    assessments db' = assessments db /\ patterns db' = patterns db /\
    next_id db' = next_id db.
Proof.
  intros H. apply analyze_patterns_returned in H as (i1 & i2 & i3 & H1 & H2 & H3 & ->).
  exists (i1 ++ i2 ++ i3).
  destruct (patterns_foldl_add_insight (i1 ++ i2 ++ i3) db) as [Hp Ha].
  destruct (insights_foldl_add_insight (i1 ++ i2 ++ i3) db) as [Hi Hn].
  split; [exact Hi|]. split; [|done].
  unfold expected_insight_types. rewrite !fmap_app.
  by rewrite (top_industry_insight_type _ _ H1), (top_blocker_insight_type _ _ H2),
    (conversion_insight_type _ _ _ H3).
Qed.

End Analysis.

(** X8.  Every call of [log_patterns], whether it returns or raises,
    leaves the assessments as they were and the patterns table with the
    statements it has executed.  Without an overall score the call raises
    [TypeError] (the comparison [None >= 75]) after it has executed the
    [blocking_factor] statements, and nothing else; these stay on the
    connection, and the table that the next call leaves holds them
    together with the statements of that call.  With an overall score,
    and an assessment count that is not a multiple of 10, the call
    returns and writes no insight. *)
Theorem log_patterns_outcome {col : Column} (d : assessment_data) (db : store) :
  patterns (log_patterns d db).1 = execute_all (executed_stmts d) (patterns db) /\
  assessments (log_patterns d db).1 = assessments db /\
  (ad_overall_score d = None ->
   (log_patterns d db).2 = Raised "TypeError" /\
   executed_stmts d = blocking_stmts d /\
   insights (log_patterns d db).1 = insights db /\
   forall d2,
     patterns (log_patterns d2 (log_patterns d db).1).1
     = execute_all (blocking_stmts d ++ executed_stmts d2) (patterns db)) /\
  (forall overall,
     ad_overall_score d = Some overall -> count_all db mod 10 <> 0 ->
     (log_patterns d db).2 = Returned tt /\
     log_pattern_stmts d = Returned (executed_stmts d) /\
     insights (log_patterns d db).1 = insights db).
Proof.
  destruct (log_patterns_frame d db) as (Hp & Ha & _).
  split; [exact Hp|]. split; [exact Ha|]. split.
  - intros Hn.
    assert (Hhp : high_performer_stmts d = Raised "TypeError")
      by (unfold high_performer_stmts; by rewrite Hn).
    assert (Hex : executed_stmts d = blocking_stmts d).
    { unfold executed_stmts, industry_stmts. by rewrite Hhp, Hn, app_nil_r. }
    rewrite (log_patterns_raised _ _ _ Hhp) in *. cbn [fst snd].
    split; [reflexivity|]. split; [exact Hex|]. split; [reflexivity|].
    intros d2. destruct (log_patterns_frame d2
      (set_patterns db (execute_all (industry_stmts d ++ blocking_stmts d) (patterns db))))
      as (-> & _ & _).
    cbn [set_patterns patterns]. cbn [fst] in Hp. rewrite Hex in Hp.
    unfold industry_stmts at 1. rewrite Hn. cbn [app].
    by rewrite execute_all_app.
  - intros overall Ho Hc.
    assert (Hhp : exists hp, high_performer_stmts d = Returned hp)
      by (unfold high_performer_stmts; rewrite Ho; by eexists).
    destruct Hhp as [hp Hhp].
    assert (Hs : log_pattern_stmts d = Returned (executed_stmts d)).
    { unfold log_pattern_stmts, executed_stmts. by rewrite Hhp. }
    rewrite (log_patterns_returned _ _ _ Hs).
    unfold _check_analysis_trigger, count_all in *. cbn [set_patterns assessments].
    destruct (Z.eqb_spec (py_len (assessments db) mod 10) 0); [done|].
    by repeat split.
Qed.

(** A call without an overall score raises after its [blocking_factor]
    statement; the call that follows on the same connection returns, and
    the pattern is then counted twice. *)
Example raised_call_leaves_statements :
  (log_patterns unscored_data empty_store).2 = Raised "TypeError" /\
  frequency <$> rows_with_key "blocking_factor"
                  [("category"%string, Some "Team Readiness"%string)]
                  (patterns (log_patterns unscored_data empty_store).1) = [1] /\
  (log_patterns sample_data (log_patterns unscored_data empty_store).1).2 = Returned tt /\
  frequency <$> rows_with_key "blocking_factor"
                  [("category"%string, Some "Team Readiness"%string)]
                  (patterns (log_patterns sample_data
                               (log_patterns unscored_data empty_store).1).1) = [2].
Proof. repeat split; vm_compute; reflexivity. Qed.

(** X9.  A run of [analyze_patterns] that returns changes nothing but
    the insights table, to which it appends, in this order, a
    [top_ready_industry] insight when some [industry_readiness] pattern
    has frequency 3 or more, a [top_blocker] insight when some
    [blocking_factor] pattern exists, and a [conversion_potential] insight
    when at least one assessment is stored: at most three rows. *)
Theorem analyze_patterns_appends (db db' : store) :
  analyze_patterns db = (db', Returned tt) ->
  exists new,
    insights db' = insights db ++ new /\
    insight_type <$> new = expected_insight_types db /\
    (length new <= 3)%nat /\
    assessments db' = assessments db /\ patterns db' = patterns db /\
    next_id db' = next_id db.
Proof.
  intros H. apply analyze_patterns_inv in H as (new & Hi & Ht & Ha & Hp & Hn).
  exists new. repeat split; try done.
  rewrite <- (length_fmap insight_type), Ht. unfold expected_insight_types.
  repeat case_decide; cbn; lia.
Qed.

Lemma analyze_patterns_appends_witness :
  exists db' new,
    analyze_patterns tech_store = (db', Returned tt) /\
    insights db' = [] ++ new /\
    insight_type <$> new = ["top_ready_industry"%string; "top_blocker"%string].
Proof.
  destruct (analyze_patterns tech_store) as [db' out] eqn:H.
  assert (Hout : out = Returned tt).
  { assert (H2 : out = (analyze_patterns tech_store).2) by (by rewrite H).
    rewrite H2. vm_compute. reflexivity. }
  subst out.
  destruct (analyze_patterns_appends _ _ H) as (new & Hi & Ht & _).
  exists db', new. split; [reflexivity|]. split; [exact Hi|].
  rewrite Ht. vm_compute. reflexivity.
Defined.

(** X10.  On every tenth assessment (a positive count that is a
    multiple of 10), a [log_patterns] call that returns has appended
    between one and three insights, the last one of type
    [conversion_potential]. *)
Theorem log_patterns_tenth_appends_insights {col : Column} (d : assessment_data) (db db' : store) :
  count_all db mod 10 = 0 -> 0 < count_all db ->
  log_patterns d db = (db', Returned tt) ->
  exists new last_one,
    insights db' = insights db ++ new /\
    (1 <= length new <= 3)%nat /\
    last new = Some last_one /\
    insight_type last_one = "conversion_potential"%string /\
    assessments db' = assessments db.
Proof.
  intros Hmod Hpos.
  destruct (log_pattern_stmts d) as [stmts|exn] eqn:Hs.
  2: { unfold log_pattern_stmts in Hs.
       destruct (high_performer_stmts d) as [hp|] eqn:Hhp; [done|].
       rewrite (log_patterns_raised _ _ _ Hhp). done. }
  rewrite (log_patterns_triggers _ _ _ Hs Hmod). intros H.
  apply analyze_patterns_inv in H as (new & Hi & Ht & Ha & _ & _).
  cbn [set_patterns insights assessments] in Hi, Ha.
  unfold expected_insight_types in Ht.
  replace (count_all (set_patterns db (execute_all stmts (patterns db))))
    with (count_all db) in Ht by reflexivity.
  rewrite (decide_True (P := 0 < count_all db)) in Ht by done.
  rewrite app_assoc in Ht.
  destruct (exists_last (l := new)) as (front & i & ->).
  { intros ->. symmetry in Ht. by apply app_eq_nil in Ht as [_ ?]. }
  rewrite fmap_app in Ht. cbn [fmap list_fmap] in Ht.
  apply app_inj_tail in Ht as [Hf Hl].
  exists (front ++ [i]), i. split; [exact Hi|].
  split; [|split; [apply last_snoc|split; [done|exact Ha]]].
  apply (f_equal length) in Hf. rewrite length_fmap, length_app in Hf.
  rewrite length_app. cbn [length].
  repeat case_decide; cbn [length] in Hf; lia.
Qed.

Lemma log_patterns_tenth_appends_insights_witness :
  exists db' new last_one,
    log_patterns sample_data ten_store = (db', Returned tt) /\
    insights db' = insights ten_store ++ new /\
    last new = Some last_one /\
    insight_type last_one = "conversion_potential"%string.
Proof.
  destruct (log_patterns sample_data ten_store) as [db' out] eqn:H.
  assert (Hout : out = Returned tt).
  { assert (H2 : out = (log_patterns sample_data ten_store).2) by (by rewrite H).
    rewrite H2. vm_compute. reflexivity. }
  subst out.
  assert (Hmod : count_all ten_store mod 10 = 0) by (vm_compute; reflexivity).
  assert (Hpos : 0 < count_all ten_store) by (vm_compute; reflexivity).
  destruct (log_patterns_tenth_appends_insights sample_data ten_store db' Hmod Hpos H)
    as (new & last_one & Hi & _ & Hl & Ht & _).
  exists db', new, last_one. repeat split; assumption.
Defined.



(** X12.  The blocking-factors query returns at most five rows, with no
    threshold on the frequency, in non-increasing order of frequency; its
    first row has the highest frequency of all [blocking_factor] patterns. *)
Theorem top_blocker_is_most_frequent (table : list pattern_row) :
  (length (query_blocking_factors table) <= 5)%nat /\
  StronglySorted (fun x y => br_frequency y <= br_frequency x)
    (query_blocking_factors table) /\
  (forall top rest, query_blocking_factors table = top :: rest ->
     forall r, r ∈ table -> blocking_factor_row r -> frequency r <= br_frequency top) /\
  (query_blocking_factors table = [] <-> ~ Exists blocking_factor_row table).
Proof.
  split; [|split; [|split]].
  - unfold query_blocking_factors. rewrite length_fmap, length_take. lia.
  - unfold query_blocking_factors.
    pose proof (stable_sort_sorted freq_desc freq_desc_total freq_desc_trans
                  (filter blocking_factor_row table)) as Hsorted.
    rewrite <- (take_drop 5 (stable_sort freq_desc _)) in Hsorted.
    apply StronglySorted_app_1_l in Hsorted.
    revert Hsorted. apply StronglySorted_fmap.
    intros x y Hxy. cbn. unfold freq_desc in Hxy. by apply Z.leb_le.
  - intros top rest Hq r Hr Hb.
    apply query_blocking_factors_head in Hq as (r0 & tail & Hs & Hf & _).
    assert (Hin : r ∈ filter blocking_factor_row table) by (by apply list_elem_of_filter).
    pose proof (stable_sort_head freq_desc freq_desc_total freq_desc_trans _ _ _ Hs r Hin) as Hle.
    unfold freq_desc in Hle. apply Z.leb_le in Hle. by rewrite Hf.
  - apply query_blocking_factors_nil.
Qed.

(* ================================================================== *)
(** * The handler and the patterns table *)

Section HandlerPatterns.

Context {col : Column}.

Lemma scores_for_weak (ty : string) (data : pattern_key) (weak : list (string * Z)) :
  ty <> "weak_category"%string ->
  filter (fun st => stmt_type st = ty /\ stmt_data st = data)
    (map (fun cs => Upsert "weak_category" [("category"%string, Some cs.1)] (Some cs.2)) weak)
  = [].
Proof.
  intros Hty. induction weak as [|cs weak IH]; [done|].
  cbn [map]. rewrite filter_cons_False; [exact IH|].
  cbn. intros [? _]. congruence.
Qed.

Lemma scores_for_assess_pattern_stmts (ind : string) (industry : option string)
    (overall : Z) (weak : list (string * Z)) :
  ind <> ""%string ->
  scores_for "industry_readiness" [("industry"%string, Some ind)]
    (assess_pattern_stmts industry overall weak)
  = Some <$> (if decide (industry = Some ind /\ overall <> 0) then [overall] else []).
Proof.
  intros Hind. unfold scores_for, assess_pattern_stmts.
  rewrite filter_app, scores_for_weak, app_nil_r by done.
  assert (Htruthy : truthy_str (Some ind) = true).
  { cbn. destruct (String.eqb_spec ind ""); [done|reflexivity]. }
  destruct (truthy_str industry && negb (overall =? 0)) eqn:Hc.
  - apply andb_true_iff in Hc as [_ Ho]. apply negb_true_iff, Z.eqb_neq in Ho.
    destruct (decide (industry = Some ind)) as [->|Hne].
    + rewrite filter_cons_True by done. rewrite decide_True by done. reflexivity.
    + rewrite filter_cons_False by (cbn; intros [_ [= ?]]; congruence).
      rewrite decide_False by (intros [? _]; congruence). reflexivity.
  - rewrite decide_False; [reflexivity|]. intros [-> Ho].
    rewrite Htruthy in Hc. cbn [andb] in Hc.
    apply negb_false_iff, Z.eqb_eq in Hc. congruence.
Qed.

Lemma assess_readiness_accumulated {bounded : BoundedColumn col} (ind : string)
    (req : request) (db db1 : store) (resp : response) (acc : list Z) :
  ind <> ""%string ->
  accumulated "industry_readiness" [("industry"%string, Some ind)] acc (patterns db) ->
  assess_readiness req db = (resp, db1) ->
  accumulated "industry_readiness" [("industry"%string, Some ind)]
    (acc ++ industry_score ind req resp) (patterns db1).
Proof.
  intros Hind Hagg.
  destruct (assess_readiness_cases req db)
    as [[_ ->]|[(? & ? & _ & _ & ->)|(answers & overall & scores & _ & _ & _ & _ & ->)]];
    intros [= <- <-]; cbn [industry_score]; rewrite ?app_nil_r; try done.
  cbn [store_assessment patterns respond overall_score].
  apply execute_all_accumulated; [exact Hagg|].
  by apply scores_for_assess_pattern_stmts.
Qed.

Lemma run_requests_accumulated {bounded : BoundedColumn col} (ind : string)
    (reqs : list request) :
  ind <> ""%string ->
  forall (db db' : store) (resps : list response) (acc : list Z),
    accumulated "industry_readiness" [("industry"%string, Some ind)] acc (patterns db) ->
    run_requests reqs db = (resps, db') ->
    accumulated "industry_readiness" [("industry"%string, Some ind)]
      (acc ++ industry_scores ind reqs resps) (patterns db').
Proof.
  intros Hind. induction reqs as [|req reqs IH]; intros db db' resps acc Hagg;
    cbn [run_requests].
  - intros [= <- <-]. by rewrite app_nil_r.
  - destruct (assess_readiness req db) as [resp db1] eqn:H1.
    destruct (run_requests reqs db1) as [resps' db2] eqn:H2.
    intros [= <- <-]. cbn [industry_scores]. rewrite app_assoc.
    apply (IH db1); [|exact H2].
    by apply (assess_readiness_accumulated ind req db).
Qed.


Lemma assess_pattern_stmts_other_type (ty : string) (industry : option string)
    (overall : Z) (weak : list (string * Z)) :
  ty <> "industry_readiness"%string -> ty <> "weak_category"%string ->
  Forall (fun st => stmt_type st <> ty) (assess_pattern_stmts industry overall weak).
Proof.
  intros H1 H2. apply Forall_forall. intros st Hst.
  apply assess_pattern_stmts_type in Hst as [(-> & _)| ->]; congruence.
Qed.

Lemma assess_readiness_other_type (ty : string) (data : request) (db : store) :
  ty <> "industry_readiness"%string -> ty <> "weak_category"%string ->
  rows_of_type ty (patterns (assess_readiness data db).2) = rows_of_type ty (patterns db).
Proof.
  intros H1 H2.
  destruct (assess_readiness_cases data db)
    as [[_ ->]|[(? & ? & _ & _ & ->)|(answers & overall & scores & _ & _ & _ & _ & ->)]];
    cbn [snd]; [done|done|].
  cbn [store_assessment patterns].
  apply execute_all_other_type. by apply assess_pattern_stmts_other_type.
Qed.

End HandlerPatterns.

(** X13.  Over any sequence of requests to the handler, from a store
    with no row for the industry, the [industry_readiness] row of a
    non-empty industry counts the requests of that industry answered 200
    with a score other than 0, and its average, the running formula in the
    rounded arithmetic of the column, lies between any two integers that
    enclose the overall scores of these requests; there is no row when
    there was no such request. *)
Theorem industry_row_over_requests {col : Column} {bounded : BoundedColumn col}
    (ind : string) (reqs : list request) (db db' : store) (resps : list response) :
  ind <> ""%string ->
  rows_with_key "industry_readiness" [("industry"%string, Some ind)] (patterns db) = [] ->
  run_requests reqs db = (resps, db') ->
  accumulated "industry_readiness" [("industry"%string, Some ind)]
    (industry_scores ind reqs resps) (patterns db').
Proof.
  intros Hind Hfresh Hrun.
  apply (run_requests_accumulated ind reqs Hind db db' resps []); [|exact Hrun].
  left. by split.
Qed.

Lemma industry_row_over_requests_witness :
  exists resps db',
    run_requests retail_requests empty_store = (resps, db') /\
    industry_scores "Retail" retail_requests resps = [40; 70] /\
    accumulated "industry_readiness" [("industry"%string, Some "Retail"%string)]
      [40; 70] (patterns db').
Proof.
  destruct (run_requests retail_requests empty_store) as [resps db'] eqn:Hrun.
  assert (Hs : industry_scores "Retail" retail_requests resps = [40; 70]).
  { assert (Hr : resps = (run_requests retail_requests empty_store).1) by (by rewrite Hrun).
    rewrite Hr. vm_compute. reflexivity. }
  exists resps, db'. split; [reflexivity|]. split; [exact Hs|].
  rewrite <- Hs.
  apply (industry_row_over_requests "Retail" retail_requests empty_store db' resps);
    [discriminate|reflexivity|exact Hrun].
Defined.

(** X14.  The handler never touches a pattern of a type other than
    [industry_readiness] and [weak_category]: the [blocking_factor] and
    [high_performer] rows, and with them the answer of the blocking-factor
    query of the analysis, are the same after every request. *)
Theorem assess_readiness_keeps_engine_patterns {col : Column} (data : request) (db : store) :
  (forall ty, ty <> "industry_readiness"%string -> ty <> "weak_category"%string ->
     rows_of_type ty (patterns (assess_readiness data db).2)
     = rows_of_type ty (patterns db)) /\
  query_blocking_factors (patterns (assess_readiness data db).2)
  = query_blocking_factors (patterns db).
Proof.
  split.
  - intros ty. apply assess_readiness_other_type.
  - unfold query_blocking_factors.
    change (filter (fun r => pattern_type r = "blocking_factor"%string) ?t)
      with (rows_of_type "blocking_factor" t).
    by rewrite assess_readiness_other_type.
Qed.



(* ================================================================== *)
(** * The percentile and the report as a whole *)

Section Shapes.

Lemma length_filter_mono {A : Type} (P Q : A -> Prop)
    `{forall x, Decision (P x)} `{forall x, Decision (Q x)} (l : list A) :
  (forall x, P x -> Q x) -> (length (filter P l) <= length (filter Q l))%nat.
Proof.
  intros HPQ. induction l as [|x l IH]; [done|].
  rewrite !filter_cons. destruct (decide (P x)) as [HP|HP].
  - rewrite decide_True by auto. cbn [length]. lia.
  - destruct (decide (Q x)); cbn [length]; lia.
Qed.

Lemma count_below_mono (s1 s2 : Z) (db : store) :
  s1 <= s2 -> count_below s1 db <= count_below s2 db.
Proof.
  intros Hs. unfold count_below, py_len. apply Nat2Z.inj_le.
  apply length_filter_mono. intros a. lia.
Qed.

Lemma nearest_range (p l t : Z) :
  0 < t -> 0 <= l <= t -> 2 * Z.abs (p * t - 100 * l) <= t -> 0 <= p <= 100.
Proof.
  intros Ht Hl Hn. apply abs2_le in Hn. split.
  - destruct (Z.le_gt_cases 0 p) as [|Hneg]; [done|exfalso].
    assert (p * t <= (- 1) * t) by (apply Z.mul_le_mono_nonneg_r; lia). lia.
  - destruct (Z.le_gt_cases p 100) as [|Hbig]; [done|exfalso].
    assert (101 * t <= p * t) by (apply Z.mul_le_mono_nonneg_r; lia). lia.
Qed.

Lemma nearest_mono (p1 p2 l1 l2 t : Z) :
  0 < t -> l1 < l2 ->
  2 * Z.abs (p1 * t - 100 * l1) <= t -> 2 * Z.abs (p2 * t - 100 * l2) <= t ->
  p1 <= p2.
Proof.
  intros Ht Hl H1 H2. apply abs2_le in H1. apply abs2_le in H2.
  destruct (Z.le_gt_cases p1 p2) as [|Hgt]; [done|exfalso].
  assert ((p2 + 1) * t <= p1 * t) by (apply Z.mul_le_mono_nonneg_r; lia). lia.
Qed.

Lemma omap_Forall2 {A B : Type} (f : A -> outcome B) (l : list A) (rows : list B) :
  omap f l = Returned rows -> Forall2 (fun a b => f a = Returned b) l rows.
Proof.
  revert rows. induction l as [|a l IH]; intros rows; cbn [omap].
  - intros [= <-]. constructor.
  - destruct (f a) as [b|] eqn:Ha; cbn [obind]; [|done].
    destruct (omap f l) as [rest|]; cbn [obind]; [|done].
    intros [= <-]. constructor; [done|by apply IH].
Qed.

Lemma opportunities_of_sizes (top_industries : list industry_row)
    (opportunities : list opportunity_row) :
  opportunities_of top_industries = Returned opportunities ->
  Forall2 (fun ind o => market_size o = ir_frequency ind)
    (filter (fun ind => 5 <= ir_frequency ind) (take 3 top_industries)) opportunities.
Proof.
  unfold opportunities_of. intros Hopps.
  destruct (omap _ (take 3 top_industries)) as [rows|] eqn:Hrows; cbn [obind] in Hopps; [|done].
  injection Hopps as <-.
  eapply omap_concat_inv; [|exact Hrows].
  intros ind bs. cbn beta.
  destruct (Z.leb_spec 5 (ir_frequency ind)) as [Hge|Hlt].
  - destruct (float_of_avg _) as [avg|]; cbn [obind]; [|done].
    destruct (float_of_int _) as [f|]; cbn [obind]; [|done].
    intros [= <-]. left. split; [done|]. eexists. split; reflexivity.
  - intros [= <-]. right. split; [lia|done].
Qed.

Lemma count_high_performers_range (db : store) :
  0 <= count_high_performers db <= count_all db.
Proof.
  unfold count_high_performers, count_all, py_len.
  pose proof (length_filter (fun a => 75 <= a_overall_score a) (assessments db)). lia.
Qed.

End Shapes.

(** X16.  With fewer than 2^44 stored assessments the percentile lies
    between 0 and 100 and never decreases when the score increases, so
    the message's "top (100 - percentile)%" lies between 0 and 100 and
    never gets worse for a better score. *)
Theorem get_percentile_monotone (s1 s2 : Z) (db : store) :
  count_all db < 2 ^ 44 -> s1 <= s2 ->
  exists r1 r2,
    get_percentile s1 db = Returned r1 /\ get_percentile s2 db = Returned r2 /\
    0 <= percentile r1 /\ percentile r1 <= percentile r2 /\ percentile r2 <= 100.
Proof.
  intros Hsmall Hs. unfold get_percentile.
  pose proof (count_below_range s1 db) as Hr1.
  pose proof (count_below_range s2 db) as Hr2.
  pose proof (count_below_mono s1 s2 db Hs) as Hmono.
  destruct (Z.eq_dec (count_all db) 0) as [H0|Hne].
  - rewrite H0, !percentile_of_empty. cbn [obind].
    eexists _, _. split; [reflexivity|]. split; [reflexivity|]. cbn [percentile]. lia.
  - destruct (percentile_of_nearest (count_below s1 db) (count_all db)) as (p1 & Hp1 & Hn1);
      [lia|lia|].
    destruct (percentile_of_nearest (count_below s2 db) (count_all db)) as (p2 & Hp2 & Hn2);
      [lia|lia|].
    rewrite Hp1, Hp2. cbn [obind].
    eexists _, _. split; [reflexivity|]. split; [reflexivity|]. cbn [percentile].
    assert (Hpos : 0 < count_all db) by lia.
    pose proof (nearest_range p1 _ _ Hpos Hr1 Hn1).
    pose proof (nearest_range p2 _ _ Hpos Hr2 Hn2).
    split; [lia|]. split; [|lia].
    destruct (Z.eq_dec (count_below s1 db) (count_below s2 db)) as [Heq|Hlt].
    + rewrite Heq in Hp1. rewrite Hp1 in Hp2. injection Hp2 as ->. lia.
    + apply (nearest_mono p1 p2 (count_below s1 db) (count_below s2 db) (count_all db));
        [lia|lia|done|done].
Qed.

Lemma get_percentile_monotone_witness :
  exists r1 r2,
    get_percentile 10 nine_store = Returned r1 /\
    get_percentile 20 nine_store = Returned r2 /\
    0 <= percentile r1 /\ percentile r1 <= percentile r2 /\ percentile r2 <= 100.
Proof.
  apply get_percentile_monotone; [vm_compute; reflexivity|lia].
Defined.

(** X17.  A monthly report that is produced counts all assessments,
    counts as highly ready no more than that, lists the rows of the two
    pattern queries one for one and in order (at most five each), has at
    most three market opportunities, each for an industry assessed at
    least 5 times, and has one recommendation per non-empty part: one when
    there is an opportunity and one when there is a blocking factor. *)
Theorem monthly_report_shape (db : store) (r : report) :
  generate_monthly_report db = Returned r ->
  total_assessments r = count_all db /\
  0 <= high_ready_count r <= total_assessments r /\
  Forall2 (fun i t => t.1.1 = ir_industry i /\ t.2 = ir_frequency i /\
                      float_of_avg (ir_avg_score i) = Returned t.1.2)
    (query_top_industries (patterns db)) (top_ready_industries r) /\
  Forall2 (fun b t => t.1.1 = br_category b /\ t.1.2 = br_frequency b /\
                      float_of_avg (br_avg_score b) = Returned t.2)
    (query_blocking_factors (patterns db)) (blocking_factors r) /\
  (length (top_ready_industries r) <= 5)%nat /\
  (length (blocking_factors r) <= 5)%nat /\
  (length (market_opportunities r) <= 3)%nat /\
  Forall (fun o => 5 <= market_size o) (market_opportunities r) /\
  length (recommendations r)
  = ((if market_opportunities r is [] then 0 else 1)
     + (if blocking_factors r is [] then 0 else 1))%nat.
Proof.
  unfold generate_monthly_report. intros Hrep.
  destruct (opportunities_of _) as [opps|] eqn:Hopps; cbn [obind] in Hrep; [|done].
  destruct (omap _ (query_top_industries _)) as [tops|] eqn:Htops; cbn [obind] in Hrep; [|done].
  destruct (omap _ (query_blocking_factors _)) as [blocks|] eqn:Hblocks;
    cbn [obind] in Hrep; [|done].
  injection Hrep as <-.
  cbn [total_assessments high_ready_count top_ready_industries blocking_factors
       market_opportunities recommendations].
  apply omap_Forall2 in Htops. apply omap_Forall2 in Hblocks.
  apply opportunities_of_sizes in Hopps.
  split; [reflexivity|]. split; [apply count_high_performers_range|].
  split; [|split; [|split; [|split; [|split; [|split]]]]].
  - eapply Forall2_impl; [exact Htops|]. intros i t. cbn beta.
    destruct (float_of_avg _) as [a|]; cbn [obind]; [|done]. by intros [= <-].
  - eapply Forall2_impl; [exact Hblocks|]. intros b t. cbn beta.
    destruct (float_of_avg _) as [a|]; cbn [obind]; [|done]. by intros [= <-].
  - rewrite <- (Forall2_length _ _ _ Htops).
    unfold query_top_industries. rewrite length_map, length_take. lia.
  - rewrite <- (Forall2_length _ _ _ Hblocks).
    unfold query_blocking_factors. rewrite length_map, length_take. lia.
  - rewrite <- (Forall2_length _ _ _ Hopps).
    pose proof (length_filter (fun ind => 5 <= ir_frequency ind)
                  (take 3 (query_top_industries (patterns db)))) as Hf.
    rewrite length_take in Hf. lia.
  - eapply Forall2_Forall_r; [exact Hopps|].
    apply Forall_forall. intros ind Hind o ->.
    by apply list_elem_of_filter in Hind as [? _].
  - unfold _generate_recommendations. rewrite length_app.
    assert (Hb : match query_blocking_factors (patterns db), blocks with
                 | [], [] | _ :: _, _ :: _ => True | _, _ => False end).
    { by destruct Hblocks. }
    destruct opps, (query_blocking_factors (patterns db)), blocks; done.
Qed.

Lemma monthly_report_shape_witness :
  exists r,
    generate_monthly_report tech_store = Returned r /\
    total_assessments r = 0 /\
    (top_ready_industries r).*2 = [3] /\ (blocking_factors r).*1.*2 = [1] /\
    length (recommendations r) = 1%nat.
Proof.
  destruct (generate_monthly_report tech_store) as [r|] eqn:H;
    [|vm_compute in H; discriminate H].
  destruct (monthly_report_shape tech_store r H) as (Ht & _ & _ & _ & _ & _ & _ & _ & Hl).
  exists r. split; [reflexivity|]. split; [exact Ht|].
  vm_compute in H. injection H as <-. repeat split; reflexivity.
Defined.

(* ================================================================== *)
(** * The engine on tables the program has written *)

Section Analysable.

Context {col : Column} {bounded : BoundedColumn col}.

Lemma on_conflict_scored (s : Z) (r : pattern_row) :
  0 <= s <= 100 -> scored_row r -> scored_row (on_conflict (Some s) r).
Proof.
  intros Hs (Hf & a & Ha & Ha0 & Ha100). unfold scored_row, on_conflict.
  cbn [frequency avg_score]. split; [lia|].
  rewrite Ha. cbn [mbind option_bind].
  eexists. split; [reflexivity|].
  exact (running_between a (frequency r) s 0 100 Hf Ha0 Ha100 Hs).
Qed.

Lemma inserted_scored (st : pattern_stmt) (s : Z) :
  stmt_score st = Some s -> 0 <= s <= 100 -> scored_row (inserted st).
Proof.
  intros Hst Hs. unfold scored_row, inserted. cbn [frequency avg_score].
  split; [lia|]. rewrite Hst. exists (inject_Z s). split; [reflexivity|].
  split; unfold Qle; cbn [Qnum Qden inject_Z]; lia.
Qed.

Lemma upsert_analysable (st : pattern_stmt) (table : list pattern_row) :
  scored_stmt st -> analysable table -> analysable (upsert st table).
Proof.
  intros Hst. unfold analysable.
  induction 1 as [|r table Hr Htable IH]; cbn [upsert].
  - constructor; [|constructor]. intros Hty.
    destruct (Hst Hty) as (s & Hs & Hrange). by apply (inserted_scored st s).
  - destruct (has_key _ _ r) eqn:Hkey.
    + constructor; [|exact Htable].
      apply has_key_true in Hkey as [Hty _].
      intros Hread.
      assert (Hread' : read_by_analysis (pattern_type r)) by (by destruct (stmt_score st)).
      destruct (Hst ltac:(by rewrite <- Hty)) as (s & -> & Hrange).
      apply on_conflict_scored; [exact Hrange|by apply Hr].
    + by constructor.
Qed.

Lemma execute_all_analysable (stmts : list pattern_stmt) (table : list pattern_row) :
  Forall scored_stmt stmts -> analysable table -> analysable (execute_all stmts table).
Proof.
  unfold execute_all. intros Hall. revert table.
  induction Hall as [|st stmts Hst _ IH]; intros table Htable; cbn [foldl]; [done|].
  apply IH. by apply upsert_analysable.
Qed.

Lemma float_of_avg_returns (r : pattern_row) :
  scored_row r -> exists x, float_of_avg (avg_score r) = Returned x.
Proof.
  intros (_ & a & -> & Ha0 & Ha100). unfold float_of_avg, float_of_Q.
  unfold Qle in Ha0, Ha100. cbn [Qnum Qden] in Ha0, Ha100.
  destruct (int_true_div_small (Qnum a) (Z.pos (Qden a)) 7)
    as [[_ Hdiv]|(E & _ & _ & _ & Hdiv)]; [lia|lia| | |]; [|by eexists|by eexists].
  change (2 ^ 7) with 128. lia.
Qed.

Lemma query_top_industries_elem (table : list pattern_row) (i : industry_row) :
  i ∈ query_top_industries table ->
  exists r, r ∈ table /\ ready_industry r /\
    ir_avg_score i = avg_score r /\ ir_frequency i = frequency r.
Proof.
  unfold query_top_industries. intros Hi.
  apply list_elem_of_fmap in Hi as (r & -> & Hr).
  apply subseteq_take in Hr. rewrite (stable_sort_perm avg_desc) in Hr.
  apply list_elem_of_filter in Hr as [Hready Hr]. by exists r.
Qed.

Lemma query_blocking_factors_elem (table : list pattern_row) (b : blocker_row) :
  b ∈ query_blocking_factors table ->
  exists r, r ∈ table /\ blocking_factor_row r /\
    br_avg_score b = avg_score r /\ br_frequency b = frequency r.
Proof.
  unfold query_blocking_factors. intros Hb.
  apply list_elem_of_fmap in Hb as (r & -> & Hr).
  apply subseteq_take in Hr. rewrite (stable_sort_perm freq_desc) in Hr.
  apply list_elem_of_filter in Hr as [Hblock Hr]. by exists r.
Qed.

Lemma top_industries_float (table : list pattern_row) (i : industry_row) :
  analysable table -> i ∈ query_top_industries table ->
  exists x, float_of_avg (ir_avg_score i) = Returned x.
Proof.
  intros Htable Hi.
  apply query_top_industries_elem in Hi as (r & Hr & [Hty _] & -> & _).
  apply float_of_avg_returns. unfold analysable in Htable.
  rewrite Forall_forall in Htable. apply Htable; [exact Hr|by left].
Qed.

Lemma blocking_factors_float (table : list pattern_row) (b : blocker_row) :
  analysable table -> b ∈ query_blocking_factors table ->
  exists x, float_of_avg (br_avg_score b) = Returned x.
Proof.
  intros Htable Hb.
  apply query_blocking_factors_elem in Hb as (r & Hr & Hty & -> & _).
  apply float_of_avg_returns. unfold analysable in Htable.
  rewrite Forall_forall in Htable. apply Htable; [exact Hr|by right].
Qed.

Lemma conversion_insight_returns (high_performers total : Z) :
  0 <= high_performers <= total ->
  exists rows, conversion_insight high_performers total = Returned rows.
Proof.
  intros Hh. unfold conversion_insight.
  destruct (Z.ltb_spec 0 total); [|by eexists].
  destruct (int_true_div_small high_performers total 0)
    as [[_ Hdiv]|(E & _ & _ & _ & Hdiv)]; [lia|lia|lia| |];
    rewrite Hdiv; cbn [obind]; by eexists.
Qed.

Lemma analyze_patterns_total (db : store) :
  analysable (patterns db) -> exists db', analyze_patterns db = (db', Returned tt).
Proof.
  intros Htable. unfold analyze_patterns, and_then, insert_insights.
  assert (H1 : exists i1, top_industry_insight (query_top_industries (patterns db))
                          = Returned i1).
  { unfold top_industry_insight.
    destruct (query_top_industries (patterns db)) as [|top rest] eqn:Hq; [by eexists|].
    destruct (top_industries_float (patterns db) top Htable) as [x ->].
    - rewrite Hq. apply list_elem_of_here.
    - cbn [obind]. by eexists. }
  assert (H2 : exists i2, top_blocker_insight (query_blocking_factors (patterns db))
                          = Returned i2).
  { unfold top_blocker_insight.
    destruct (query_blocking_factors (patterns db)) as [|top rest] eqn:Hq; [by eexists|].
    destruct (blocking_factors_float (patterns db) top Htable) as [x ->].
    - rewrite Hq. apply list_elem_of_here.
    - cbn [obind]. by eexists. }
  destruct H1 as [i1 ->], H2 as [i2 ->].
  destruct (conversion_insight_returns (count_high_performers db) (count_all db))
    as [i3 ->]; [apply count_high_performers_range|].
  by eexists.
Qed.

Lemma log_pattern_stmts_scored (d : assessment_data) :
  scores_in_range d ->
  exists stmts, log_pattern_stmts d = Returned stmts /\ Forall scored_stmt stmts.
Proof.
  intros [(overall & Ho & Hrange) Hcat].
  unfold log_pattern_stmts, high_performer_stmts. rewrite Ho. cbn [obind].
  eexists. split; [reflexivity|].
  apply Forall_app. split; [|apply Forall_app; split].
  - unfold industry_stmts. rewrite Ho.
    destruct (_ && _); [|constructor].
    constructor; [|constructor]. intros _. by exists overall.
  - apply Forall_forall. intros st Hst.
    apply blocking_stmts_spec in Hst as (scores & c & s & Hsc & Hin & _ & ->).
    specialize (Hcat scores Hsc). rewrite Forall_forall in Hcat.
    intros _. exists s. split; [reflexivity|]. exact (Hcat (c, s) Hin).
  - destruct (75 <=? overall); [|constructor].
    constructor; [|constructor]. intros [Hty|Hty]; discriminate Hty.
Qed.

End Analysable.

(** X18.  The engine does not fail on its own data: from a patterns
    table in which every [industry_readiness] and [blocking_factor] row is
    counted at least once with an average between 0 and 100 (the empty
    table for instance), [log_patterns] on an assessment with an overall
    score and category scores between 0 and 100 returns, whether or not
    the analysis runs, and leaves such a table. *)
Theorem log_patterns_never_fails {col : Column} {bounded : BoundedColumn col}
    (d : assessment_data) (db : store) :
  scores_in_range d -> analysable (patterns db) ->
  exists db', log_patterns d db = (db', Returned tt) /\ analysable (patterns db').
Proof.
  intros Hd Htable.
  destruct (log_pattern_stmts_scored d Hd) as (stmts & Hs & Hstmts).
  rewrite (log_patterns_returned _ _ _ Hs).
  pose proof (execute_all_analysable stmts (patterns db) Hstmts Htable) as Hnew.
  unfold _check_analysis_trigger.
  destruct (_ =? 0).
  - destruct (analyze_patterns_total (set_patterns db (execute_all stmts (patterns db))))
      as [db' Hdb']; [exact Hnew|].
    exists db'. split; [exact Hdb'|].
    apply analyze_patterns_inv in Hdb' as (_ & _ & _ & _ & -> & _). exact Hnew.
  - eexists. split; [reflexivity|exact Hnew].
Qed.

Lemma log_patterns_never_fails_witness :
  exists db', log_patterns sample_data ten_store = (db', Returned tt) /\
              analysable (patterns db').
Proof.
  apply (log_patterns_never_fails (bounded := numeric_bounded)).
  - split.
    + exists 70. split; [reflexivity|lia].
    + intros scores [= <-]. repeat constructor; cbn; lia.
  - assert (Hweak : Forall (fun r => pattern_type r = "weak_category"%string)
                      (patterns ten_store)).
    { refine (bool_decide_unpack _ _). vm_compute. exact I. }
    eapply Forall_impl; [exact Hweak|].
    intros r Hty [H|H]; rewrite Hty in H; discriminate H.
Defined.

(** X19.  The handler keeps such a table when the answers lie between 0
    and 100 (fewer than 2^40 of them): what it writes for an industry can
    be read by the analysis and the report. *)
Theorem assess_readiness_keeps_analysable {col : Column} {bounded : BoundedColumn col} (data : request) (db : store) :
  (forall answers, req_answers data = Some answers ->
     map_Forall (fun _ v => 0 <= v <= 100) answers /\ Z.of_nat (size answers) < 2 ^ 40) ->
  analysable (patterns db) ->
  analysable (patterns (assess_readiness data db).2).
Proof.
  intros Hans Htable.
  destruct (assess_readiness_cases data db)
    as [[_ ->]|[(? & ? & _ & _ & ->)|(answers & overall & scores & Ha & Hne & Ho & _ & ->)]];
    cbn [snd]; [done|done|].
  cbn [store_assessment patterns].
  apply execute_all_analysable; [|exact Htable].
  destruct (Hans answers Ha) as [Hall Hsize].
  pose proof (answer_values_nonempty answers Hne) as Hvne.
  pose proof (answer_values_Forall _ answers Hall) as Hv.
  pose proof (answer_values_length answers) as Hlen.
  pose proof (py_len_pos _ Hvne) as Hpos.
  rewrite round_mean_spec in Ho by (done || lia). injection Ho as <-.
  pose proof (py_sum_bounds 0 100 _ Hv) as Hsum.
  apply Forall_forall. intros st Hst.
  apply assess_pattern_stmts_type in Hst as Hty.
  unfold assess_pattern_stmts in Hst. apply elem_of_app in Hst as [Hst|Hst].
  - destruct (_ && _); [|by apply elem_of_nil in Hst].
    apply list_elem_of_singleton in Hst as ->. intros _.
    eexists. split; [reflexivity|]. split.
    + apply rne_div_ge; lia.
    + apply rne_div_le; lia.
  - apply list_elem_of_fmap in Hst as (cs & -> & _).
    intros [Hread|Hread]; discriminate Hread.
Qed.

Lemma assess_readiness_keeps_analysable_witness :
  analysable (patterns (assess_readiness (retail_request 40) empty_store).2).
Proof.
  apply assess_readiness_keeps_analysable.
  - intros answers [= <-]. split; [|vm_compute; reflexivity].
    apply map_Forall_insert_2; [lia|apply map_Forall_empty].
  - constructor.
Defined.

(** X20.  On such a table whose frequencies do not exceed 2^51 the
    monthly report is produced: no [float(None)] and no overflow occurs. *)
Theorem generate_monthly_report_returns (db : store) :
  analysable (patterns db) ->
  Forall (fun r => frequency r <= 2 ^ 51) (patterns db) ->
  exists r, generate_monthly_report db = Returned r.
Proof.
  intros Htable Hfreq. unfold generate_monthly_report.
  assert (Hopps : exists opps,
            opportunities_of (query_top_industries (patterns db)) = Returned opps).
  { unfold opportunities_of.
    assert (Hsub : take 3 (query_top_industries (patterns db))
                   ⊆ query_top_industries (patterns db)) by apply subseteq_take.
    induction (take 3 (query_top_industries (patterns db))) as [|ind inds IH];
      cbn [omap obind]; [by eexists|].
    assert (Hind : ind ∈ query_top_industries (patterns db))
      by (apply Hsub, list_elem_of_here).
    destruct IH as [opps Hrest].
    { intros x Hx. apply Hsub. by apply list_elem_of_further. }
    destruct (omap _ inds) as [rest|]; cbn [obind] in Hrest; [|done].
    destruct (Z.leb_spec 5 (ir_frequency ind)) as [Hge|Hlt]; cbn [obind]; [|by eexists].
    destruct (top_industries_float _ _ Htable Hind) as [x ->]. cbn [obind].
    apply query_top_industries_elem in Hind as (r & Hr & _ & _ & Hf).
    rewrite Forall_forall in Hfreq. specialize (Hfreq r Hr).
    unfold float_of_int.
    destruct (int_true_div_small (ir_frequency ind) 1 51)
      as [[_ Hdiv]|(E & _ & _ & _ & Hdiv)]; [lia|lia|lia| |];
      rewrite Hdiv; cbn [obind]; by eexists. }
  destruct Hopps as [opps ->]. cbn [obind].
  assert (Htops : exists tops,
            omap (fun i => do a <- float_of_avg (ir_avg_score i);
                           Returned (ir_industry i, a, ir_frequency i))
              (query_top_industries (patterns db)) = Returned tops).
  { pose proof (top_industries_float (patterns db)) as Hfloat.
    specialize (fun i => Hfloat i Htable).
    induction (query_top_industries (patterns db)) as [|i l IH]; cbn [omap]; [by eexists|].
    destruct (Hfloat i) as [x ->]; [apply list_elem_of_here|]. cbn [obind].
    destruct IH as [tops ->]; [intros j Hj; by apply Hfloat, list_elem_of_further|].
    cbn [obind]. by eexists. }
  destruct Htops as [tops ->]. cbn [obind].
  assert (Hblocks : exists blocks,
            omap (fun b => do a <- float_of_avg (br_avg_score b);
                           Returned (br_category b, br_frequency b, a))
              (query_blocking_factors (patterns db)) = Returned blocks).
  { pose proof (blocking_factors_float (patterns db)) as Hfloat.
    specialize (fun b => Hfloat b Htable).
    induction (query_blocking_factors (patterns db)) as [|b l IH]; cbn [omap]; [by eexists|].
    destruct (Hfloat b) as [x ->]; [apply list_elem_of_here|]. cbn [obind].
    destruct IH as [blocks ->]; [intros j Hj; by apply Hfloat, list_elem_of_further|].
    cbn [obind]. by eexists. }
  destruct Hblocks as [blocks ->]. cbn [obind]. by eexists.
Qed.

Lemma generate_monthly_report_returns_witness :
  exists r, generate_monthly_report tech_store = Returned r.
Proof.
  apply generate_monthly_report_returns.
  - apply execute_all_analysable; [|apply List.Forall_nil].
    repeat first [apply List.Forall_cons | apply List.Forall_nil];
      intros _; eexists; (split; [reflexivity|lia]).
  - refine (bool_decide_unpack _ _). vm_compute. exact I.
Defined.
